(** * JAQS strategy core

    A shallow embedding of [jaqs/trade/strategy.py]: the order bookkeeping of
    [Strategy] (task ids, entrust ids, the task map, batch submission and
    cancellation) and the weight arithmetic of [AlphaStrategy] (portfolio
    construction, suspension re-weighting, Monte-Carlo search and the
    translation of weights into goal positions).

    Conventions of the embedding.
    - [generate_weights_order] rounds a quotient of floats to an integer, so
      the last bit of the quotient decides the result: its numbers are IEEE
      binary64 ([PrimFloat.float]), and every operation is the rounded one
      Python performs, in the order Python performs it.
    - Elsewhere a Python or numpy float is a [pyfloat]: an exact rational, or
      one of NaN, +inf and -inf with the IEEE rules for them.  The rounding of
      finite values, their overflow and the sign of zero are not modelled
      there.
    - A weight mapping is a [gmap]: the source reads it through lookups, and
      through sums and comprehensions that do not depend on the order in which
      a dict is gone through.  The one dict whose iteration order shows in a
      result, the [weights_dic] of [generate_weights_order] (the goals come
      out in that order), is given by its items in iteration order.  Dicts
      that are only looked up and updated ([task_id_map], the sequence
      counters, [prices]) are [gmap]s as well; the dict of sizes that
      [_get_weights_last] fills by insertion is an association list.
    - A method that mutates [self] is a function from the object to an outcome
      and the object afterwards; a raised exception is the outcome [Raise],
      and what was mutated before the raise stays mutated. *)

From Stdlib Require Import QArith Qround Qabs Lqa.
From Corelib Require Import PrimFloat.
From Stdlib Require Import Floats.FloatOps Floats.SpecFloat.
From stdpp Require Import gmap strings list pretty.

Local Open Scope Z_scope.

(** ** Python outcomes *)

Inductive exn : Type :=
  | NotImplementedError (msg : string)
  | ValueError (msg : string)
  | AssertionError
  | KeyError (key : string)
  | TypeError (msg : string)
  | AttributeError (msg : string)
  | OverflowError (msg : string)
  | ZeroDivisionError.

Inductive result (A : Type) : Type :=
  | Ok (a : A)
  | Raise (e : exn).
Arguments Ok {A} a.
Arguments Raise {A} e.

#[global] Instance result_ret : MRet result := fun _ a => Ok a.
#[global] Instance result_bind : MBind result := fun _ _ f r =>
  match r with
  | Ok a => f a
  | Raise e => Raise e
  end.

(** A method of an object of type [S]: the outcome and the object after the
    call. *)
Definition method (S A : Type) : Type := S -> result A * S.

#[global] Instance method_ret {S} : MRet (method S) := fun _ a s => (Ok a, s).
#[global] Instance method_bind {S} : MBind (method S) := fun _ _ f m s =>
  match m s with
  | (Ok a, s') => f a s'
  | (Raise e, s') => (Raise e, s')
  end.

Definition raise {S A} (e : exn) : method S A := fun s => (Raise e, s).
Definition gets {S A} (f : S -> A) : method S A := fun s => (Ok (f s), s).
Definition modify {S} (f : S -> S) : method S () := fun s => (Ok (), f s).

(** [bool(s)] of a string: the empty string is false. *)
Definition truthy (s : string) : bool := negb (String.eqb s "").

(** [sep.join(l)]. *)
Definition join (sep : string) (l : list string) : string := String.concat sep l.

(** ** Numbers *)

Definition Qltb (x y : Q) : bool := negb (Qle_bool y x).

(** A float of the weight arithmetic: a rational, NaN, +inf or -inf. *)
Inductive pyfloat : Type :=
  | Num (q : Q)
  | NaN
  | PInf
  | NInf.

(** [np.isnan(v)]: true for NaN only, an infinity is not NaN. *)
Definition isnan (v : pyfloat) : bool :=
  match v with
  | NaN => true
  | _ => false
  end.

(** [abs(v)]. *)
Definition f_abs (v : pyfloat) : pyfloat :=
  match v with
  | Num q => Num (Qabs q)
  | NaN => NaN
  | PInf | NInf => PInf
  end.

(** [a + b]: inf + (-inf) is NaN. *)
Definition f_add (a b : pyfloat) : pyfloat :=
  match a, b with
  | NaN, _ | _, NaN => NaN
  | Num x, Num y => Num (x + y)
  | PInf, NInf | NInf, PInf => NaN
  | PInf, _ | _, PInf => PInf
  | NInf, _ | _, NInf => NInf
  end.

(** [a * b]: 0 * inf is NaN. *)
Definition f_mul (a b : pyfloat) : pyfloat :=
  match a, b with
  | NaN, _ | _, NaN => NaN
  | Num x, Num y => Num (x * y)
  | Num x, PInf | PInf, Num x =>
      if Qeq_bool x 0 then NaN else if Qltb x 0 then NInf else PInf
  | Num x, NInf | NInf, Num x =>
      if Qeq_bool x 0 then NaN else if Qltb x 0 then PInf else NInf
  | PInf, PInf | NInf, NInf => PInf
  | PInf, NInf | NInf, PInf => NInf
  end.

(** [a / b] as numpy divides (no exception): inf / inf and 0 / 0 are NaN, a
    finite value over an infinity is 0; a zero divisor counts as +0. *)
Definition f_div (a b : pyfloat) : pyfloat :=
  match a, b with
  | NaN, _ | _, NaN => NaN
  | Num x, Num y =>
      if Qeq_bool y 0 then
        if Qeq_bool x 0 then NaN else if Qltb x 0 then NInf else PInf
      else Num (x / y)
  | Num _, (PInf | NInf) => Num 0
  | (PInf | NInf), (PInf | NInf) => NaN
  | PInf, Num y => if Qltb y 0 then NInf else PInf
  | NInf, Num y => if Qltb y 0 then PInf else NInf
  end.

(** [a < b]: false as soon as one side is NaN. *)
Definition f_ltb (a b : pyfloat) : bool :=
  match a, b with
  | NaN, _ | _, NaN => false
  | Num x, Num y => Qltb x y
  | _, NInf => false
  | NInf, _ => true
  | PInf, _ => false
  | _, PInf => true
  end.

(** [np.abs(l)] and [np.sum(l)] of a list of floats. *)
Definition np_abs (l : list pyfloat) : list pyfloat := map f_abs l.
Definition np_sum (l : list pyfloat) : pyfloat := foldr f_add (Num 0) l.

(** Python 2 [round(x, 0)] followed by [int]: to the nearest integer, a tie
    going away from zero. *)
Definition py_round (x : Q) : Z :=
  if Qle_bool 0 x then Qfloor (x + (1 # 2)) else Qceiling (x - (1 # 2)).

(** [np.int64] arithmetic wraps around; the conversion [np.int64(z)] of a
    Python integer that does not fit raises instead. *)
Definition int64 (z : Z) : Z := (z + 2 ^ 63) mod 2 ^ 64 - 2 ^ 63.

Definition int64_fits (z : Z) : bool := (- 2 ^ 63 <=? z) && (z <? 2 ^ 63).

(** [1e-8] and the search sentinel [1e30]. *)
Definition eps : Q := 1 # 100000000.
Definition sentinel : Q := inject_Z (10 ^ 30).

(** ** Binary64 *)

(** The rational a finite binary64 number stands for; an infinity and NaN
    stand for none. *)
Definition float_value (x : float) : option Q :=
  match Prim2SF x with
  | S754_zero _ => Some 0%Q
  | S754_finite s m e =>
      let mz := if s then Z.neg m else Z.pos m in
      Some (match e with
            | Z0 => inject_Z mz
            | Z.pos p => inject_Z (mz * 2 ^ Z.pos p)
            | Z.neg p => Qmake mz (2 ^ p)
            end)
  | S754_infinity _ | S754_nan => None
  end.

(** [int(round(x, 0))] of a float: [round] keeps an infinity and NaN, and
    [int] refuses them. *)
Definition int_round (x : float) : result Z :=
  match float_value x with
  | Some q => Ok (py_round q)
  | None =>
      if is_nan x then Raise (ValueError "cannot convert float NaN to integer")
      else Raise (OverflowError "cannot convert float infinity to integer")
  end.

(** The float nearest to an integer (ties to even), and the conversion Python
    makes when an integer meets a float in an operation: an integer too large
    for a float raises. *)
Definition float_of_Z (z : Z) : float := SF2Prim (binary_normalize prec emax z 0 false).

Definition float_of_int (z : Z) : result float :=
  let x := float_of_Z z in
  if is_infinity x then Raise (OverflowError "long int too large to convert to float")
  else Ok x.

(** ** Orders, positions and the collaborators *)

Inductive ORDER_ACTION : Type := BUY | SELL.

(** Modelled from the spec: the order class of [jaqs.data.basic.order] is not
    part of the sources.  An order carries a symbol, an action, a price, a
    size, the trade date (and time), its entrust identifier and its task
    identifier; [price_target] is the extra attribute [goal_portfolio] sets.
    The status is written only by the gateway callbacks and is left out. *)
Module Order.
Record t : Type := mk {
  symbol : string;
  entrust_action : ORDER_ACTION;
  entrust_price : Q;
  entrust_size : Z;
  entrust_date : Z;
  entrust_time : Z;
  task_id : string;
  entrust_no : string;
  price_target : option string
}.

Definition new_order (symbol : string) (action : ORDER_ACTION) (price : Q)
    (size date time : Z) : t :=
  mk symbol action price size date time "" "" None.

Definition set_task_id (v : string) (o : t) : t :=
  mk (symbol o) (entrust_action o) (entrust_price o) (entrust_size o)
     (entrust_date o) (entrust_time o) v (entrust_no o) (price_target o).

Definition set_entrust_no (v : string) (o : t) : t :=
  mk (symbol o) (entrust_action o) (entrust_price o) (entrust_size o)
     (entrust_date o) (entrust_time o) (task_id o) v (price_target o).

Definition set_price_target (v : string) (o : t) : t :=
  mk (symbol o) (entrust_action o) (entrust_price o) (entrust_size o)
     (entrust_date o) (entrust_time o) (task_id o) (entrust_no o) (Some v).
End Order.

(** Modelled from the spec: [jaqs.data.basic.position] is not part of the
    sources.  A goal position is a symbol with the size wanted for it; of a
    tracked position the strategy reads the current size only. *)
Module GoalPosition.
Record t : Type := mk { symbol : string; size : Z }.
End GoalPosition.

Module Position.
Record t : Type := mk { curr_size : Z }.
End Position.

(** Modelled from the spec: the gateway collaborator.  [place_order(order)]
    and [cancel_order(entrust_id)] answer with an error message, the empty
    string meaning success.  The answer may depend on the calls made so far,
    which the model keeps in [calls]. *)
Inductive gw_call : Type :=
  | GwPlace (o : Order.t)
  | GwCancel (entrust_no : string).

Module Gateway.
Record t : Type := mk {
  on_place_order : list gw_call -> Order.t -> string;
  on_cancel_order : list gw_call -> string -> string;
  calls : list gw_call
}.

Definition place_order (o : Order.t) (g : t) : string * t :=
  (on_place_order g (calls g) o,
   mk (on_place_order g) (on_cancel_order g) (calls g ++ [GwPlace o])).

Definition cancel_order (entrust_no : string) (g : t) : string * t :=
  (on_cancel_order g (calls g) entrust_no,
   mk (on_place_order g) (on_cancel_order g) (calls g ++ [GwCancel entrust_no])).
End Gateway.

(** Modelled from the spec: the position tracker of [jaqs.trade.gateway].
    [add_order] registers an order, [get_position(symbol, date)] gives the
    position of a symbol or nothing, [holding_securities] is the set of
    symbols with a tracked position. *)
Module PortfolioManager.
Record t : Type := mk {
  orders : list Order.t;
  positions : gmap string Position.t;
  holding_securities : gset string
}.

Definition add_order (o : Order.t) (p : t) : t :=
  mk (orders p ++ [o]) (positions p) (holding_securities p).

Definition get_position (p : t) (sec : string) (date : Z) : option Position.t :=
  positions p !! sec.
End PortfolioManager.

(** Modelled from the spec: [jaqs.util.sequence.SequenceGenerator], a counter
    per key that starts at 1. *)
Module SequenceGenerator.
Definition get_next (key : string) (d : gmap string Z) : Z * gmap string Z :=
  let n := default 0 (d !! key) + 1 in (n, <[key := n]> d).
End SequenceGenerator.

Module Context.
Record t : Type := mk {
  trade_date : Z;
  universe : list string;
  gateway : Gateway.t
}.
End Context.

(** ** class Strategy *)

Module Strategy.
Record t : Type := mk {
  ctx : Context.t;
  pm : PortfolioManager.t;
  task_id_map : gmap string (list string);
  seq_gen : gmap string Z
}.

Definition set_gateway (g : Gateway.t) (self : t) : t :=
  mk (Context.mk (Context.trade_date (ctx self)) (Context.universe (ctx self)) g)
     (pm self) (task_id_map self) (seq_gen self).

Definition set_pm (p : PortfolioManager.t) (self : t) : t :=
  mk (ctx self) p (task_id_map self) (seq_gen self).

Definition set_task_id_map (m : gmap string (list string)) (self : t) : t :=
  mk (ctx self) (pm self) m (seq_gen self).

Definition set_seq_gen (d : gmap string Z) (self : t) : t :=
  mk (ctx self) (pm self) (task_id_map self) d.

Definition trade_date (self : t) : Z := Context.trade_date (ctx self).
Definition universe (self : t) : list string := Context.universe (ctx self).
Definition gateway (self : t) : Gateway.t := Context.gateway (ctx self).

(** [self.seq_gen.get_next(key)] *)
Definition seq_gen_get_next (key : string) : method t Z := fun self =>
  let '(n, d) := SequenceGenerator.get_next key (seq_gen self) in
  (Ok n, set_seq_gen d self).

(** [self.task_id_map[task_id].append(entrust_no)] on a [defaultdict(list)] *)
Definition task_id_map_append (task_id entrust_no : string) : method t () :=
  modify (fun self =>
    set_task_id_map
      (<[task_id := default [] (task_id_map self !! task_id) ++ [entrust_no]]>
         (task_id_map self))
      self).

(** [self.pm.add_order(order)] *)
Definition pm_add_order (order : Order.t) : method t () :=
  modify (fun self => set_pm (PortfolioManager.add_order order (pm self)) self).

(** [self.ctx.gateway.place_order(order)] *)
Definition gateway_place_order (order : Order.t) : method t string := fun self =>
  let '(err_msg, g) := Gateway.place_order order (gateway self) in
  (Ok err_msg, set_gateway g self).

(** [self.ctx.gateway.cancel_order(entrust_no)] *)
Definition gateway_cancel_order (entrust_no : string) : method t string := fun self =>
  let '(err_msg, g) := Gateway.cancel_order entrust_no (gateway self) in
  (Ok err_msg, set_gateway g self).

Definition _get_next_num (key : string) : method t string :=
  d ← gets trade_date;
  if int64_fits d then
    n ← seq_gen_get_next key;
    mret (pretty (int64 (int64 (d * 10000) + n)))
  else raise (OverflowError "Python int too large to convert to C long").

Definition place_order (symbol : string) (action : ORDER_ACTION) (price : Q)
    (size : Z) (algo : string) : method t (string * string) :=
  if truthy algo then raise (NotImplementedError ("algo " +:+ algo))
  else
    d ← gets trade_date;
    let order := Order.new_order symbol action price size d 0 in
    task_id ← _get_next_num "task_id";
    let order := Order.set_task_id task_id order in
    entrust_no ← _get_next_num "entrust_no";
    let order := Order.set_entrust_no entrust_no order in
    task_id_map_append (Order.task_id order) (Order.entrust_no order);;
    pm_add_order order;;
    err_msg ← gateway_place_order order;
    if truthy err_msg then mret ("0", err_msg)
    else mret (Order.task_id order, err_msg).

(** The loop of [cancel_order]: one gateway call per entrust id. *)
Fixpoint cancel_order_loop (entrust_no_list : list string) (err_msgs : list string)
    : method t (list string) :=
  match entrust_no_list with
  | [] => mret err_msgs
  | entrust_no :: rest =>
      err_msg ← gateway_cancel_order entrust_no;
      cancel_order_loop rest (err_msgs ++ [err_msg])
  end.

Definition cancel_order (task_id : string) : method t (bool * string) :=
  entrust_no_list ← gets (fun self => task_id_map self !! task_id);
  match entrust_no_list with
  | None => mret (false, "No task id " +:+ task_id)
  | Some entrust_no_list =>
      err_msgs ← cancel_order_loop entrust_no_list [];
      if existsb truthy err_msgs then mret (false, join "," err_msgs)
      else mret (true, "")
  end.

(** The loop of [place_batch_order]. *)
Fixpoint place_batch_order_loop (task_id : string) (orders : list Order.t)
    (err_msgs : list string) : method t (list string) :=
  match orders with
  | [] => mret err_msgs
  | order :: rest =>
      let order := Order.set_task_id task_id order in
      entrust_no ← _get_next_num "entrust_no";
      let order := Order.set_entrust_no entrust_no order in
      pm_add_order order;;
      err_msg ← gateway_place_order order;
      task_id_map_append (Order.task_id order) (Order.entrust_no order);;
      place_batch_order_loop task_id rest (err_msgs ++ [err_msg])
  end.

Definition place_batch_order (orders : list Order.t) : method t (string * string) :=
  task_id ← _get_next_num "task_id";
  err_msgs ← place_batch_order_loop task_id orders [];
  mret (task_id, join "," err_msgs).

(** The body of the loop of [goal_portfolio] for one goal: the order it
    appends, if any. *)
Definition goal_order (self : t) (goal : GoalPosition.t) : result (option Order.t) :=
  let sec := GoalPosition.symbol goal in
  let goal_size := GoalPosition.size goal in
  curr_size ←
    (if bool_decide (sec ∈ PortfolioManager.holding_securities (pm self)) then
       match PortfolioManager.get_position (pm self) sec (trade_date self) with
       | Some p => Ok (Position.curr_size p)
       | None => Raise (AttributeError "'NoneType' object has no attribute 'curr_size'")
       end
     else Ok 0);
  let diff_size := goal_size - curr_size in
  if bool_decide (diff_size ≠ 0) then
    let action := if bool_decide (diff_size > 0) then BUY else SELL in
    let order :=
      Order.new_order sec action 0 (Z.abs diff_size) (trade_date self) 0 in
    Ok (Some (Order.set_price_target "vwap" order))
  else Ok None.

Fixpoint goal_portfolio_loop (goals : list GoalPosition.t) (orders : list Order.t)
    : method t (list Order.t) :=
  match goals with
  | [] => mret orders
  | goal :: rest =>
      fun self =>
        match goal_order self goal with
        | Raise e => (Raise e, self)
        | Ok None => goal_portfolio_loop rest orders self
        | Ok (Some order) => goal_portfolio_loop rest (orders ++ [order]) self
        end
  end.

Definition goal_portfolio (goals : list GoalPosition.t) : method t () :=
  n ← gets (fun self => length (universe self));
  if bool_decide (length goals = n) then
    orders ← goal_portfolio_loop goals [];
    place_batch_order orders;;
    mret ()
  else raise AssertionError.

End Strategy.

(** ** class AlphaStrategy *)

(** A weight mapping [{symbol: weight}]. *)
Abbreviation weight_map := (gmap string pyfloat).

(** [weights.values()] *)
Definition values (weights : weight_map) : list pyfloat := (map_to_list weights).*2.

(** The mapping of symbols to sizes that [_get_weights_last] builds by
    insertion: an association list, read through [weight_of]. *)
Abbreviation weights_t := (list (string * Q)).

Local Open Scope Q_scope.

(** [weights[sec]] as a lookup that may find nothing. *)
Fixpoint weight_of (sec : string) (weights : weights_t) : option Q :=
  match weights with
  | [] => None
  | (k, v) :: rest => if String.eqb k sec then Some v else weight_of sec rest
  end.

(** [x in l] where [x] is a float and [l] a list of symbols: Python compares
    a number with a string as unequal, so the test never succeeds. *)
Definition float_eq_str (x : pyfloat) (s : string) : bool := false.
Definition float_in (x : pyfloat) (l : list string) : bool := existsb (float_eq_str x) l.

(** [sec in l] for a symbol and a list of symbols. *)
Definition str_in (sec : string) (l : list string) : bool := existsb (String.eqb sec) l.

Module AlphaStrategy.
Record t : Type := mk {
  base : Strategy.t;
  weights : option weight_map;
  stock_selector : option (list string);
  pc_method : string;
  (** [func_table], from [model.FuncRegisterable] which is not part of the
      sources: each registered method is represented by what calling it with
      its options gives, [(weights, msg)] with [weights] possibly [None], or
      the exception it raises. *)
  func_table : gmap string (result (option weight_map * string))
}.

Definition set_weights (w : weight_map) (self : t) : t :=
  mk (base self) (Some w) (stock_selector self) (pc_method self) (func_table self).

Definition universe (self : t) : list string := Strategy.universe (base self).

Definition portfolio_construction : method t () := fun self =>
  match func_table self !! pc_method self with
  | None => (Raise (KeyError (pc_method self)), self)
  | Some (Raise e) => (Raise e, self)
  | Some (Ok (None, msg)) =>
      (Raise (AttributeError "'NoneType' object has no attribute 'viewitems'"), self)
  | Some (Ok (Some weights, msg)) =>
      (* if nan assign zero *)
      let weights : weight_map := (fun v => if isnan v then Num 0 else v) <$> weights in
      (* set weights of those not selected to zero *)
      let weights : weight_map :=
        match stock_selector self with
        | Some selected_list =>
            map_imap (fun k v => Some (if str_in k selected_list then v else Num 0)) weights
        | None => weights
        end in
      (* normalize *)
      let w_sum := np_sum (np_abs (values weights)) in
      let weights : weight_map :=
        if f_ltb (Num eps) w_sum then (fun v => f_div v w_sum) <$> weights
        else weights in
      (Ok (), set_weights weights self)
  end.

(** [{k: 1.0 for k in self.ctx.universe}] *)
Definition equal_weight (self : t) : weight_map * string :=
  (foldl (fun d k => <[k := Num 1]> d) ∅ (universe self), ""%string).

(** [n_exp], the number of experiments of the Monte-Carlo search. *)
Definition n_exp : nat := 5.

(** Row [i] of [weights_mat / weights_mat.sum(axis=1).reshape(-1, 1)], where
    [rand i j] is entry [(i, j)] of the matrix [np.random.rand(n_exp, n_var)]. *)
Definition row_sum (rand : nat -> nat -> Q) (n_var i : nat) : Q :=
  foldr (fun j acc => rand i j + acc) 0 (seq 0 n_var).

Definition weights_mat (rand : nat -> nat -> Q) (n_var i j : nat) : pyfloat :=
  f_div (Num (rand i j)) (Num (row_sum rand n_var i)).

(** [{self.ctx.universe[j]: weights_mat[i, j] for j in range(n_var)}]: a
    symbol listed twice keeps its last value. *)
Definition candidate (universe : list string) (rand : nat -> nat -> Q) (i : nat)
    : weight_map :=
  let n_var := length universe in
  foldl (fun d j => <[nth j universe ""%string := weights_mat rand n_var i j]> d)
        ∅ (seq 0 n_var).

(** The search loop of [optimize_mc] over the experiments [exps]. *)
Fixpoint optimize_mc_loop (universe : list string) (rand : nat -> nat -> Q)
    (util_func : weight_map -> Q) (exps : list nat)
    (min_f : Q) (min_weights : option weight_map) : Q * option weight_map :=
  match exps with
  | [] => (min_f, min_weights)
  | i :: rest =>
      let weights := candidate universe rand i in
      let f := - util_func weights in
      if Qltb f min_f then optimize_mc_loop universe rand util_func rest f (Some weights)
      else optimize_mc_loop universe rand util_func rest min_f min_weights
  end.

Definition optimize_mc (self : t) (rand : nat -> nat -> Q)
    (util_func : weight_map -> Q) : option weight_map * string :=
  let '(min_f, min_weights) :=
    optimize_mc_loop (universe self) rand util_func (seq 0 n_exp) sentinel None in
  match min_weights with
  | None =>
      (* [min_f] is still the sentinel here, printed with [{:.2e}] *)
      (None, "No weights can make f > 1.00e+30 found in this search"%string)
  | Some _ => (min_weights, ""%string)
  end.

Definition re_weight_suspension (suspensions : option (list string)) : method t () :=
  fun self =>
  match suspensions with
  | None | Some [] => (Ok (), self)
  | Some suspensions =>
      if bool_decide (length suspensions = length (universe self)) then
        (Raise (ValueError "All suspended"), self)
      else
        match weights self with
        | None =>
            (Raise (AttributeError "'NoneType' object has no attribute 'viewitems'"), self)
        | Some weights =>
            let weights : weight_map :=
              (fun w => if negb (float_in w suspensions) then w else Num 0) <$> weights in
            let weights_sum := np_sum (np_abs (values weights)) in
            let weights : weight_map :=
              if f_ltb (Num 0) weights_sum
              then (fun w => f_div w weights_sum) <$> weights
              else weights in
            (Ok (), set_weights weights self)
        end
  end.

(** One turn of the loop of [generate_weights_order]: the goal position of
    [sec] and [cash_used] after the turn.  The numbers are binary64; [shares]
    is a Python integer, converted to a float where it meets one. *)
Definition goal_of (self : t) (turnover : float) (prices : gmap string float)
    (suspensions : option (list string)) (sec : string) (w : float) (cash_used : float)
    : result (GoalPosition.t * float) :=
  match suspensions with
  | None => Raise (TypeError "argument of type 'NoneType' is not iterable")
  | Some suspensions =>
      if str_in sec suspensions then
        let current_pos :=
          PortfolioManager.get_position (Strategy.pm (base self)) sec
            (Strategy.trade_date (base self)) in
        Ok (GoalPosition.mk sec
              (match current_pos with
               | Some p => Position.curr_size p
               | None => 0%Z
               end), cash_used)
      else if (abs w <? 0x1.5798ee2308c3ap-27)%float (* 1e-8 *) then
        Ok (GoalPosition.mk sec 0, cash_used)
      else
        match prices !! sec with
        | None => Raise (KeyError sec)
        | Some price =>
            if (price =? 0)%float then Raise ZeroDivisionError
            else
              let shares_raw := (w * turnover / price)%float in
              (* shares unit 100 *)
              shares ← int_round (shares_raw / 100)%float;
              hundred_shares ← float_of_int (shares * 100)%Z;
              let shares_left := (shares_raw - hundred_shares)%float in
              shares_f ← float_of_int shares;
              let cash_used := (cash_used + shares_f * price * 100)%float in
              Ok (GoalPosition.mk sec shares, cash_used)
        end
  end.

(** [for sec, w in weights_dic.viewitems()], over the items of [weights_dic]
    in the order the dict gives them. *)
Fixpoint generate_weights_order_loop (self : t) (turnover : float)
    (prices : gmap string float) (suspensions : option (list string))
    (weights_dic : list (string * float)) (goals : list GoalPosition.t)
    (cash_used : float) : result (list GoalPosition.t * float) :=
  match weights_dic with
  | [] => Ok (goals, cash_used)
  | (sec, w) :: rest =>
      '(goal_pos, cash_used) ← goal_of self turnover prices suspensions sec w cash_used;
      generate_weights_order_loop self turnover prices suspensions rest
        (goals ++ [goal_pos]) cash_used
  end.

Definition generate_weights_order (self : t) (weights_dic : list (string * float))
    (turnover : float) (prices : gmap string float) (algo : string)
    (suspensions : option (list string)) : result (list GoalPosition.t * float) :=
  if negb (existsb (String.eqb algo) ["close"; "vwap"]%string) then
    Raise (NotImplementedError "Currently we only suport order at close price.")
  else
    '(goals, cash_used) ←
      (if String.eqb algo "close" || truthy "vwap" then
         generate_weights_order_loop self turnover prices suspensions weights_dic [] 0%float
       else Ok ([], 0%float));
    let cash_left := (turnover - cash_used)%float in
    Ok (goals, cash_left).


(** *** The rest of the class *)

(** A method inherited from [Strategy], run on the base part of the object. *)
Definition on_base {A : Type} (m : method Strategy.t A) : method t A := fun self =>
  let '(r, b) := m (base self) in
  (r, mk b (weights self) (stock_selector self) (pc_method self) (func_table self)).

(** The loop of [liquidate_all] over the held securities [secs]; what
    [place_order] returns is dropped. *)
Fixpoint liquidate_all_loop (secs : list string) : method t () :=
  match secs with
  | [] => mret ()
  | sec :: rest =>
      fun self =>
        match PortfolioManager.get_position (Strategy.pm (base self)) sec
                (Strategy.trade_date (base self)) with
        | None =>
            (Raise (AttributeError "'NoneType' object has no attribute 'curr_size'"), self)
        | Some p =>
            (on_base (Strategy.place_order sec SELL (1 # 1000) (Position.curr_size p) "");;
             liquidate_all_loop rest) self
        end
  end.

(** [for sec in self.pm.holding_securities]: the set is gone through in the
    order of its [elements]. *)
Definition liquidate_all : method t () := fun self =>
  liquidate_all_loop
    (elements (PortfolioManager.holding_securities (Strategy.pm (base self)))) self.

(** [query_portfolio]: what the tracker gives for every held security, each
    with the symbol it was asked for (the symbol of the position, when there
    is one). *)
Definition query_portfolio (self : t) : list (string * option Position.t) :=
  map (fun sec =>
         (sec, PortfolioManager.get_position (Strategy.pm (base self)) sec
                 (Strategy.trade_date (base self))))
      (elements (PortfolioManager.holding_securities (Strategy.pm (base self)))).

(** [d[k] = v] on an association list. *)
Fixpoint dict_set (k : string) (v : Q) (d : weights_t) : weights_t :=
  match d with
  | [] => [(k, v)]
  | (k', v') :: rest =>
      if String.eqb k' k then (k', v) :: rest else (k', v') :: dict_set k v rest
  end.

(** [{p.symbol: p.curr_size for p in current_positions}] *)
Fixpoint positions_dict (current_positions : list (string * option Position.t))
    (d : weights_t) : result weights_t :=
  match current_positions with
  | [] => Ok d
  | (_, None) :: _ => Raise (AttributeError "'NoneType' object has no attribute 'symbol'")
  | (symbol, Some p) :: rest =>
      positions_dict rest (dict_set symbol (inject_Z (Position.curr_size p)) d)
  end.

Definition _get_weights_last (self : t) : result weights_t :=
  univ_pos_dic ← positions_dict (query_portfolio self) [];
  Ok (foldl (fun d sec =>
               match weight_of sec d with
               | Some _ => d
               | None => dict_set sec 0 d
               end)
            univ_pos_dic (universe self)).

(** The revenue, cost and risk models of [jaqs.trade.model] are not part of
    the sources: each is given by the functions the strategy calls on it, and
    is [None] when the strategy was built without it. *)
Record RevenueModel : Type := {
  forecast_revenue : weight_map -> Q;
  make_forecast : weight_map
}.

Record Models : Type := {
  revenue_model : option RevenueModel;
  cost_model : option (weights_t -> weight_map -> Q);
  risk_model : option (weight_map -> Q)
}.

Definition util_net_revenue (models : Models) (self : t) (weights_target : weight_map)
    : result Q :=
  weights_last ← _get_weights_last self;
  revenue ←
    match revenue_model models with
    | Some m => Ok (forecast_revenue m weights_target)
    | None =>
        Raise (AttributeError "'NoneType' object has no attribute 'forecast_revenue'")
    end;
  cost ←
    match cost_model models with
    | Some calc_cost => Ok (calc_cost weights_last weights_target)
    | None => Raise (AttributeError "'NoneType' object has no attribute 'calc_cost'")
    end;
  risk ←
    match risk_model models with
    | Some calc_risk => Ok (calc_risk weights_target)
    | None => Raise (AttributeError "'NoneType' object has no attribute 'calc_risk'")
    end;
  let risk_coef := 1 in
  let cost_coef := 1 in
  let net_revenue := revenue - risk_coef * risk - cost_coef * cost in
  Ok net_revenue.

Definition _validate_parameters (models : Models) (self : t) : result () :=
  if str_in (pc_method self) ["mc"; "quad_opt"]%string then
    match revenue_model models, cost_model models, risk_model models with
    | None, None, None =>
        Raise (ValueError "At least one model of revenue, cost and risk must be provided.")
    | _, _, _ => Ok ()
    end
  else if str_in (pc_method self) ["factor_value_weight"]%string then
    match revenue_model models with
    | None =>
        Raise (ValueError
                 "revenue_model must be provided when pc_method = 'factor_value_weight'")
    | Some _ => Ok ()
    end
  else if str_in (pc_method self) ["equal_weight"]%string then Ok ()
  else Raise (NotImplementedError ("pc_method = " +:+ pc_method self)).

(** [np.min] of the values of a mapping from which NaN has been removed;
    numpy refuses an empty array. *)
Definition np_min (values : list pyfloat) : result pyfloat :=
  match values with
  | [] =>
      Raise (ValueError
               "zero-size array to reduction operation minimum which has no identity")
  | v :: rest => Ok (foldl (fun m x => if f_ltb x m then x else m) v rest)
  end.

Definition long_only_weight_adjust (w : weight_map) : result weight_map :=
  w_min ← np_min (values w);
  if f_ltb w_min (Num 0) then
    let delta := f_mul (Num 2) (f_abs w_min) in
    Ok ((fun v => f_add v delta) <$> w)
  else Ok w.

Definition factor_value_weight (models : Models) : result (weight_map * string) :=
  match revenue_model models with
  | None => Raise (AttributeError "'NoneType' object has no attribute 'make_forecast'")
  | Some m =>
      let raw_weights_dic := make_forecast m in
      let weights : weight_map :=
        (fun v => if isnan v then Num 0 else v) <$> raw_weights_dic in
      weights ← long_only_weight_adjust weights;
      Ok (weights, ""%string)
  end.
End AlphaStrategy.

(** * Reference definitions used in the statements *)

(** The identifier [_get_next_num key] mints in [self], and [self] after the
    counter of [key] has advanced. *)
Definition next_id (key : string) (self : Strategy.t) : string :=
  pretty (int64 (int64 (Strategy.trade_date self * 10000)
                 + (default 0 (Strategy.seq_gen self !! key) + 1)))%Z.

Definition bump (key : string) (self : Strategy.t) : Strategy.t :=
  Strategy.set_seq_gen
    (<[key := (default 0 (Strategy.seq_gen self !! key) + 1)%Z]> (Strategy.seq_gen self))
    self.

(** The order [place_order] builds in [self], with both identifiers set. *)
Definition placed_order (symbol : string) (action : ORDER_ACTION) (price : Q)
    (size : Z) (self : Strategy.t) : Order.t :=
  Order.mk symbol action price size (Strategy.trade_date self) 0
    (next_id "task_id" self) (next_id "entrust_no" (bump "task_id" self)) None.

(** A strategy with nothing registered, whose gateway rejects every order and
    every cancel. *)
Definition rejecting_gateway : Gateway.t :=
  Gateway.mk (fun _ _ => "rejected"%string) (fun _ _ => "rejected"%string) [].

Definition accepting_gateway : Gateway.t :=
  Gateway.mk (fun _ _ => ""%string) (fun _ _ => ""%string) [].

Definition fresh_strategy (g : Gateway.t) : Strategy.t :=
  Strategy.mk (Context.mk 20171106 ["A"; "B"]%string g)
    (PortfolioManager.mk [] ∅ ∅) ∅ ∅.

(** What the batch loop does to one order: both identifiers are written, the
    rest of the order is left as it was. *)
Definition stamped_with (task_id : string) (o s : Order.t) : Prop :=
  exists entrust_no, s = Order.set_entrust_no entrust_no (Order.set_task_id task_id o).

(** The size of [sec] the position tracker holds, 0 when it holds none. *)
Definition held_size (self : Strategy.t) (sec : string) : Z :=
  if decide (sec ∈ PortfolioManager.holding_securities (Strategy.pm self)) then
    from_option Position.curr_size 0%Z
      (PortfolioManager.positions (Strategy.pm self) !! sec)
  else 0%Z.

(** The order that moves the holding of a goal's symbol to the goal's size,
    none when it is already there. *)
Definition diff_order (self : Strategy.t) (goal : GoalPosition.t) : option Order.t :=
  let diff := (GoalPosition.size goal - held_size self (GoalPosition.symbol goal))%Z in
  if decide (diff = 0%Z) then None
  else Some (Order.mk (GoalPosition.symbol goal)
               (if decide (0 < diff)%Z then BUY else SELL)
               0 (Z.abs diff) (Strategy.trade_date self) 0 "" "" (Some "vwap"%string)).

Definition diff_orders (self : Strategy.t) (goals : list GoalPosition.t) : list Order.t :=
  omap (diff_order self) goals.

(** Every symbol the tracker reports as held has a position. *)
Definition holdings_tracked (self : Strategy.t) : Prop :=
  forall sec, sec ∈ PortfolioManager.holding_securities (Strategy.pm self) ->
    is_Some (PortfolioManager.positions (Strategy.pm self) !! sec).

(** A strategy holding 300 shares of "A" and nothing of "B". *)
Definition holding_strategy : Strategy.t :=
  Strategy.mk (Context.mk 20171106 ["A"; "B"]%string accepting_gateway)
    (PortfolioManager.mk [] {["A"%string := Position.mk 300]} {["A"%string]}) ∅ ∅.

(** ** Goal positions in closed form *)

(** [abs(w) < 1e-8] on floats. *)
Definition negligible (w : float) : bool := (abs w <? 0x1.5798ee2308c3ap-27)%float.

(** The rational value of the float [w * turnover / price / 100.], the raw
    share count in lots, when that float is finite. *)
Definition lot_quotient (w turnover price : float) : option Q :=
  float_value (w * turnover / price / 100)%float.

(** The number of 100-share lots that the weight [w] of the budget [turnover]
    buys at [price]: the lot quotient rounded to the nearest integer (0 stands
    in when the quotient is not finite). *)
Definition lots (w turnover price : float) : Z :=
  from_option py_round 0%Z (lot_quotient w turnover price).

(** An integer that Python can turn into a float. *)
Definition converts (z : Z) : Prop := is_infinity (float_of_Z z) = false.

(** The goal position the translation gives one entry of the weight mapping,
    and the cash that entry uses, if it uses any. *)
Definition entry_goal (self : AlphaStrategy.t) (turnover : float)
    (prices : gmap string float) (suspensions : list string) (kv : string * float)
    : GoalPosition.t :=
  GoalPosition.mk kv.1
    (if decide (kv.1 ∈ suspensions) then
       from_option Position.curr_size 0%Z
         (PortfolioManager.positions (Strategy.pm (AlphaStrategy.base self)) !! kv.1)
     else if negligible kv.2 then 0%Z
     else from_option (lots kv.2 turnover) 0%Z (prices !! kv.1)).

Definition entry_cash (turnover : float) (prices : gmap string float)
    (suspensions : list string) (kv : string * float) : option float :=
  if decide (kv.1 ∈ suspensions) then None
  else if negligible kv.2 then None
  else (fun price => (float_of_Z (lots kv.2 turnover price) * price * 100)%float)
         <$> prices !! kv.1.

(** The cash used once the entries of [weights_dic] have been gone through,
    having started from [cash]: each entry that uses cash adds its own, in
    turn. *)
Definition cash_after (turnover : float) (prices : gmap string float)
    (suspensions : list string) (cash : float) (weights_dic : list (string * float))
    : float :=
  foldl (fun cash kv =>
           match entry_cash turnover prices suspensions kv with
           | Some c => (cash + c)%float
           | None => cash
           end) cash weights_dic.

Definition total_cash (turnover : float) (prices : gmap string float)
    (suspensions : list string) (weights_dic : list (string * float)) : float :=
  cash_after turnover prices suspensions 0%float weights_dic.

(** Every entry that is traded (neither suspended nor negligible) has a
    price, the price is not zero, the lot quotient is finite, and the lot
    count and a hundred times it can be turned into floats. *)
Definition priced (turnover : float) (prices : gmap string float)
    (suspensions : list string) (weights_dic : list (string * float)) : Prop :=
  forall sec w, (sec, w) ∈ weights_dic -> sec ∉ suspensions -> negligible w = false ->
    exists price x,
      prices !! sec = Some price
      /\ (price =? 0)%float = false
      /\ lot_quotient w turnover price = Some x
      /\ converts (py_round x * 100)
      /\ converts (py_round x).

(** The weights of the worked example, one half for "A" and for "B". *)
Definition example_ws : weight_map :=
  <["A"%string := Num (1 # 2)]> (<["B"%string := Num (1 # 2)]> ∅).

(** The strategy of the worked example: universe A and B, nothing held. *)
Definition example_alpha : AlphaStrategy.t :=
  AlphaStrategy.mk (fresh_strategy accepting_gateway) (Some example_ws) None
    "equal_weight" ∅.

Definition example_prices : gmap string float :=
  <["A"%string := 10%float]> (<["B"%string := 20%float]> ∅).

(** The items of the weight mapping of the worked example. *)
Definition example_weights : list (string * float) :=
  [("A"%string, 0.5%float); ("B"%string, 0.5%float)].

(** ** Weights in closed form *)

(** The sum of the absolute values of a weight mapping, as a float. *)
Definition abs_total (ws : weight_map) : pyfloat :=
  foldr (fun kv acc => f_add (f_abs kv.2) acc) (Num 0) (map_to_list ws).

(** The rational a float of the weight arithmetic stands for (0 for NaN and
    the infinities), and the sum of the absolute values of the numbers among
    the items of a mapping. *)
Definition number (v : pyfloat) : Q :=
  match v with
  | Num q => q
  | _ => 0
  end.

Definition abs_sum_of (items : list (string * pyfloat)) : Q :=
  foldr (fun kv acc => Qabs (number kv.2) + acc) 0 items.

(** A float that is a number within 1e-8 of [c]. *)
Definition near (s : pyfloat) (c : Q) : Prop :=
  exists q, s = Num q /\ Qabs (q - c) <= 1 # 100000000.

(** A weight mapping with no infinite value, and one whose values are all
    numbers. *)
Definition no_infinity (ws : weight_map) : Prop :=
  forall k, ws !! k ≠ Some PInf /\ ws !! k ≠ Some NInf.

Definition finite (ws : weight_map) : Prop :=
  forall k v, ws !! k = Some v -> exists q, v = Num q.

(** A weight mapping divided by the sum of its absolute values when that sum
    is above [bound], and left alone otherwise. *)
Definition renormalized (bound : Q) (ws : weight_map) : weight_map :=
  if f_ltb (Num bound) (abs_total ws) then (fun v => f_div v (abs_total ws)) <$> ws
  else ws.

(** The mapping [portfolio_construction] normalizes: NaN replaced by 0, and 0
    for every symbol outside the selection when there is a selector. *)
Definition cleaned (stock_selector : option (list string)) (raw : weight_map)
    : weight_map :=
  map_imap (fun k v =>
              Some match v with
                   | NaN => Num 0
                   | _ =>
                       match stock_selector with
                       | Some selected_list =>
                           if decide (k ∈ selected_list) then v else Num 0
                       | None => v
                       end
                   end) raw.

Definition raw_example : weight_map :=
  <["A"%string := Num 3]> (<["B"%string := NaN]> (<["C"%string := Num (-1)]>
    (<["D"%string := Num 5]> ∅))).

Definition construction_example : AlphaStrategy.t :=
  AlphaStrategy.mk (fresh_strategy accepting_gateway) None
    (Some ["A"; "B"; "C"]%string) "factor_value_weight"
    {["factor_value_weight"%string := Ok (Some raw_example, ""%string)]}.

(** A construction method that returns an infinite weight for "A". *)
Definition infinite_example : AlphaStrategy.t :=
  AlphaStrategy.mk (fresh_strategy accepting_gateway) None None "factor_value_weight"
    {["factor_value_weight"%string :=
        Ok (Some (<["A"%string := PInf]> (<["B"%string := Num 1]> ∅)), ""%string)]}.

(** ** The Monte-Carlo search *)

(** The value [f] the search minimizes at experiment [i]. *)
Definition mc_objective (universe : list string) (rand : nat -> nat -> Q)
    (util_func : weight_map -> Q) (i : nat) : Q :=
  - util_func (AlphaStrategy.candidate universe rand i).

(** A sampled matrix with increasing entries, and the utility that reads the
    weight of "A". *)
Definition example_rand (i j : nat) : Q := inject_Z (Z.of_nat (i + j + 1)).

Definition weight_of_A (ws : weight_map) : Q :=
  match ws !! "A"%string with
  | Some (Num q) => q
  | _ => 0
  end.

Definition hopeless (ws : weight_map) : Q := - inject_Z (10 ^ 30) - 1.

(** ** Further reference definitions *)

(** The [n] identifiers minted after the counter of a key stands at [c], on
    the trade date [d]. *)
Fixpoint ids_from (d c : Z) (n : nat) : list string :=
  match n with
  | O => []
  | S n => pretty (int64 (int64 (d * 10000) + (c + 1)))%Z :: ids_from d (c + 1)%Z n
  end.

(** [n] calls of [_get_next_num key] in a row, with what they returned. *)
Fixpoint mint (key : string) (n : nat) : method Strategy.t (list string) :=
  match n with
  | O => mret []
  | S n =>
      x ← Strategy._get_next_num key;
      xs ← mint key n;
      mret (x :: xs)
  end.

(** An order with the identifiers of its batch written into it. *)
Definition stamp (task_id : string) (o : Order.t) (entrust_no : string) : Order.t :=
  Order.set_entrust_no entrust_no (Order.set_task_id task_id o).

(** The signed size of an order: what it adds to the holding when filled. *)
Definition signed_size (o : Order.t) : Z :=
  match Order.entrust_action o with
  | BUY => Order.entrust_size o
  | SELL => (- Order.entrust_size o)%Z
  end.

(** Each task of [m] still has, in [m'], the entrust ids it had, at the front
    of its list. *)
Definition task_map_grows (m m' : gmap string (list string)) : Prop :=
  forall task_id, default [] (m !! task_id) `prefix_of` default [] (m' !! task_id).

(** What no order operation writes: the trade date, the universe, the way the
    gateway answers, and the positions and holdings of the tracker. *)
Definition same_frame (self self' : Strategy.t) : Prop :=
  Strategy.trade_date self' = Strategy.trade_date self
  /\ Strategy.universe self' = Strategy.universe self
  /\ Gateway.on_place_order (Strategy.gateway self')
     = Gateway.on_place_order (Strategy.gateway self)
  /\ Gateway.on_cancel_order (Strategy.gateway self')
     = Gateway.on_cancel_order (Strategy.gateway self)
  /\ PortfolioManager.positions (Strategy.pm self')
     = PortfolioManager.positions (Strategy.pm self)
  /\ PortfolioManager.holding_securities (Strategy.pm self')
     = PortfolioManager.holding_securities (Strategy.pm self).

(** The entrust ids a batch of [n] orders gets in [self]. *)
Definition batch_ids (self : Strategy.t) (n : nat) : list string :=
  ids_from (Strategy.trade_date self)
    (default 0%Z (Strategy.seq_gen self !! "entrust_no"%string)) n.

(** A gateway that accepts every order but refuses to cancel "e2", and a
    strategy with one task "T" of two entrust ids. *)
Definition stubborn_gateway : Gateway.t :=
  Gateway.mk (fun _ _ => ""%string)
    (fun _ e => if String.eqb e "e2" then "too late"%string else ""%string) [].

Definition booked_strategy : Strategy.t :=
  Strategy.mk (Context.mk 20171106 ["A"; "B"]%string stubborn_gateway)
    (PortfolioManager.mk [] ∅ ∅) {["T"%string := ["e1"; "e2"]%string]} ∅.

(** A method that, whatever it returns or raises, leaves every task of the
    task map with the entrust ids it had. *)
Definition keeps_tasks {A : Type} (m : method Strategy.t A) : Prop :=
  forall self,
    task_map_grows (Strategy.task_id_map self) (Strategy.task_id_map (m self).2).

(** The sell order [liquidate_all] places for a held security. *)
Definition liquidation_of (self : Strategy.t) (sec : string) (o : Order.t) : Prop :=
  Order.symbol o = sec
  /\ Order.entrust_action o = SELL
  /\ Order.entrust_price o = 1 # 1000
  /\ Some (Order.entrust_size o)
     = Position.curr_size <$> PortfolioManager.positions (Strategy.pm self) !! sec.

(** An order that takes the holding of its symbol to the size of [goal]. *)
Definition reaches (self : Strategy.t) (goal : GoalPosition.t) (o : Order.t) : Prop :=
  Order.symbol o = GoalPosition.symbol goal
  /\ (0 < Order.entrust_size o)%Z
  /\ (held_size self (GoalPosition.symbol goal) + signed_size o = GoalPosition.size goal)%Z.

(** A strategy holding 300 shares of "A" and 200 of "B", on a gateway that
    rejects everything. *)
Definition two_holdings : AlphaStrategy.t :=
  AlphaStrategy.mk
    (Strategy.mk (Context.mk 20171106 ["A"; "B"]%string rejecting_gateway)
       (PortfolioManager.mk []
          (<["A"%string := Position.mk 300]> {["B"%string := Position.mk 200]})
          ({["A"%string]} ∪ {["B"%string]})) ∅ ∅)
    None None "equal_weight" ∅.

(** ** Budgets *)

(** An entry of the weight mapping is traded when it is neither suspended
    nor negligible. *)
Definition traded (suspensions : list string) (kv : string * float) : bool :=
  negb (bool_decide (kv.1 ∈ suspensions)) && negb (negligible kv.2).

(** A strategy that holds 700 shares of the suspended "A". *)
Definition frozen_alpha : AlphaStrategy.t :=
  AlphaStrategy.mk
    (Strategy.mk (Context.mk 20171106 ["A"; "B"]%string accepting_gateway)
       (PortfolioManager.mk [] {["A"%string := Position.mk 700]} {["A"%string]}) ∅ ∅)
    None None "equal_weight" ∅.

(** A strategy whose registered method is [equal_weight], over a universe
    that lists "B" twice. *)
Definition equal_universe : Strategy.t :=
  Strategy.mk (Context.mk 20171106 ["B"; "A"; "B"; "C"]%string accepting_gateway)
    (PortfolioManager.mk [] ∅ ∅) ∅ ∅.

Definition equal_example : AlphaStrategy.t :=
  AlphaStrategy.mk equal_universe None None "equal_weight"
    {["equal_weight"%string :=
        Ok (Some (AlphaStrategy.equal_weight
                    (AlphaStrategy.mk equal_universe None None "equal_weight" ∅)).1,
            ""%string)]}.

(** A revenue model whose forecast has a NaN and negative values. *)
Definition forecast_example : AlphaStrategy.Models :=
  {| AlphaStrategy.revenue_model :=
       Some {| AlphaStrategy.forecast_revenue := fun _ => 0;
               AlphaStrategy.make_forecast :=
                 <["A"%string := Num (-2)]> (<["B"%string := NaN]>
                   (<["C"%string := Num 3]> ∅)) |};
     AlphaStrategy.cost_model := None;
     AlphaStrategy.risk_model := None |}.

(** A strategy whose registered method returned what [factor_value_weight]
    makes of that forecast. *)
Definition factor_example : AlphaStrategy.t :=
  AlphaStrategy.mk (fresh_strategy accepting_gateway) None (Some ["A"; "B"]%string)
    "factor_value_weight"
    {["factor_value_weight"%string :=
        Ok (Some (<["A"%string := Num 2]> (<["B"%string := Num 4]>
                    (<["C"%string := Num 7]> ∅))), ""%string)]}.

(** A utility that does not tell the candidates apart. *)
Definition indifferent (ws : weight_map) : Q := 7.

(** Models with a cost model only. *)
Definition cost_only : AlphaStrategy.Models :=
  {| AlphaStrategy.revenue_model := None;
     AlphaStrategy.cost_model := Some (fun _ _ => 0);
     AlphaStrategy.risk_model := None |}.

Definition mc_example : AlphaStrategy.t :=
  AlphaStrategy.mk (fresh_strategy accepting_gateway) None None "mc" ∅.

(** * Properties of the order bookkeeping *)

Lemma method_bind_run {S A B} (m : method S A) (f : A -> method S B) (s : S) :
  (m ≫= f) s
  = match m s with
    | (Ok a, s') => f a s'
    | (Raise e, s') => (Raise e, s')
    end.
Proof. reflexivity. Qed.

Lemma method_bind_ok {S A B} (m : method S A) (f : A -> method S B) (s s' : S) (a : A) :
  m s = (Ok a, s') -> (m ≫= f) s = f a s'.
Proof. intros H. rewrite method_bind_run, H. reflexivity. Qed.

Lemma method_bind_raise {S A B} (m : method S A) (f : A -> method S B) (s s' : S) e :
  m s = (Raise e, s') -> (m ≫= f) s = (Raise e, s').
Proof. intros H. rewrite method_bind_run, H. reflexivity. Qed.

Section strategy_facts.
Import Strategy.
Implicit Types (self : Strategy.t) (key task_id entrust_no : string).

Lemma _get_next_num_fits key self :
  int64_fits (trade_date self) = true ->
  _get_next_num key self = (Ok (next_id key self), bump key self).
Proof.
  intros Hfit. unfold _get_next_num, mbind, method_bind, gets. simpl.
  rewrite Hfit. reflexivity.
Qed.

Lemma _get_next_num_overflow key self :
  int64_fits (trade_date self) = false ->
  exists msg, _get_next_num key self = (Raise (OverflowError msg), self).
Proof.
  intros Hfit. unfold _get_next_num, mbind, method_bind, gets. simpl.
  rewrite Hfit. eexists. reflexivity.
Qed.

Lemma truthy_true s : truthy s = true <-> s ≠ ""%string.
Proof.
  unfold truthy. destruct (String.eqb_spec s "") as [->|Hne]; simpl.
  - split; [discriminate | congruence].
  - split; [intros _; exact Hne | reflexivity].
Qed.

Lemma truthy_false s : truthy s = false <-> s = ""%string.
Proof.
  unfold truthy. destruct (String.eqb_spec s "") as [->|Hne]; simpl.
  - split; reflexivity.
  - split; [discriminate | congruence].
Qed.

End strategy_facts.

(** C9.  A task id that has no entry in the task map cannot be cancelled:
    [cancel_order] answers [False] with the message "No task id ..." (which is
    not empty), leaves the strategy as it was and so calls the gateway zero
    times. *)
Theorem cancel_order_unknown_task (self : Strategy.t) (task_id : string) :
  Strategy.task_id_map self !! task_id = None ->
  Strategy.cancel_order task_id self
    = (Ok (false, "No task id " +:+ task_id), self)
  /\ "No task id " +:+ task_id ≠ ""%string
  /\ Gateway.calls (Strategy.gateway (Strategy.cancel_order task_id self).2)
     = Gateway.calls (Strategy.gateway self).
Proof.
  intros Hnone.
  assert (Hrun : Strategy.cancel_order task_id self
                 = (Ok (false, "No task id " +:+ task_id), self)).
  { unfold Strategy.cancel_order, mbind, method_bind, gets. simpl.
    rewrite Hnone. reflexivity. }
  split; [exact Hrun|]. split; [discriminate|]. rewrite Hrun. reflexivity.
Qed.

Lemma cancel_order_unknown_task_witness :
  Strategy.cancel_order "201711060007" (fresh_strategy accepting_gateway)
  = (Ok (false, "No task id 201711060007"%string), fresh_strategy accepting_gateway).
Proof.
  exact (proj1 (cancel_order_unknown_task (fresh_strategy accepting_gateway)
                  "201711060007" eq_refl)).
Defined.

(** C6.  When the gateway answers a single-order submission with a non-empty
    error, [place_order] returns the sentinel task id ['0'] with that error;
    the minted task id still maps to the minted entrust id in the task map,
    and the order is still registered with the position tracker. *)
Theorem place_order_gateway_error (self : Strategy.t) (symbol : string)
    (action : ORDER_ACTION) (price : Q) (size : Z) :
  let order := placed_order symbol action price size self in
  let gw := Strategy.gateway self in
  let err_msg := Gateway.on_place_order gw (Gateway.calls gw) order in
  int64_fits (Strategy.trade_date self) = true ->
  err_msg ≠ ""%string ->
  exists self',
    Strategy.place_order symbol action price size "" self = (Ok ("0"%string, err_msg), self')
    /\ Strategy.task_id_map self' !! Order.task_id order
       = Some (default [] (Strategy.task_id_map self !! Order.task_id order)
               ++ [Order.entrust_no order])
    /\ order ∈ PortfolioManager.orders (Strategy.pm self')
    /\ Gateway.calls (Strategy.gateway self') = Gateway.calls gw ++ [GwPlace order].
Proof.
  intros order gw err_msg Hfit Herr.
  unfold Strategy.place_order. change (truthy "") with false. cbv iota.
  rewrite (method_bind_ok _ _ self self (Strategy.trade_date self)) by reflexivity.
  rewrite (method_bind_ok _ _ _ _ _ (_get_next_num_fits "task_id" self Hfit)).
  rewrite (method_bind_ok _ _ _ _ _
             (_get_next_num_fits "entrust_no" (bump "task_id" self) Hfit)).
  change (Order.set_entrust_no _ _) with order.
  erewrite method_bind_ok by reflexivity.
  erewrite method_bind_ok by reflexivity.
  erewrite method_bind_ok by reflexivity.
  cbv beta.
  change (Gateway.on_place_order _ _ _) with err_msg.
  apply truthy_true in Herr. rewrite Herr.
  eexists. split; [reflexivity|]. simpl.
  split; [apply lookup_insert_eq|].
  split; [|reflexivity].
  apply elem_of_app. right. apply list_elem_of_singleton. reflexivity.
Qed.

Lemma place_order_gateway_error_witness :
  exists self',
    Strategy.place_order "A" BUY 10 100 "" (fresh_strategy rejecting_gateway)
      = (Ok ("0"%string, "rejected"%string), self')
    /\ Strategy.task_id_map self' !! "201711060001"%string = Some ["201711060001"%string]
    /\ Gateway.calls (Strategy.gateway self')
       = [GwPlace (Order.mk "A" BUY 10 100 20171106 0 "201711060001" "201711060001" None)].
Proof.
  destruct (place_order_gateway_error (fresh_strategy rejecting_gateway) "A" BUY 10 100)
    as (self' & Hrun & Hmap & _ & Hcalls).
  - reflexivity.
  - discriminate.
  - exists self'. split; [exact Hrun|]. split; [exact Hmap | exact Hcalls].
Defined.

(** ** Batch submission *)

Lemma place_batch_order_loop_run (task_id : string) (orders : list Order.t) :
  forall (err_msgs : list string) (self : Strategy.t),
    int64_fits (Strategy.trade_date self) = true ->
    exists (answers : list string) (stamped : list Order.t) (self' : Strategy.t),
      Strategy.place_batch_order_loop task_id orders err_msgs self
        = (Ok (err_msgs ++ answers), self')
      /\ Forall2 (stamped_with task_id) orders stamped
      /\ Forall2 (fun a s => exists h, a = Gateway.on_place_order (Strategy.gateway self) h s)
           answers stamped
      /\ Gateway.calls (Strategy.gateway self')
         = Gateway.calls (Strategy.gateway self) ++ map GwPlace stamped
      /\ PortfolioManager.orders (Strategy.pm self')
         = PortfolioManager.orders (Strategy.pm self) ++ stamped
      /\ default [] (Strategy.task_id_map self' !! task_id)
         = default [] (Strategy.task_id_map self !! task_id) ++ map Order.entrust_no stamped
      /\ Strategy.trade_date self' = Strategy.trade_date self
      /\ Gateway.on_place_order (Strategy.gateway self')
         = Gateway.on_place_order (Strategy.gateway self).
Proof.
  induction orders as [|order rest IH]; intros err_msgs self Hfit.
  - exists [], [], self. simpl. rewrite !app_nil_r.
    repeat split; constructor.
  - cbn [Strategy.place_batch_order_loop].
    rewrite (method_bind_ok _ _ _ _ _ (_get_next_num_fits "entrust_no" self Hfit)).
    set (s := Order.set_entrust_no _ _).
    erewrite method_bind_ok by reflexivity.
    erewrite method_bind_ok by reflexivity.
    erewrite method_bind_ok by reflexivity.
    match goal with
    | |- context [Strategy.place_batch_order_loop _ _ (_ ++ [?a]) ?st] =>
        set (ans := a); set (self1 := st)
    end.
    destruct (IH (err_msgs ++ [ans]) self1 Hfit)
      as (answers & stamped & self' & Hrun & Hst & Hans & Hcalls & Hpm & Hmap & Hdate & Hgw).
    exists (ans :: answers), (s :: stamped), self'.
    split. { rewrite Hrun, <- app_assoc. reflexivity. }
    split. { constructor; [|exact Hst]. eexists. reflexivity. }
    split. { constructor; [|exact Hans]. eexists. reflexivity. }
    split. { rewrite Hcalls. subst self1. simpl. rewrite <- app_assoc. reflexivity. }
    split. { rewrite Hpm. subst self1. simpl. rewrite <- app_assoc. reflexivity. }
    split. { rewrite Hmap. subst self1. simpl. rewrite lookup_insert_eq. simpl.
             rewrite <- app_assoc. reflexivity. }
    split; [rewrite Hdate; reflexivity | rewrite Hgw; reflexivity].
Qed.

Lemma place_batch_order_run (orders : list Order.t) (self : Strategy.t) :
  int64_fits (Strategy.trade_date self) = true ->
  exists (answers : list string) (stamped : list Order.t) (self' : Strategy.t),
    Strategy.place_batch_order orders self
      = (Ok (next_id "task_id" self, join "," answers), self')
    /\ Forall2 (stamped_with (next_id "task_id" self)) orders stamped
    /\ Forall2 (fun a s => exists h, a = Gateway.on_place_order (Strategy.gateway self) h s)
         answers stamped
    /\ Gateway.calls (Strategy.gateway self')
       = Gateway.calls (Strategy.gateway self) ++ map GwPlace stamped
    /\ PortfolioManager.orders (Strategy.pm self')
       = PortfolioManager.orders (Strategy.pm self) ++ stamped.
Proof.
  intros Hfit. unfold Strategy.place_batch_order.
  rewrite (method_bind_ok _ _ _ _ _ (_get_next_num_fits "task_id" self Hfit)).
  destruct (place_batch_order_loop_run (next_id "task_id" self) orders []
              (bump "task_id" self) Hfit)
    as (answers & stamped & self' & Hrun & Hst & Hans & Hcalls & Hpm & _).
  exists answers, stamped, self'.
  split. { rewrite (method_bind_ok _ _ _ _ _ Hrun). reflexivity. }
  repeat split; assumption.
Qed.

Lemma join_empty_head (sep x : string) (l : list string) :
  join sep (""%string :: x :: l) = sep +:+ join sep (x :: l).
Proof. reflexivity. Qed.

Lemma Forall2_all_accepted (answers : list string) (stamped : list Order.t)
    (f : list gw_call -> Order.t -> string) :
  (forall h o, f h o = ""%string) ->
  Forall2 (fun a s => exists h, a = f h s) answers stamped ->
  answers = replicate (length stamped) ""%string.
Proof.
  intros Hf HF. induction HF as [|a s answers stamped [h ->] _ IH]; [reflexivity|].
  simpl. rewrite Hf, IH. reflexivity.
Qed.

(** C3 (what the code does).  When the gateway accepts every order of a batch
    of at least two orders, every per-order error is the empty string, and
    yet the string [place_batch_order] returns is not empty: it is the
    separators that [','.join] puts between the empty errors. *)
Theorem place_batch_order_all_accepted (orders : list Order.t) (self : Strategy.t) :
  int64_fits (Strategy.trade_date self) = true ->
  (forall h o, Gateway.on_place_order (Strategy.gateway self) h o = ""%string) ->
  (2 <= length orders)%nat ->
  exists self',
    Strategy.place_batch_order orders self
      = (Ok (next_id "task_id" self, join "," (replicate (length orders) ""%string)), self')
    /\ join "," (replicate (length orders) ""%string) ≠ ""%string.
Proof.
  intros Hfit Hacc Hlen.
  destruct (place_batch_order_run orders self Hfit)
    as (answers & stamped & self' & Hrun & Hst & Hans & _).
  apply Forall2_all_accepted in Hans; [|exact Hacc].
  rewrite <- (Forall2_length _ _ _ Hst) in Hans. subst answers.
  exists self'. split; [exact Hrun|].
  destruct orders as [|o1 [|o2 rest]]; simpl in Hlen; try lia.
  cbn [length replicate]. rewrite join_empty_head. discriminate.
Qed.

Lemma place_batch_order_all_accepted_witness :
  exists self',
    Strategy.place_batch_order
      [Order.new_order "A" BUY 0 100 20171106 0; Order.new_order "B" SELL 0 100 20171106 0]
      (fresh_strategy accepting_gateway)
    = (Ok ("201711060001"%string, ","%string), self').
Proof.
  destruct (place_batch_order_all_accepted
              [Order.new_order "A" BUY 0 100 20171106 0;
               Order.new_order "B" SELL 0 100 20171106 0]
              (fresh_strategy accepting_gateway)) as (self' & Hrun & _).
  - reflexivity.
  - intros h o. reflexivity.
  - simpl. lia.
  - exists self'. exact Hrun.
Defined.

(** ** Goal positions against holdings *)

Lemma goal_order_tracked (self : Strategy.t) (goal : GoalPosition.t) :
  holdings_tracked self ->
  Strategy.goal_order self goal = Ok (diff_order self goal).
Proof.
  intros Htracked. unfold Strategy.goal_order, diff_order, held_size.
  unfold PortfolioManager.get_position.
  destruct (decide (GoalPosition.symbol goal
                    ∈ PortfolioManager.holding_securities (Strategy.pm self)))
    as [Hin|Hnin].
  - rewrite (bool_decide_eq_true_2 _ Hin).
    destruct (Htracked _ Hin) as [p Hp]. rewrite Hp. simpl.
    set (diff := (GoalPosition.size goal - Position.curr_size p)%Z).
    destruct (decide (diff = 0%Z)) as [Hz|Hnz].
    + rewrite bool_decide_eq_false_2 by (intros Hc; exact (Hc Hz)). reflexivity.
    + rewrite (bool_decide_eq_true_2 _ Hnz).
      destruct (decide (0 < diff)%Z) as [Hpos|Hneg].
      * rewrite bool_decide_eq_true_2 by lia. reflexivity.
      * rewrite bool_decide_eq_false_2 by lia. reflexivity.
  - rewrite (bool_decide_eq_false_2 _ Hnin). simpl.
    set (diff := (GoalPosition.size goal - 0)%Z).
    destruct (decide (diff = 0%Z)) as [Hz|Hnz].
    + rewrite bool_decide_eq_false_2 by (intros Hc; exact (Hc Hz)). reflexivity.
    + rewrite (bool_decide_eq_true_2 _ Hnz).
      destruct (decide (0 < diff)%Z) as [Hpos|Hneg].
      * rewrite bool_decide_eq_true_2 by lia. reflexivity.
      * rewrite bool_decide_eq_false_2 by lia. reflexivity.
Qed.

Lemma goal_portfolio_loop_run (self : Strategy.t) (goals : list GoalPosition.t) :
  holdings_tracked self ->
  forall orders,
    Strategy.goal_portfolio_loop goals orders self
    = (Ok (orders ++ diff_orders self goals), self).
Proof.
  intros Htracked. induction goals as [|goal rest IH]; intros orders.
  - simpl. rewrite app_nil_r. reflexivity.
  - cbn [Strategy.goal_portfolio_loop]. rewrite (goal_order_tracked _ _ Htracked).
    unfold diff_orders. cbn [omap list_omap].
    destruct (diff_order self goal) as [order|].
    + rewrite IH, <- app_assoc. reflexivity.
    + rewrite IH. reflexivity.
Qed.

(** An order is among the generated ones exactly when it is the order of a
    goal whose size differs from the held size; it buys when the goal is
    above the holding and sells when it is below. *)
Lemma elem_of_diff_orders (self : Strategy.t) (goals : list GoalPosition.t) (o : Order.t) :
  o ∈ diff_orders self goals <->
  exists goal, goal ∈ goals
    /\ GoalPosition.size goal ≠ held_size self (GoalPosition.symbol goal)
    /\ o = Order.mk (GoalPosition.symbol goal)
             (if decide (held_size self (GoalPosition.symbol goal) < GoalPosition.size goal)%Z
              then BUY else SELL)
             0 (Z.abs (GoalPosition.size goal - held_size self (GoalPosition.symbol goal)))
             (Strategy.trade_date self) 0 "" "" (Some "vwap"%string).
Proof.
  unfold diff_orders. rewrite list_elem_of_omap. unfold diff_order.
  split.
  - intros (goal & Hin & Hsome). exists goal. split; [exact Hin|].
    destruct (decide _) as [Hz|Hnz] in Hsome; [discriminate|].
    split; [lia|]. injection Hsome as <-.
    destruct (decide (0 < _)%Z), (decide (_ < _)%Z); try lia; reflexivity.
  - intros (goal & Hin & Hne & ->). exists goal. split; [exact Hin|].
    destruct (decide (_ = 0%Z)) as [Hz|Hnz]; [lia|].
    destruct (decide (0 < _)%Z), (decide (_ < _)%Z); try lia; reflexivity.
Qed.

(** C8.  A goal list whose length is not the length of the universe makes
    [goal_portfolio] fail on its assertion with the strategy untouched, so
    before any order is submitted.  When the lengths agree, the orders are
    those of the goals whose size differs from the held size (a buy for a
    positive difference, a sell for a negative one, see [diff_orders]), and
    they reach the gateway together, as one batch under one task id. *)
Theorem goal_portfolio_spec (self : Strategy.t) (goals : list GoalPosition.t) :
  (length goals ≠ length (Strategy.universe self) ->
     Strategy.goal_portfolio goals self = (Raise AssertionError, self))
  /\ (length goals = length (Strategy.universe self) ->
      int64_fits (Strategy.trade_date self) = true ->
      holdings_tracked self ->
      exists (stamped : list Order.t) (self' : Strategy.t),
        Strategy.goal_portfolio goals self = (Ok (), self')
        /\ Forall2 (stamped_with (next_id "task_id" self)) (diff_orders self goals) stamped
        /\ Gateway.calls (Strategy.gateway self')
           = Gateway.calls (Strategy.gateway self) ++ map GwPlace stamped
        /\ (forall o, o ∈ diff_orders self goals <->
              exists goal, goal ∈ goals
                /\ GoalPosition.size goal ≠ held_size self (GoalPosition.symbol goal)
                /\ o = Order.mk (GoalPosition.symbol goal)
                         (if decide (held_size self (GoalPosition.symbol goal)
                                     < GoalPosition.size goal)%Z then BUY else SELL)
                         0 (Z.abs (GoalPosition.size goal
                                   - held_size self (GoalPosition.symbol goal)))
                         (Strategy.trade_date self) 0 "" "" (Some "vwap"%string))).
Proof.
  split.
  - intros Hlen. unfold Strategy.goal_portfolio.
    rewrite (method_bind_ok _ _ self self (length (Strategy.universe self))) by reflexivity.
    rewrite (bool_decide_eq_false_2 _ Hlen). reflexivity.
  - intros Hlen Hfit Htracked. unfold Strategy.goal_portfolio.
    rewrite (method_bind_ok _ _ self self (length (Strategy.universe self))) by reflexivity.
    rewrite (bool_decide_eq_true_2 _ Hlen).
    rewrite (method_bind_ok _ _ _ _ _ (goal_portfolio_loop_run self goals Htracked [])).
    rewrite app_nil_l.
    destruct (place_batch_order_run (diff_orders self goals) self Hfit)
      as (answers & stamped & self' & Hrun & Hst & _ & Hcalls & _).
    exists stamped, self'.
    split. { rewrite (method_bind_ok _ _ _ _ _ Hrun). reflexivity. }
    split; [exact Hst|]. split; [exact Hcalls|].
    intros o. apply elem_of_diff_orders.
Qed.

Lemma holding_strategy_tracked : holdings_tracked holding_strategy.
Proof.
  intros sec Hin. change (sec ∈ ({["A"%string]} : gset string)) in Hin.
  apply elem_of_singleton in Hin. subst sec.
  eexists. reflexivity.
Qed.

Lemma goal_portfolio_spec_witness :
  Strategy.goal_portfolio [GoalPosition.mk "A" 500] holding_strategy
    = (Raise AssertionError, holding_strategy)
  /\ exists self',
      Strategy.goal_portfolio [GoalPosition.mk "A" 500; GoalPosition.mk "B" 0]
        holding_strategy = (Ok (), self')
      /\ Gateway.calls (Strategy.gateway self')
         = [GwPlace (Order.mk "A" BUY 0 200 20171106 0 "201711060001" "201711060001"
                       (Some "vwap"%string))].
Proof.
  split.
  - apply (goal_portfolio_spec holding_strategy [GoalPosition.mk "A" 500]).
    simpl. lia.
  - destruct (proj2 (goal_portfolio_spec holding_strategy
                       [GoalPosition.mk "A" 500; GoalPosition.mk "B" 0]))
      as (stamped & self' & Hrun & _ & _ & _).
    + reflexivity.
    + reflexivity.
    + exact holding_strategy_tracked.
    + exists self'. split; [exact Hrun|].
      assert (Heq : self' = (Strategy.goal_portfolio
                [GoalPosition.mk "A" 500; GoalPosition.mk "B" 0] holding_strategy).2)
        by (rewrite Hrun; reflexivity).
      rewrite Heq. vm_compute. reflexivity.
Defined.

(** * Properties of the weight arithmetic *)

Lemma str_in_true (sec : string) (l : list string) : str_in sec l = true <-> sec ∈ l.
Proof.
  unfold str_in. rewrite existsb_exists. split.
  - intros (x & Hin & Heq). apply String.eqb_eq in Heq. subst x.
    apply list_elem_of_In. exact Hin.
  - intros Hin. exists sec. split; [apply list_elem_of_In; exact Hin|].
    apply String.eqb_refl.
Qed.

Lemma str_in_false (sec : string) (l : list string) : str_in sec l = false <-> sec ∉ l.
Proof.
  rewrite <- str_in_true. destruct (str_in sec l); split; congruence.
Qed.

Lemma Qltb_true (x y : Q) : Qltb x y = true <-> x < y.
Proof.
  unfold Qltb. rewrite negb_true_iff. split.
  - intros Hb. apply Qnot_le_lt. intros Hle. apply Qle_bool_iff in Hle. congruence.
  - intros Hlt. destruct (Qle_bool y x) eqn:Hb; [|reflexivity].
    apply Qle_bool_iff in Hb. exfalso. exact (Qlt_not_le _ _ Hlt Hb).
Qed.

Lemma Qltb_false (x y : Q) : Qltb x y = false <-> y <= x.
Proof.
  unfold Qltb. rewrite negb_false_iff. apply Qle_bool_iff.
Qed.

(** ** Conversions between floats and integers *)

Lemma int_round_ok (x : float) (z : Z) :
  int_round x = Ok z <-> exists q, float_value x = Some q /\ z = py_round q.
Proof.
  unfold int_round. destruct (float_value x) as [q|].
  - split.
    + intros [= <-]. exists q. split; reflexivity.
    + intros (q' & [= <-] & ->). reflexivity.
  - split.
    + destruct (is_nan x); discriminate.
    + intros (q & Hq & _). discriminate.
Qed.

Lemma float_of_int_ok (z : Z) (x : float) :
  float_of_int z = Ok x <-> converts z /\ x = float_of_Z z.
Proof.
  unfold float_of_int, converts. cbv zeta.
  destruct (is_infinity (float_of_Z z)).
  - split; [discriminate|]. intros [Hc _]. discriminate.
  - split.
    + intros [= <-]. split; reflexivity.
    + intros [_ ->]. reflexivity.
Qed.

(** ** Translation of weights into goal positions *)

Section goal_translation.
Variables (self : AlphaStrategy.t) (turnover : float) (prices : gmap string float)
          (suspensions : list string).

Lemma goal_of_suspended (sec : string) (w cash_used : float) :
  sec ∈ suspensions ->
  AlphaStrategy.goal_of self turnover prices (Some suspensions) sec w cash_used
  = Ok (entry_goal self turnover prices suspensions (sec, w), cash_used).
Proof.
  intros Hin. unfold AlphaStrategy.goal_of, entry_goal. cbn [fst snd].
  rewrite (proj2 (str_in_true _ _) Hin). rewrite (decide_True _ _ Hin).
  unfold PortfolioManager.get_position.
  destruct (_ !! sec); reflexivity.
Qed.

Lemma goal_of_negligible (sec : string) (w cash_used : float) :
  sec ∉ suspensions -> negligible w = true ->
  AlphaStrategy.goal_of self turnover prices (Some suspensions) sec w cash_used
  = Ok (entry_goal self turnover prices suspensions (sec, w), cash_used).
Proof.
  intros Hnin Hneg. unfold AlphaStrategy.goal_of, entry_goal. cbn [fst snd].
  rewrite (proj2 (str_in_false _ _) Hnin). rewrite (decide_False _ _ Hnin).
  rewrite Hneg. unfold negligible in Hneg. rewrite Hneg. reflexivity.
Qed.

(** A turn for a traded symbol returns exactly when the symbol has a price
    that is not zero, the lot quotient is finite and the lot count converts;
    it then gives the rounded lot quotient and pays for it. *)
Lemma goal_of_traded (sec : string) (w cash_used : float) (goal_pos : GoalPosition.t)
    (cash : float) :
  sec ∉ suspensions -> negligible w = false ->
  AlphaStrategy.goal_of self turnover prices (Some suspensions) sec w cash_used
    = Ok (goal_pos, cash)
  <-> exists price x,
        prices !! sec = Some price
        /\ (price =? 0)%float = false
        /\ lot_quotient w turnover price = Some x
        /\ converts (py_round x * 100)
        /\ converts (py_round x)
        /\ goal_pos = GoalPosition.mk sec (py_round x)
        /\ cash = (cash_used + float_of_Z (py_round x) * price * 100)%float.
Proof.
  intros Hnin Hneg. unfold AlphaStrategy.goal_of.
  rewrite (proj2 (str_in_false _ _) Hnin).
  unfold negligible in Hneg. rewrite Hneg. unfold lot_quotient.
  destruct (prices !! sec) as [price|].
  2:{ split; [discriminate|]. intros (price & x & Hp & _). discriminate. }
  destruct (price =? 0)%float eqn:Hz.
  { split; [discriminate|]. intros (p & x & [= <-] & Hnz & _). congruence. }
  cbv zeta.
  destruct (int_round (w * turnover / price / 100)%float) as [shares|e] eqn:Hround.
  2:{ split; [discriminate|]. intros (p & x & [= <-] & _ & Hq & _).
      assert (Hok : int_round (w * turnover / price / 100)%float = Ok (py_round x)).
      { apply int_round_ok. exists x. split; [exact Hq|reflexivity]. }
      congruence. }
  apply int_round_ok in Hround. destruct Hround as (q & Hq & ->).
  cbn [mbind result_bind].
  destruct (float_of_int (py_round q * 100)) as [h|e] eqn:Hh.
  2:{ split; [discriminate|]. intros (p & x & [= <-] & _ & Hx & Hc & _).
      rewrite Hq in Hx. injection Hx as <-.
      assert (Hok : float_of_int (py_round q * 100) = Ok (float_of_Z (py_round q * 100))).
      { apply float_of_int_ok. split; [exact Hc|reflexivity]. }
      congruence. }
  apply float_of_int_ok in Hh. destruct Hh as [Hc100 ->].
  destruct (float_of_int (py_round q)) as [f|e] eqn:Hf.
  2:{ split; [discriminate|]. intros (p & x & [= <-] & _ & Hx & _ & Hc & _).
      rewrite Hq in Hx. injection Hx as <-.
      assert (Hok : float_of_int (py_round q) = Ok (float_of_Z (py_round q))).
      { apply float_of_int_ok. split; [exact Hc|reflexivity]. }
      congruence. }
  apply float_of_int_ok in Hf. destruct Hf as [Hc ->].
  split.
  - intros [= <- <-]. exists price, q. repeat split; assumption.
  - intros (p & x & [= <-] & _ & Hx & _ & _ & -> & ->).
    rewrite Hq in Hx. injection Hx as <-. reflexivity.
Qed.

(** Whatever a turn of the loop returns is the closed form. *)
Lemma goal_of_ok (sec : string) (w cash_used : float) (goal_pos : GoalPosition.t)
    (cash : float) :
  AlphaStrategy.goal_of self turnover prices (Some suspensions) sec w cash_used
    = Ok (goal_pos, cash) ->
  goal_pos = entry_goal self turnover prices suspensions (sec, w)
  /\ cash = cash_after turnover prices suspensions cash_used [(sec, w)].
Proof.
  unfold cash_after. cbn [foldl].
  destruct (decide (sec ∈ suspensions)) as [Hin|Hnin].
  { rewrite (goal_of_suspended _ _ _ Hin). intros [= <- <-]. split; [reflexivity|].
    unfold entry_cash. cbn [fst snd]. rewrite (decide_True _ _ Hin). reflexivity. }
  destruct (negligible w) eqn:Hneg.
  { rewrite (goal_of_negligible _ _ _ Hnin Hneg). intros [= <- <-]. split; [reflexivity|].
    unfold entry_cash. cbn [fst snd]. rewrite (decide_False _ _ Hnin), Hneg. reflexivity. }
  intros Hturn. apply (goal_of_traded _ _ _ _ _ Hnin Hneg) in Hturn.
  destruct Hturn as (price & x & Hprice & _ & Hq & _ & _ & -> & ->).
  unfold entry_goal, entry_cash, lots. cbn [fst snd].
  rewrite !(decide_False _ _ Hnin), Hneg, Hprice. cbn [from_option fmap option_fmap option_map].
  rewrite Hq. split; reflexivity.
Qed.

Lemma cash_after_cons (cash : float) (kv : string * float)
    (weights_dic : list (string * float)) :
  cash_after turnover prices suspensions cash (kv :: weights_dic)
  = cash_after turnover prices suspensions
      (cash_after turnover prices suspensions cash [kv]) weights_dic.
Proof. reflexivity. Qed.

Lemma generate_weights_order_loop_ok (weights_dic : list (string * float)) :
  forall goals cash_used goals' cash_used',
    AlphaStrategy.generate_weights_order_loop self turnover prices (Some suspensions)
      weights_dic goals cash_used = Ok (goals', cash_used') ->
    goals' = goals ++ map (entry_goal self turnover prices suspensions) weights_dic
    /\ cash_used' = cash_after turnover prices suspensions cash_used weights_dic.
Proof.
  induction weights_dic as [|[sec w] rest IH]; intros goals cash_used goals' cash_used'.
  - simpl. intros [= <- <-]. rewrite app_nil_r. split; reflexivity.
  - cbn [AlphaStrategy.generate_weights_order_loop].
    destruct (AlphaStrategy.goal_of self turnover prices (Some suspensions) sec w cash_used)
      as [[goal_pos cash]|e] eqn:Hturn; [|discriminate].
    apply goal_of_ok in Hturn. destruct Hturn as [-> ->].
    cbn [mbind result_bind]. intros Hrest. apply IH in Hrest. destruct Hrest as [-> ->].
    split; [rewrite <- app_assoc; reflexivity|].
    rewrite (cash_after_cons cash_used (sec, w) rest). reflexivity.
Qed.

Lemma generate_weights_order_loop_total (weights_dic : list (string * float)) :
  priced turnover prices suspensions weights_dic ->
  forall goals cash_used,
    exists goals' cash_used',
      AlphaStrategy.generate_weights_order_loop self turnover prices (Some suspensions)
        weights_dic goals cash_used = Ok (goals', cash_used').
Proof.
  induction weights_dic as [|[sec w] rest IH]; intros Hpriced goals cash_used.
  - simpl. eauto.
  - cbn [AlphaStrategy.generate_weights_order_loop].
    assert (Hrest : priced turnover prices suspensions rest).
    { intros s v Hin. apply Hpriced. apply elem_of_cons. right. exact Hin. }
    assert (Hturn : exists goal_pos cash,
               AlphaStrategy.goal_of self turnover prices (Some suspensions) sec w cash_used
               = Ok (goal_pos, cash)).
    { destruct (decide (sec ∈ suspensions)) as [Hin|Hnin].
      { rewrite (goal_of_suspended _ _ _ Hin). eauto. }
      destruct (negligible w) eqn:Hneg.
      { rewrite (goal_of_negligible _ _ _ Hnin Hneg). eauto. }
      destruct (Hpriced sec w) as (price & x & Hprice & Hnz & Hq & Hc100 & Hc);
        try assumption.
      { apply elem_of_cons. left. reflexivity. }
      eexists _, _. apply (goal_of_traded _ _ _ _ _ Hnin Hneg).
      exists price, x. repeat split; assumption. }
    destruct Hturn as (goal_pos & cash & ->). cbn [mbind result_bind]. apply IH. exact Hrest.
Qed.

Lemma generate_weights_order_loop_priced (weights_dic : list (string * float)) :
  forall goals cash_used goals' cash_used',
    AlphaStrategy.generate_weights_order_loop self turnover prices (Some suspensions)
      weights_dic goals cash_used = Ok (goals', cash_used') ->
    priced turnover prices suspensions weights_dic.
Proof.
  induction weights_dic as [|[sec w] rest IH]; intros goals cash_used goals' cash_used'.
  - intros _ s v Hin. inversion Hin.
  - cbn [AlphaStrategy.generate_weights_order_loop].
    destruct (AlphaStrategy.goal_of self turnover prices (Some suspensions) sec w cash_used)
      as [[goal_pos cash]|e] eqn:Hturn; [|discriminate].
    cbn [mbind result_bind]. intros Hrest. apply IH in Hrest.
    intros s v Hin Hnin Hneg. apply elem_of_cons in Hin. destruct Hin as [[= -> ->]|Hin].
    + apply (goal_of_traded _ _ _ _ _ Hnin Hneg) in Hturn.
      destruct Hturn as (price & x & Hprice & Hnz & Hq & Hc100 & Hc & _).
      exists price, x. repeat split; assumption.
    + exact (Hrest s v Hin Hnin Hneg).
Qed.

End goal_translation.

Lemma py_round_nearest (x : Q) : Qabs (inject_Z (py_round x) - x) <= 1 # 2.
Proof.
  unfold py_round. apply Qabs_Qle_condition.
  destruct (Qle_bool 0 x).
  - pose proof (Qfloor_le (x + (1 # 2))) as Hlo.
    pose proof (Qlt_floor (x + (1 # 2))) as Hhi.
    rewrite inject_Z_plus in Hhi. change (inject_Z 1) with 1 in Hhi.
    split; lra.
  - pose proof (Qle_ceiling (x - (1 # 2))) as Hlo.
    pose proof (Qceiling_lt (x - (1 # 2))) as Hhi.
    unfold Z.sub in Hhi. rewrite inject_Z_plus in Hhi.
    rewrite inject_Z_opp in Hhi. change (inject_Z 1) with 1 in Hhi.
    split; lra.
Qed.

Lemma algo_allowed (algo : string) :
  existsb (String.eqb algo) ["close"; "vwap"]%string = true
  <-> algo = "close"%string \/ algo = "vwap"%string.
Proof.
  simpl. rewrite !orb_true_iff, !String.eqb_eq. intuition discriminate.
Qed.

Lemma generate_weights_order_allowed (self : AlphaStrategy.t)
    (weights_dic : list (string * float)) (turnover : float) (prices : gmap string float)
    (algo : string) (suspensions : option (list string)) :
  algo = "close"%string \/ algo = "vwap"%string ->
  AlphaStrategy.generate_weights_order self weights_dic turnover prices algo suspensions
  = '(goals, cash_used) ←
      AlphaStrategy.generate_weights_order_loop self turnover prices suspensions
        weights_dic [] 0%float;
    Ok (goals, (turnover - cash_used)%float).
Proof.
  intros Halgo. unfold AlphaStrategy.generate_weights_order.
  rewrite (proj2 (algo_allowed algo) Halgo). simpl negb. cbv iota.
  change (truthy "vwap") with true. rewrite orb_true_r. reflexivity.
Qed.

(** C7.  An execution style other than ['close'] and ['vwap'] makes
    [generate_weights_order] raise [NotImplementedError], whatever the other
    arguments are: nothing of the weights, the prices or the suspensions is
    looked at, no share count and no goal position is computed. *)
Theorem generate_weights_order_unknown_algo (self : AlphaStrategy.t)
    (weights_dic : list (string * float)) (turnover : float) (prices : gmap string float)
    (algo : string) (suspensions : option (list string)) :
  algo ≠ "close"%string -> algo ≠ "vwap"%string ->
  AlphaStrategy.generate_weights_order self weights_dic turnover prices algo suspensions
  = Raise (NotImplementedError "Currently we only suport order at close price.").
Proof.
  intros Hclose Hvwap. unfold AlphaStrategy.generate_weights_order.
  destruct (existsb (String.eqb algo) ["close"; "vwap"]%string) eqn:Hin.
  - apply algo_allowed in Hin. destruct Hin; contradiction.
  - reflexivity.
Qed.

Lemma generate_weights_order_unknown_algo_witness :
  AlphaStrategy.generate_weights_order example_alpha
    [("A"%string, 0.5%float); ("B"%string, 0.5%float)] 100000%float example_prices "open"
    None
  = Raise (NotImplementedError "Currently we only suport order at close price.").
Proof.
  apply generate_weights_order_unknown_algo; discriminate.
Defined.

Lemma generate_weights_order_ok (self : AlphaStrategy.t)
    (weights_dic : list (string * float)) (turnover : float) (prices : gmap string float)
    (algo : string) (suspensions : list string) (goals : list GoalPosition.t)
    (cash_left : float) :
  AlphaStrategy.generate_weights_order self weights_dic turnover prices algo
    (Some suspensions) = Ok (goals, cash_left) ->
  goals = map (entry_goal self turnover prices suspensions) weights_dic
  /\ cash_left = (turnover - total_cash turnover prices suspensions weights_dic)%float.
Proof.
  destruct (existsb (String.eqb algo) ["close"; "vwap"]%string) eqn:Hin.
  - apply algo_allowed in Hin. rewrite (generate_weights_order_allowed _ _ _ _ _ _ Hin).
    destruct (AlphaStrategy.generate_weights_order_loop _ _ _ _ _ _ _)
      as [[goals' cash_used]|e] eqn:Hloop; [|discriminate].
    cbn [mbind result_bind]. intros [= <- <-].
    apply generate_weights_order_loop_ok in Hloop. destruct Hloop as [-> ->].
    split; reflexivity.
  - unfold AlphaStrategy.generate_weights_order. rewrite Hin. discriminate.
Qed.

(** C10.  A symbol that is suspended and has no tracked position gets the
    goal size 0, whatever its weight: the turn of the loop for it cannot fail
    and yields size 0 without touching [cash_used], and in every run of
    [generate_weights_order] that returns, the goal at the place of that
    symbol has size 0. *)
Theorem suspended_untracked_goal_zero (self : AlphaStrategy.t)
    (weights_dic : list (string * float)) (turnover : float) (prices : gmap string float)
    (algo : string) (suspensions : list string) (sec : string) (w : float) (i : nat) :
  weights_dic !! i = Some (sec, w) ->
  sec ∈ suspensions ->
  PortfolioManager.get_position (Strategy.pm (AlphaStrategy.base self)) sec
    (Strategy.trade_date (AlphaStrategy.base self)) = None ->
  (forall cash_used,
     AlphaStrategy.goal_of self turnover prices (Some suspensions) sec w cash_used
     = Ok (GoalPosition.mk sec 0, cash_used))
  /\ (forall goals cash_left,
        AlphaStrategy.generate_weights_order self weights_dic turnover prices algo
          (Some suspensions) = Ok (goals, cash_left) ->
        goals !! i = Some (GoalPosition.mk sec 0)).
Proof.
  intros Hi Hsusp Hnone.
  assert (Hgoal : entry_goal self turnover prices suspensions (sec, w)
                  = GoalPosition.mk sec 0).
  { unfold entry_goal. cbn [fst snd]. rewrite (decide_True _ _ Hsusp).
    unfold PortfolioManager.get_position in Hnone. rewrite Hnone. reflexivity. }
  split.
  - intros cash_used. rewrite (goal_of_suspended _ _ _ _ _ _ _ Hsusp), Hgoal. reflexivity.
  - intros goals cash_left Hrun. apply generate_weights_order_ok in Hrun.
    destruct Hrun as [-> _]. rewrite list_lookup_fmap, Hi. simpl. rewrite Hgoal.
    reflexivity.
Qed.

Lemma suspended_untracked_goal_zero_witness :
  AlphaStrategy.goal_of example_alpha 100000%float example_prices (Some ["A"%string])
    "A" 0.5%float 0%float = Ok (GoalPosition.mk "A" 0, 0%float)
  /\ exists goals cash_left,
      AlphaStrategy.generate_weights_order example_alpha example_weights
        100000%float example_prices "close" (Some ["A"%string]) = Ok (goals, cash_left)
      /\ goals !! 0%nat = Some (GoalPosition.mk "A" 0).
Proof.
  destruct (suspended_untracked_goal_zero example_alpha example_weights 100000%float
              example_prices "close" ["A"%string] "A" 0.5%float 0) as [Hturn Hrun].
  - reflexivity.
  - apply list_elem_of_singleton. reflexivity.
  - reflexivity.
  - split; [apply Hturn|].
    destruct (AlphaStrategy.generate_weights_order example_alpha example_weights
                100000%float example_prices "close" (Some ["A"%string]))
      as [[goals cash_left]|e] eqn:Hgo.
    + exists goals, cash_left. split; [reflexivity|]. apply (Hrun goals cash_left).
      reflexivity.
    + vm_compute in Hgo. discriminate.
Defined.

(** For an allowed execution style and a priced weight mapping, the
    translation returns one goal per symbol; a traded symbol gets the lots
    nearest to the lot quotient and pays for them out of the cash. *)
Lemma generate_weights_order_traded (self : AlphaStrategy.t)
    (weights_dic : list (string * float)) (turnover : float) (prices : gmap string float)
    (algo : string) (suspensions : list string) :
  algo = "close"%string \/ algo = "vwap"%string ->
  priced turnover prices suspensions weights_dic ->
  exists goals cash_left,
    AlphaStrategy.generate_weights_order self weights_dic turnover prices algo
      (Some suspensions) = Ok (goals, cash_left)
    /\ length goals = length weights_dic
    /\ (forall i sec w price,
          weights_dic !! i = Some (sec, w) -> sec ∉ suspensions ->
          (abs w <? 0x1.5798ee2308c3ap-27)%float = false ->
          prices !! sec = Some price ->
          let shares_raw := (w * turnover / price)%float in
          exists x,
            float_value (shares_raw / 100)%float = Some x
            /\ goals !! i = Some (GoalPosition.mk sec (py_round x))
            /\ Qabs (inject_Z (py_round x) - x) <= 1 # 2
            /\ entry_cash turnover prices suspensions (sec, w)
               = Some (float_of_Z (py_round x) * price * 100)%float)
    /\ cash_left = (turnover - total_cash turnover prices suspensions weights_dic)%float.
Proof.
  intros Halgo Hpriced.
  destruct (generate_weights_order_loop_total self turnover prices suspensions
              weights_dic Hpriced [] 0%float) as (goals & cash_used & Hloop).
  assert (Hrun : AlphaStrategy.generate_weights_order self weights_dic turnover prices
                   algo (Some suspensions) = Ok (goals, (turnover - cash_used)%float)).
  { rewrite (generate_weights_order_allowed _ _ _ _ _ _ Halgo), Hloop. reflexivity. }
  exists goals, (turnover - cash_used)%float. split; [exact Hrun|].
  apply generate_weights_order_ok in Hrun. destruct Hrun as [-> Hcash].
  split; [apply length_map|]. split; [|exact Hcash].
  intros i sec w price Hi Hnin Hw Hprice shares_raw.
  destruct (Hpriced sec w) as (price' & x & Hprice' & _ & Hq & _).
  { apply list_elem_of_lookup. exists i. exact Hi. }
  { exact Hnin. }
  { exact Hw. }
  rewrite Hprice in Hprice'. injection Hprice' as <-.
  exists x. split; [exact Hq|]. split; [|split].
  - rewrite list_lookup_fmap, Hi. simpl. unfold entry_goal, lots. cbn [fst snd].
    rewrite (decide_False _ _ Hnin). unfold negligible. rewrite Hw, Hprice.
    cbn [from_option]. rewrite Hq. reflexivity.
  - apply py_round_nearest.
  - unfold entry_cash, lots. cbn [fst snd].
    rewrite (decide_False _ _ Hnin). unfold negligible. rewrite Hw, Hprice.
    cbn [fmap option_fmap option_map]. rewrite Hq. reflexivity.
Qed.

Lemma example_priced_any (suspensions : list string) :
  priced 100000%float example_prices suspensions example_weights.
Proof.
  intros sec w Hin _ _. unfold example_weights in Hin.
  apply elem_of_cons in Hin. destruct Hin as [[= -> ->]|Hin].
  { exists 10%float. eexists. split; [reflexivity|]. split; [reflexivity|].
    split; [vm_compute; reflexivity|]. split; vm_compute; reflexivity. }
  apply list_elem_of_singleton in Hin. injection Hin as -> ->.
  exists 20%float. eexists. split; [reflexivity|]. split; [reflexivity|].
  split; [vm_compute; reflexivity|]. split; vm_compute; reflexivity.
Qed.

(** C2 (as the code has it).  For an allowed execution style and a weight
    mapping whose traded symbols all have a non-zero price and a finite lot
    quotient, [generate_weights_order] returns one goal per symbol.  For a
    symbol that is not suspended and whose weight is not below 1e-8 in
    absolute value, the goal size is [round(weight * turnover / price / 100)]
    computed in floats, the number of 100-share lots nearest to the float
    quotient (it is not multiplied back by 100), and that symbol adds
    [lots * price * 100] to [cash_used]; the cash left is the turnover minus
    the cash used.  On the worked example (weights A 0.5 and B 0.5, turnover
    100000, prices 10 and 20, no suspension) the goal sizes are 50 and 25
    lots, the cash used is 100000 and nothing is left. *)
Theorem generate_weights_order_lots :
  (forall (self : AlphaStrategy.t) (weights_dic : list (string * float))
          (turnover : float) (prices : gmap string float) (algo : string)
          (suspensions : list string),
     algo = "close"%string \/ algo = "vwap"%string ->
     priced turnover prices suspensions weights_dic ->
     exists goals cash_left,
       AlphaStrategy.generate_weights_order self weights_dic turnover prices algo
         (Some suspensions) = Ok (goals, cash_left)
       /\ length goals = length weights_dic
       /\ (forall i sec w price,
             weights_dic !! i = Some (sec, w) -> sec ∉ suspensions ->
             (abs w <? 0x1.5798ee2308c3ap-27)%float = false ->
             prices !! sec = Some price ->
             let shares_raw := (w * turnover / price)%float in
             exists x,
               float_value (shares_raw / 100)%float = Some x
               /\ goals !! i = Some (GoalPosition.mk sec (py_round x))
               /\ Qabs (inject_Z (py_round x) - x) <= 1 # 2
               /\ entry_cash turnover prices suspensions (sec, w)
                  = Some (float_of_Z (py_round x) * price * 100)%float)
       /\ cash_left
          = (turnover - total_cash turnover prices suspensions weights_dic)%float)
  /\ (exists cash_left,
        AlphaStrategy.generate_weights_order example_alpha example_weights
          100000%float example_prices "close" (Some [])
        = Ok ([GoalPosition.mk "A" 50; GoalPosition.mk "B" 25], cash_left)
        /\ total_cash 100000%float example_prices [] example_weights = 100000%float
        /\ cash_left = 0%float).
Proof.
  split.
  - exact generate_weights_order_traded.
  - eexists. split; [vm_compute; reflexivity|].
    split; vm_compute; reflexivity.
Qed.

(** With B suspended and not held, A alone is traded: 50 lots of A, nothing
    of B, and half of the turnover is left. *)
Lemma generate_weights_order_lots_witness :
  exists cash_left,
    AlphaStrategy.generate_weights_order example_alpha example_weights
      100000%float example_prices "vwap" (Some ["B"%string])
    = Ok ([GoalPosition.mk "A" 50; GoalPosition.mk "B" 0], cash_left)
    /\ cash_left = 50000%float.
Proof.
  destruct (proj1 generate_weights_order_lots example_alpha example_weights
              100000%float example_prices "vwap" ["B"%string])
    as (goals & cash_left & Hrun & _ & _ & Hcash).
  - right. reflexivity.
  - apply example_priced_any.
  - exists cash_left. split.
    + rewrite Hrun. f_equal. f_equal.
      assert (Hgoals : (AlphaStrategy.generate_weights_order example_alpha example_weights
                100000%float example_prices "vwap" (Some ["B"%string])
                ≫= fun r => Ok r.1) = Ok goals) by (rewrite Hrun; reflexivity).
      vm_compute in Hgoals. injection Hgoals as <-. reflexivity.
    + rewrite Hcash. vm_compute. reflexivity.
Defined.

(** C2, the claim as stated fails on its own example: the goal sizes are not
    5000 and 2500. *)
Lemma generate_weights_order_example_not_shares :
  ~ exists cash_left,
      AlphaStrategy.generate_weights_order example_alpha example_weights
        100000%float example_prices "close" (Some [])
      = Ok ([GoalPosition.mk "A" 5000; GoalPosition.mk "B" 2500], cash_left).
Proof.
  intros [cash_left Hrun]. vm_compute in Hrun. discriminate.
Qed.

(** ** Sums of absolute weights *)

Lemma np_sum_abs_values (ws : weight_map) : np_sum (np_abs (values ws)) = abs_total ws.
Proof.
  unfold np_sum, np_abs, values, abs_total.
  induction (map_to_list ws) as [|[k v] l IH]; [reflexivity|].
  cbn [fmap list_fmap map foldr snd]. f_equal. exact IH.
Qed.

Lemma finite_items (ws : weight_map) :
  finite ws -> Forall (fun kv => exists q, kv.2 = Num q) (map_to_list ws).
Proof.
  intros Hfin. apply Forall_forall. intros [k v] Hin.
  apply elem_of_map_to_list in Hin. exact (Hfin k v Hin).
Qed.

Lemma abs_total_items (items : list (string * pyfloat)) :
  Forall (fun kv => exists q, kv.2 = Num q) items ->
  foldr (fun kv acc => f_add (f_abs kv.2) acc) (Num 0) items = Num (abs_sum_of items).
Proof.
  induction 1 as [|[k v] l [q Hq] _ IH]; [reflexivity|].
  cbn [foldr abs_sum_of snd] in *. rewrite IH, Hq. reflexivity.
Qed.

Lemma abs_total_finite (ws : weight_map) :
  finite ws -> abs_total ws = Num (abs_sum_of (map_to_list ws)).
Proof.
  intros Hfin. apply abs_total_items, finite_items, Hfin.
Qed.

Lemma abs_sum_of_cons (kv : string * pyfloat) (items : list (string * pyfloat)) :
  abs_sum_of (kv :: items) = Qabs (number kv.2) + abs_sum_of items.
Proof. reflexivity. Qed.

Lemma abs_sum_of_nonneg (items : list (string * pyfloat)) : 0 <= abs_sum_of items.
Proof.
  induction items as [|kv l IH]; [vm_compute; discriminate|].
  rewrite abs_sum_of_cons. pose proof (Qabs_nonneg (number kv.2)). lra.
Qed.

Lemma abs_sum_of_perm (l l' : list (string * pyfloat)) :
  l ≡ₚ l' -> abs_sum_of l == abs_sum_of l'.
Proof.
  induction 1 as [|kv l l' _ IH|a b l|l1 l2 l3 _ IH1 _ IH2].
  - reflexivity.
  - rewrite !abs_sum_of_cons, IH. reflexivity.
  - rewrite !abs_sum_of_cons. ring.
  - rewrite IH1. exact IH2.
Qed.

Lemma abs_sum_of_zero (items : list (string * pyfloat)) :
  abs_sum_of items <= 0 -> Forall (fun kv => number kv.2 == 0) items.
Proof.
  induction items as [|kv l IH]; intros Hle; [constructor|].
  rewrite abs_sum_of_cons in Hle.
  pose proof (Qabs_nonneg (number kv.2)) as Hv. pose proof (abs_sum_of_nonneg l) as Hl.
  constructor.
  - assert (Hz : Qabs (number kv.2) <= 0) by lra.
    apply Qabs_Qle_condition in Hz. lra.
  - apply IH. lra.
Qed.

Lemma Qabs_div_pos (v s : Q) : 0 < s -> Qabs (v / s) == Qabs v / s.
Proof.
  intros Hs. unfold Qdiv. rewrite Qabs_Qmult.
  rewrite (Qabs_pos (/ s)); [reflexivity|].
  apply Qlt_le_weak, Qinv_lt_0_compat. exact Hs.
Qed.

Lemma f_div_num (x s : Q) : ~ s == 0 -> f_div (Num x) (Num s) = Num (x / s).
Proof.
  intros Hs. unfold f_div. destruct (Qeq_bool s 0) eqn:Hz; [|reflexivity].
  apply Qeq_bool_iff in Hz. contradiction.
Qed.

Lemma abs_sum_of_scale (s : Q) (items : list (string * pyfloat)) :
  0 < s ->
  Forall (fun kv => exists q, kv.2 = Num q) items ->
  abs_sum_of (prod_map id (fun v => f_div v (Num s)) <$> items) == abs_sum_of items / s.
Proof.
  intros Hs. induction 1 as [|[k v] l [q Hq] _ IH].
  - change (0 == 0 / s). field. lra.
  - cbn [fmap list_fmap] in *. rewrite !abs_sum_of_cons, IH. cbn [prod_map snd] in *.
    subst v. rewrite (f_div_num q s) by lra. cbn [number].
    rewrite (Qabs_div_pos _ _ Hs). field. lra.
Qed.

Lemma scaled_lookup (s : Q) (ws : weight_map) (k : string) (q : Q) :
  ~ s == 0 -> ws !! k = Some (Num q) ->
  ((fun v => f_div v (Num s)) <$> ws) !! k = Some (Num (q / s)).
Proof.
  intros Hs Hk. rewrite lookup_fmap, Hk. cbn [fmap option_fmap option_map].
  rewrite f_div_num by exact Hs. reflexivity.
Qed.

Lemma scaled_finite (s : Q) (ws : weight_map) :
  ~ s == 0 -> finite ws -> finite ((fun v => f_div v (Num s)) <$> ws).
Proof.
  intros Hs Hfin k v. rewrite lookup_fmap.
  destruct (ws !! k) as [u|] eqn:Hu; [|discriminate].
  cbn [fmap option_fmap option_map]. intros [= <-].
  destruct (Hfin k u Hu) as [q ->]. rewrite f_div_num by exact Hs. eauto.
Qed.

(** A mapping of numbers is divided by the sum of their absolute values,
    which then becomes 1, or it is left as it is. *)
Lemma renormalized_cases (bound : Q) (ws : weight_map) :
  0 <= bound -> finite ws ->
  let s := abs_sum_of (map_to_list ws) in
  abs_total ws = Num s
  /\ 0 <= s
  /\ ((bound < s
       /\ renormalized bound ws = (fun v => f_div v (Num s)) <$> ws
       /\ finite (renormalized bound ws)
       /\ abs_sum_of (map_to_list (renormalized bound ws)) == 1)
      \/ (s <= bound /\ renormalized bound ws = ws)).
Proof.
  intros Hbound Hfin s. pose proof (abs_total_finite ws Hfin) as Htotal. fold s in Htotal.
  split; [exact Htotal|]. split; [apply abs_sum_of_nonneg|].
  unfold renormalized. rewrite Htotal. cbn [f_ltb].
  destruct (Qltb bound s) eqn:Hlt.
  - apply Qltb_true in Hlt. left. split; [exact Hlt|]. split; [reflexivity|].
    split; [apply scaled_finite; [lra|exact Hfin]|].
    rewrite map_to_list_fmap, abs_sum_of_scale; [|lra|apply finite_items, Hfin].
    fold s. field. lra.
  - apply Qltb_false in Hlt. right. split; [exact Hlt|reflexivity].
Qed.

Lemma near_of_value (ws : weight_map) (c : Q) :
  finite ws -> abs_sum_of (map_to_list ws) == c -> near (abs_total ws) c.
Proof.
  intros Hfin Hsum. exists (abs_sum_of (map_to_list ws)).
  split; [apply abs_total_finite, Hfin|].
  apply Qabs_Qle_condition. split; lra.
Qed.

(** ** Portfolio construction *)

Lemma cleaned_lookup (stock_selector : option (list string)) (raw : weight_map)
    (k : string) :
  cleaned stock_selector raw !! k
  = (fun v => match v with
              | NaN => Num 0
              | _ =>
                  match stock_selector with
                  | Some selected_list => if decide (k ∈ selected_list) then v else Num 0
                  | None => v
                  end
              end) <$> raw !! k.
Proof.
  unfold cleaned. rewrite map_lookup_imap. destruct (raw !! k); reflexivity.
Qed.

Lemma cleaned_finite (stock_selector : option (list string)) (raw : weight_map) :
  no_infinity raw -> finite (cleaned stock_selector raw).
Proof.
  intros Hraw k v. rewrite cleaned_lookup.
  destruct (raw !! k) as [u|] eqn:Hu; [|discriminate]. simpl. intros [= <-].
  destruct (Hraw k) as [Hp Hn]. rewrite Hu in Hp, Hn.
  destruct u as [q| | |]; try congruence.
  - destruct stock_selector as [l|]; [destruct (decide (k ∈ l))|]; eauto.
  - eauto.
Qed.

Lemma portfolio_construction_run (self : AlphaStrategy.t) (raw : weight_map)
    (msg : string) :
  AlphaStrategy.func_table self !! AlphaStrategy.pc_method self = Some (Ok (Some raw, msg)) ->
  AlphaStrategy.portfolio_construction self
  = (Ok (), AlphaStrategy.set_weights
              (renormalized eps (cleaned (AlphaStrategy.stock_selector self) raw)) self).
Proof.
  intros Hfunc. unfold AlphaStrategy.portfolio_construction. rewrite Hfunc.
  assert (Hclean :
    match AlphaStrategy.stock_selector self with
    | Some selected_list =>
        map_imap (fun k v => Some (if str_in k selected_list then v else Num 0))
          ((fun v => if isnan v then Num 0 else v) <$> raw)
    | None => (fun v => if isnan v then Num 0 else v) <$> raw
    end = cleaned (AlphaStrategy.stock_selector self) raw).
  { apply map_eq. intros k. rewrite cleaned_lookup.
    destruct (AlphaStrategy.stock_selector self) as [selected_list|].
    - rewrite map_lookup_imap, lookup_fmap. destruct (raw !! k) as [v|]; [|reflexivity].
      simpl. destruct (decide (k ∈ selected_list)) as [Hin|Hnin].
      + rewrite (proj2 (str_in_true _ _) Hin). destruct v; reflexivity.
      + rewrite (proj2 (str_in_false _ _) Hnin). destruct v; reflexivity.
    - rewrite lookup_fmap. destruct (raw !! k) as [[q| | |]|]; reflexivity. }
  cbv zeta. rewrite Hclean, np_sum_abs_values. reflexivity.
Qed.


Lemma no_infinity_items (ws : weight_map) :
  Forall (fun kv => kv.2 ≠ PInf /\ kv.2 ≠ NInf) (map_to_list ws) -> no_infinity ws.
Proof.
  intros Hall k. destruct (ws !! k) as [v|] eqn:Hk; [|split; discriminate].
  apply elem_of_map_to_list in Hk.
  destruct (proj1 (Forall_forall _ _) Hall _ Hk) as [Hp Hn]. cbn [snd] in Hp, Hn.
  split; congruence.
Qed.

Lemma raw_example_no_infinity : no_infinity raw_example.
Proof.
  apply no_infinity_items. vm_compute.
  repeat constructor; intros H; discriminate H.
Qed.



(** ** Suspensions *)

Lemma float_in_false (w : pyfloat) (l : list string) : float_in w l = false.
Proof. induction l as [|s l IH]; [reflexivity | exact IH]. Qed.

Lemma re_weight_suspension_run (self : AlphaStrategy.t) (suspensions : list string)
    (ws : weight_map) :
  suspensions ≠ [] ->
  length suspensions ≠ length (AlphaStrategy.universe self) ->
  AlphaStrategy.weights self = Some ws ->
  AlphaStrategy.re_weight_suspension (Some suspensions) self
  = (Ok (), AlphaStrategy.set_weights (renormalized 0 ws) self).
Proof.
  intros Hne Hlen Hws. unfold AlphaStrategy.re_weight_suspension.
  destruct suspensions as [|s rest]; [congruence|].
  rewrite (bool_decide_eq_false_2 _ Hlen), Hws.
  assert (Hkeep : (fun w => if negb (float_in w (s :: rest)) then w else Num 0) <$> ws = ws).
  { apply map_eq. intros k. rewrite lookup_fmap.
    destruct (ws !! k) as [w|]; [|reflexivity]. simpl.
    rewrite float_in_false. reflexivity. }
  cbv zeta. rewrite Hkeep, np_sum_abs_values. reflexivity.
Qed.

(** C1 (what the code does).  With a non-empty suspension list that is not as
    long as the universe, [re_weight_suspension] stores the weights divided by
    their absolute sum when that sum exceeds 0 and unchanged otherwise; the
    suspension list plays no part: the comprehension tests the weight [w], not
    the symbol [sec], against the list, so no weight is set to 0. *)
Theorem re_weight_suspension_ignores_symbols (self : AlphaStrategy.t)
    (suspensions : list string) (ws : weight_map) :
  suspensions ≠ [] ->
  length suspensions ≠ length (AlphaStrategy.universe self) ->
  AlphaStrategy.weights self = Some ws ->
  AlphaStrategy.re_weight_suspension (Some suspensions) self
  = (Ok (), AlphaStrategy.set_weights (renormalized 0 ws) self).
Proof.
  intros Hne Hlen Hws. unfold AlphaStrategy.re_weight_suspension.
  destruct suspensions as [|s rest]; [congruence|].
  rewrite (bool_decide_eq_false_2 _ Hlen), Hws. cbv zeta.
  assert (Hkeep : (fun w => if negb (float_in w (s :: rest)) then w else Num 0) <$> ws = ws).
  { apply map_eq. intros k. rewrite lookup_fmap.
    destruct (ws !! k) as [w|]; [|reflexivity]. simpl.
    rewrite float_in_false. reflexivity. }
  rewrite Hkeep, np_sum_abs_values. unfold renormalized.
  destruct (f_ltb (Num 0) (abs_total ws)); reflexivity.
Qed.

(** Universe A and B with weights one half each, A suspended: after the call
    the weight of A is still one half. *)
Lemma re_weight_suspension_ignores_symbols_witness :
  exists self' ws w,
    AlphaStrategy.re_weight_suspension (Some ["A"%string]) example_alpha = (Ok (), self')
    /\ AlphaStrategy.weights self' = Some ws
    /\ ws !! "A"%string = Some (Num w)
    /\ w == 1 # 2
    /\ ~ w == 0.
Proof.
  pose proof (re_weight_suspension_ignores_symbols example_alpha ["A"%string]
                example_ws) as Hrun.
  exists (AlphaStrategy.set_weights (renormalized 0 example_ws) example_alpha),
    (renormalized 0 example_ws), ((1 # 2) / ((1 # 2) + ((1 # 2) + 0))).
  split; [apply Hrun; [discriminate | simpl; lia | reflexivity]|].
  split; [reflexivity|]. split; [vm_compute; reflexivity|].
  split; [vm_compute; reflexivity | vm_compute; discriminate].
Defined.

(** ** Monte-Carlo search *)

Section monte_carlo.
Variables (universe : list string) (rand : nat -> nat -> Q) (util_func : weight_map -> Q).

Local Abbreviation cand := (AlphaStrategy.candidate universe rand).
Local Abbreviation f := (mc_objective universe rand util_func).

(** The loop either keeps what it started with, when no experiment is below
    [min_f], or ends on an experiment that is below [min_f] and at most every
    other one. *)
Lemma optimize_mc_loop_spec (exps : list nat) :
  forall (min_f : Q) (min_weights : option weight_map),
    (AlphaStrategy.optimize_mc_loop universe rand util_func exps min_f min_weights
       = (min_f, min_weights)
     /\ forall j, j ∈ exps -> min_f <= f j)
    \/ (exists i, i ∈ exps
          /\ AlphaStrategy.optimize_mc_loop universe rand util_func exps min_f min_weights
             = (f i, Some (cand i))
          /\ f i < min_f
          /\ forall j, j ∈ exps -> f i <= f j).
Proof.
  induction exps as [|i rest IH]; intros min_f min_weights.
  - left. split; [reflexivity|]. intros j Hj. inversion Hj.
  - cbn [AlphaStrategy.optimize_mc_loop].
    change (- util_func (cand i)) with (f i).
    destruct (Qltb (f i) min_f) eqn:Hlt.
    + apply Qltb_true in Hlt. right.
      destruct (IH (f i) (Some (cand i))) as [[Hrun Hall]|(i' & Hin & Hrun & Hbelow & Hall)].
      * exists i. split; [apply elem_of_cons; left; reflexivity|].
        split; [exact Hrun|]. split; [exact Hlt|].
        intros j Hj. apply elem_of_cons in Hj. destruct Hj as [->|Hj]; [lra|].
        apply Hall. exact Hj.
      * exists i'. split; [apply elem_of_cons; right; exact Hin|].
        split; [exact Hrun|]. split; [lra|].
        intros j Hj. apply elem_of_cons in Hj. destruct Hj as [->|Hj]; [lra|].
        apply Hall. exact Hj.
    + apply Qltb_false in Hlt.
      destruct (IH min_f min_weights) as [[Hrun Hall]|(i' & Hin & Hrun & Hbelow & Hall)].
      * left. split; [exact Hrun|].
        intros j Hj. apply elem_of_cons in Hj. destruct Hj as [->|Hj]; [exact Hlt|].
        apply Hall. exact Hj.
      * right. exists i'. split; [apply elem_of_cons; right; exact Hin|].
        split; [exact Hrun|]. split; [exact Hbelow|].
        intros j Hj. apply elem_of_cons in Hj. destruct Hj as [->|Hj]; [lra|].
        apply Hall. exact Hj.
Qed.

End monte_carlo.

Lemma elem_of_experiments (i : nat) : i ∈ seq 0 AlphaStrategy.n_exp <-> (i < 5)%nat.
Proof. rewrite elem_of_seq. unfold AlphaStrategy.n_exp. lia. Qed.

(** When the search finds nothing, [min_f] is still the sentinel, which is
    what the message prints. *)
Lemma optimize_mc_loop_none (universe : list string) (rand : nat -> nat -> Q)
    (util_func : weight_map -> Q) (exps : list nat) (min_f min_f' : Q)
    (min_weights : option weight_map) :
  AlphaStrategy.optimize_mc_loop universe rand util_func exps min_f min_weights
    = (min_f', None) ->
  min_f' = min_f /\ min_weights = None.
Proof.
  destruct (optimize_mc_loop_spec universe rand util_func exps min_f min_weights)
    as [[-> _]|(i & _ & -> & _)].
  - intros [= -> ->]. split; reflexivity.
  - discriminate.
Qed.



(** * Further properties of the order bookkeeping *)

(** ** Identifiers *)

Lemma int64_eq_mod (a b : Z) : int64 a = int64 b -> ((a - b) mod 2 ^ 64 = 0)%Z.
Proof.
  unfold int64. intros H.
  assert (Hm : ((a + 2 ^ 63) mod 2 ^ 64 = (b + 2 ^ 63) mod 2 ^ 64)%Z) by lia.
  replace (a - b)%Z with ((a + 2 ^ 63) - (b + 2 ^ 63))%Z by lia.
  rewrite Zminus_mod, Hm, Z.sub_diag. reflexivity.
Qed.

Lemma int64_small (z : Z) : (- 2 ^ 63 <= z < 2 ^ 63)%Z -> int64 z = z.
Proof.
  intros Hz. unfold int64. rewrite Z.mod_small by lia. lia.
Qed.

Lemma elem_of_ids_from (d : Z) (n : nat) :
  forall (c : Z) (x : string),
    x ∈ ids_from d c n ->
    exists k, (1 <= k <= Z.of_nat n)%Z
      /\ x = pretty (int64 (int64 (d * 10000) + (c + k)))%Z.
Proof.
  induction n as [|n IH]; intros c x Hin.
  - inversion Hin.
  - cbn [ids_from] in Hin. apply elem_of_cons in Hin. destruct Hin as [->|Hin].
    + exists 1%Z. split; [lia|reflexivity].
    + apply IH in Hin. destruct Hin as (k & Hk & ->).
      exists (k + 1)%Z. split; [lia|]. do 3 f_equal. lia.
Qed.

Lemma length_ids_from (d c : Z) (n : nat) : length (ids_from d c n) = n.
Proof.
  revert c. induction n as [|n IH]; intros c; [reflexivity|].
  cbn [ids_from length]. rewrite IH. reflexivity.
Qed.

Lemma NoDup_ids_from (d : Z) (n : nat) :
  (Z.of_nat n < 2 ^ 64)%Z -> forall c, NoDup (ids_from d c n).
Proof.
  induction n as [|n IH]; intros Hn c; [constructor|].
  cbn [ids_from]. constructor; [|apply IH; lia].
  intros Hin. apply elem_of_ids_from in Hin. destruct Hin as (k & Hk & Heq).
  apply (inj pretty) in Heq. apply int64_eq_mod in Heq.
  replace (int64 (d * 10000) + (c + 1) - (int64 (d * 10000) + (c + 1 + k)))%Z
    with (- k)%Z in Heq by lia.
  apply Z.mod_divide in Heq; [|lia]. apply Z.divide_opp_r in Heq.
  apply Z.divide_pos_le in Heq; lia.
Qed.

Lemma mint_run (key : string) (n : nat) :
  forall self : Strategy.t,
    int64_fits (Strategy.trade_date self) = true ->
    exists self',
      mint key n self
        = (Ok (ids_from (Strategy.trade_date self)
                 (default 0%Z (Strategy.seq_gen self !! key)) n), self')
      /\ Strategy.seq_gen self' !! key
         = (if n is O then Strategy.seq_gen self !! key
            else Some (default 0 (Strategy.seq_gen self !! key) + Z.of_nat n)%Z)
      /\ (forall key', key' ≠ key ->
            Strategy.seq_gen self' !! key' = Strategy.seq_gen self !! key')
      /\ Strategy.task_id_map self' = Strategy.task_id_map self
      /\ Strategy.pm self' = Strategy.pm self
      /\ Strategy.ctx self' = Strategy.ctx self.
Proof.
  induction n as [|n IH]; intros self Hfit.
  - exists self. repeat split; reflexivity.
  - cbn [mint ids_from].
    rewrite (method_bind_ok _ _ _ _ _ (_get_next_num_fits key self Hfit)).
    destruct (IH (bump key self) Hfit) as (self' & Hrun & Hkey & Hother & Hmap & Hpm & Hctx).
    exists self'. rewrite (method_bind_ok _ _ _ _ _ Hrun).
    assert (Hc : default 0%Z (Strategy.seq_gen (bump key self) !! key)
                 = (default 0 (Strategy.seq_gen self !! key) + 1)%Z).
    { unfold bump. simpl. rewrite lookup_insert_eq. reflexivity. }
    rewrite Hc. split; [reflexivity|].
    split.
    { rewrite Hkey. destruct n as [|n].
      - unfold bump. simpl. rewrite lookup_insert_eq. f_equal; lia.
      - rewrite Hc. f_equal; lia. }
    split.
    { intros key' Hne. rewrite (Hother key' Hne). unfold bump. simpl.
      apply lookup_insert_ne. congruence. }
    split; [rewrite Hmap; reflexivity|]. split; [rewrite Hpm|rewrite Hctx]; reflexivity.
Qed.

Lemma ids_from_small (d : Z) (n : nat) :
  forall c : Z,
    (0 <= d)%Z -> (0 <= c)%Z -> (d * 10000 + c + Z.of_nat n < 2 ^ 63)%Z ->
    ids_from d c n
    = map (fun k : nat => pretty (d * 10000 + c + Z.of_nat k)%Z) (seq 1 n).
Proof.
  induction n as [|n IH]; intros c Hd Hc Hmax; [reflexivity|].
  cbn [ids_from seq map]. f_equal.
  - f_equal. rewrite (int64_small (d * 10000)), int64_small by lia. lia.
  - rewrite IH by lia. rewrite <- (seq_shift n 1), map_map. apply map_ext.
    intros k. f_equal. lia.
Qed.

(** X1.  Calling [_get_next_num] [n] times for one key, on a strategy whose
    counter for the key stands at [c], returns the decimal strings of
    [date * 10000 + c + 1], ..., [date * 10000 + c + n] in this order, as long
    as these numbers stay below 2^63; the counters of the other keys and the
    rest of the strategy are not touched. *)
Theorem _get_next_num_sequence (key : string) (n : nat) (self : Strategy.t) :
  let d := Strategy.trade_date self in
  let c := default 0%Z (Strategy.seq_gen self !! key) in
  (0 <= d)%Z -> (0 <= c)%Z -> (d * 10000 + c + Z.of_nat n < 2 ^ 63)%Z ->
  exists self',
    mint key n self
      = (Ok (map (fun k : nat => pretty (d * 10000 + c + Z.of_nat k)%Z) (seq 1 n)), self')
    /\ (forall key', key' ≠ key ->
          Strategy.seq_gen self' !! key' = Strategy.seq_gen self !! key')
    /\ Strategy.task_id_map self' = Strategy.task_id_map self
    /\ Strategy.pm self' = Strategy.pm self
    /\ Strategy.ctx self' = Strategy.ctx self.
Proof.
  intros d c Hd Hc Hmax.
  assert (Hfit : int64_fits d = true).
  { unfold int64_fits. apply andb_true_intro. split; [apply Z.leb_le|apply Z.ltb_lt]; lia. }
  destruct (mint_run key n self Hfit) as (self' & Hrun & _ & Hother & Hmap & Hpm & Hctx).
  exists self'. split; [|repeat split; assumption].
  rewrite Hrun. fold d. fold c. rewrite (ids_from_small d n c Hd Hc Hmax). reflexivity.
Qed.

Lemma _get_next_num_sequence_witness :
  exists self',
    mint "entrust_no" 3 (fresh_strategy accepting_gateway)
    = (Ok ["201711060001"; "201711060002"; "201711060003"]%string, self').
Proof.
  destruct (_get_next_num_sequence "entrust_no" 3 (fresh_strategy accepting_gateway))
    as (self' & Hrun & _);
    [vm_compute; discriminate | vm_compute; discriminate | vm_compute; reflexivity |].
  exists self'. exact Hrun.
Defined.

(** ** The books after a batch *)

Lemma same_frame_refl (self : Strategy.t) : same_frame self self.
Proof. repeat split. Qed.

Lemma same_frame_trans (s1 s2 s3 : Strategy.t) :
  same_frame s1 s2 -> same_frame s2 s3 -> same_frame s1 s3.
Proof.
  intros (H1 & H2 & H3 & H4 & H5 & H6) (K1 & K2 & K3 & K4 & K5 & K6).
  repeat split; congruence.
Qed.

Lemma place_batch_order_loop_books (task_id : string) (orders : list Order.t) :
  forall (err_msgs : list string) (self : Strategy.t),
    int64_fits (Strategy.trade_date self) = true ->
    exists (answers : list string) (self' : Strategy.t),
      let stamped := zip_with (stamp task_id) orders (batch_ids self (length orders)) in
      Strategy.place_batch_order_loop task_id orders err_msgs self
        = (Ok (err_msgs ++ answers), self')
      /\ length answers = length orders
      /\ Gateway.calls (Strategy.gateway self')
         = Gateway.calls (Strategy.gateway self) ++ map GwPlace stamped
      /\ PortfolioManager.orders (Strategy.pm self')
         = PortfolioManager.orders (Strategy.pm self) ++ stamped
      /\ default [] (Strategy.task_id_map self' !! task_id)
         = default [] (Strategy.task_id_map self !! task_id)
           ++ batch_ids self (length orders)
      /\ (forall t, t ≠ task_id ->
            Strategy.task_id_map self' !! t = Strategy.task_id_map self !! t)
      /\ (orders = [] -> self' = self)
      /\ (orders ≠ [] -> is_Some (Strategy.task_id_map self' !! task_id))
      /\ (forall key, key ≠ "entrust_no"%string ->
            Strategy.seq_gen self' !! key = Strategy.seq_gen self !! key)
      /\ same_frame self self'.
Proof.
  induction orders as [|order rest IH]; intros err_msgs self Hfit.
  - exists [], self. cbn zeta. simpl. rewrite !app_nil_r.
    repeat split; try reflexivity; try congruence.
  - cbn [Strategy.place_batch_order_loop].
    rewrite (method_bind_ok _ _ _ _ _ (_get_next_num_fits "entrust_no" self Hfit)).
    change (Order.set_entrust_no (next_id "entrust_no" self)
              (Order.set_task_id task_id order))
      with (stamp task_id order (next_id "entrust_no" self)).
    set (s := stamp task_id order (next_id "entrust_no" self)).
    erewrite method_bind_ok by reflexivity.
    erewrite method_bind_ok by reflexivity.
    erewrite method_bind_ok by reflexivity.
    match goal with
    | |- context [Strategy.place_batch_order_loop _ _ (_ ++ [?a]) ?st] =>
        set (ans := a); set (self1 := st)
    end.
    assert (Hids : batch_ids self (length (order :: rest))
                   = next_id "entrust_no" self :: batch_ids self1 (length rest)).
    { unfold batch_ids. cbn [length ids_from]. f_equal.
      subst self1. simpl. rewrite lookup_insert_eq. reflexivity. }
    destruct (IH (err_msgs ++ [ans]) self1 Hfit)
      as (answers & self' & Hrun & Hlen & Hcalls & Hpm & Hmap & Hother & _ & _
          & Hseq & Hframe).
    exists (ans :: answers), self'. cbn zeta. rewrite Hids. cbn [zip_with].
    fold s.
    split. { rewrite Hrun, <- app_assoc. reflexivity. }
    split. { simpl. rewrite Hlen. reflexivity. }
    split. { rewrite Hcalls. subst self1. simpl. rewrite <- app_assoc. reflexivity. }
    split. { rewrite Hpm. subst self1. simpl. rewrite <- app_assoc. reflexivity. }
    split. { rewrite Hmap. subst self1. simpl. rewrite lookup_insert_eq. simpl.
             rewrite <- app_assoc. reflexivity. }
    split. { intros t Hne. rewrite (Hother t Hne). subst self1. simpl.
             apply lookup_insert_ne. congruence. }
    split; [discriminate|].
    split. { intros _. destruct (Strategy.task_id_map self' !! task_id) eqn:Hl; [eauto|].
             exfalso. simpl in Hmap. subst self1. simpl in Hmap.
             rewrite lookup_insert_eq in Hmap. simpl in Hmap.
             destruct (default [] (Strategy.task_id_map self !! task_id)); discriminate. }
    split. { intros key Hne. rewrite (Hseq key Hne). subst self1. simpl.
             apply lookup_insert_ne. congruence. }
    apply (same_frame_trans _ self1); [|exact Hframe]. repeat split.
Qed.

Lemma batch_ids_bump_task_id (self : Strategy.t) (n : nat) :
  batch_ids (bump "task_id" self) n = batch_ids self n.
Proof.
  unfold batch_ids, bump. simpl. rewrite lookup_insert_ne by discriminate. reflexivity.
Qed.

(** X2.  [place_batch_order] on [N] orders (fewer than 2^64) returns the task
    id it minted and appends [N] entrust ids, pairwise distinct, to the list
    of that task in the task map, leaving the other tasks alone.  Every order
    of the batch is registered with the position tracker and sent to the
    gateway, in order and with both ids written into it, whatever the gateway
    answered to the orders before it. *)
Theorem place_batch_order_books (orders : list Order.t) (self : Strategy.t) :
  let task_id := next_id "task_id" self in
  let ids := batch_ids self (length orders) in
  let stamped := zip_with (stamp task_id) orders ids in
  int64_fits (Strategy.trade_date self) = true ->
  (Z.of_nat (length orders) < 2 ^ 64)%Z ->
  exists (err_msg : string) (self' : Strategy.t),
    Strategy.place_batch_order orders self = (Ok (task_id, err_msg), self')
    /\ length ids = length orders
    /\ NoDup ids
    /\ default [] (Strategy.task_id_map self' !! task_id)
       = default [] (Strategy.task_id_map self !! task_id) ++ ids
    /\ (forall t, t ≠ task_id ->
          Strategy.task_id_map self' !! t = Strategy.task_id_map self !! t)
    /\ PortfolioManager.orders (Strategy.pm self')
       = PortfolioManager.orders (Strategy.pm self) ++ stamped
    /\ Gateway.calls (Strategy.gateway self')
       = Gateway.calls (Strategy.gateway self) ++ map GwPlace stamped
    /\ same_frame self self'.
Proof.
  intros task_id ids stamped Hfit Hn. unfold Strategy.place_batch_order.
  rewrite (method_bind_ok _ _ _ _ _ (_get_next_num_fits "task_id" self Hfit)).
  destruct (place_batch_order_loop_books task_id orders [] (bump "task_id" self) Hfit)
    as (answers & self' & Hrun & _ & Hcalls & Hpm & Hmap & Hother & _ & _ & _ & Hframe).
  rewrite batch_ids_bump_task_id in Hcalls, Hpm, Hmap.
  exists (join "," answers), self'.
  split. { rewrite (method_bind_ok _ _ _ _ _ Hrun). reflexivity. }
  split; [apply length_ids_from|].
  split; [apply NoDup_ids_from; exact Hn|].
  split; [exact Hmap|]. split; [exact Hother|].
  split; [exact Hpm|]. split; [exact Hcalls|]. exact Hframe.
Qed.

Lemma place_batch_order_books_witness :
  exists err_msg self',
    Strategy.place_batch_order
      [Order.new_order "A" BUY 0 100 20171106 0; Order.new_order "B" SELL 0 100 20171106 0]
      (fresh_strategy rejecting_gateway)
    = (Ok ("201711060001"%string, err_msg), self')
    /\ Strategy.task_id_map self' !! "201711060001"%string
       = Some ["201711060001"; "201711060002"]%string
    /\ length (Gateway.calls (Strategy.gateway self')) = 2%nat.
Proof.
  destruct (place_batch_order_books
              [Order.new_order "A" BUY 0 100 20171106 0;
               Order.new_order "B" SELL 0 100 20171106 0]
              (fresh_strategy rejecting_gateway))
    as (err_msg & self' & Hrun & _ & _ & Hmap & _ & _ & Hcalls & _).
  - reflexivity.
  - vm_compute. reflexivity.
  - exists err_msg, self'. split; [exact Hrun|].
    split; [|rewrite Hcalls; reflexivity].
    change (next_id "task_id" (fresh_strategy rejecting_gateway))
      with "201711060001"%string in Hmap.
    destruct (Strategy.task_id_map self' !! "201711060001"%string) as [l|] eqn:Hl.
    + change (default [] (Some l)) with l in Hmap. rewrite Hmap. vm_compute. reflexivity.
    + vm_compute in Hmap. discriminate.
Defined.

(** ** Cancelling *)

Lemma join_truthy (l : list string) : existsb truthy l = true -> join "," l ≠ ""%string.
Proof.
  destruct l as [|x [|y l]]; simpl.
  - discriminate.
  - rewrite orb_false_r. apply truthy_true.
  - intros _. destruct x; discriminate.
Qed.

Lemma existsb_truthy_false (l : list string) :
  existsb truthy l = false <-> Forall (fun a => a = ""%string) l.
Proof.
  induction l as [|x l IH]; simpl.
  - split; [constructor|reflexivity].
  - rewrite orb_false_iff, IH, truthy_false. split.
    + intros [-> Hl]. constructor; [reflexivity|exact Hl].
    + intros H. inversion H; subst. split; [reflexivity|assumption].
Qed.

Lemma cancel_order_loop_run (entrust_no_list : list string) :
  forall (err_msgs : list string) (self : Strategy.t),
    exists (answers : list string) (self' : Strategy.t),
      Strategy.cancel_order_loop entrust_no_list err_msgs self
        = (Ok (err_msgs ++ answers), self')
      /\ Forall2 (fun a e => exists h,
                    a = Gateway.on_cancel_order (Strategy.gateway self) h e)
           answers entrust_no_list
      /\ Gateway.calls (Strategy.gateway self')
         = Gateway.calls (Strategy.gateway self) ++ map GwCancel entrust_no_list
      /\ Strategy.task_id_map self' = Strategy.task_id_map self
      /\ Strategy.pm self' = Strategy.pm self
      /\ Strategy.seq_gen self' = Strategy.seq_gen self
      /\ same_frame self self'.
Proof.
  induction entrust_no_list as [|entrust_no rest IH]; intros err_msgs self.
  - exists [], self. simpl. rewrite !app_nil_r.
    repeat split; try reflexivity. constructor.
  - cbn [Strategy.cancel_order_loop].
    erewrite method_bind_ok by reflexivity.
    match goal with
    | |- context [Strategy.cancel_order_loop _ (_ ++ [?a]) ?st] =>
        set (ans := a); set (self1 := st)
    end.
    destruct (IH (err_msgs ++ [ans]) self1)
      as (answers & self' & Hrun & Hans & Hcalls & Hmap & Hpm & Hseq & Hframe).
    exists (ans :: answers), self'.
    split. { rewrite Hrun, <- app_assoc. reflexivity. }
    split. { constructor; [eexists; reflexivity|exact Hans]. }
    split. { rewrite Hcalls. subst self1. simpl. rewrite <- app_assoc. reflexivity. }
    split; [rewrite Hmap; reflexivity|].
    split; [rewrite Hpm; reflexivity|].
    split; [rewrite Hseq; reflexivity|].
    apply (same_frame_trans _ self1); [|exact Hframe]. repeat split.
Qed.

Lemma cancel_order_calls (self : Strategy.t) (task_id : string)
    (entrust_no_list : list string) :
  Strategy.task_id_map self !! task_id = Some entrust_no_list ->
  exists (ok : bool) (err_msg : string) (self' : Strategy.t),
    Strategy.cancel_order task_id self = (Ok (ok, err_msg), self')
    /\ Gateway.calls (Strategy.gateway self')
       = Gateway.calls (Strategy.gateway self) ++ map GwCancel entrust_no_list.
Proof.
  intros Hreg. unfold Strategy.cancel_order.
  rewrite (method_bind_ok _ _ self self (Some entrust_no_list))
    by (unfold gets; rewrite Hreg; reflexivity).
  destruct (cancel_order_loop_run entrust_no_list [] self)
    as (answers & self' & Hrun & _ & Hcalls & _).
  rewrite (method_bind_ok _ _ _ _ _ Hrun).
  destruct (existsb truthy ([] ++ answers)); eexists _, _, self'; split;
    first [reflexivity | exact Hcalls].
Qed.

(** X3.  [cancel_order] on a registered task sends one cancel to the gateway
    for each entrust id of the task, in the order of the list, and writes
    nothing else: the task map keeps every id (whatever the outcome), the
    tracker and the counters are untouched.  It answers [True] exactly when
    every gateway answer was empty, and its error string is empty exactly
    then; on failure the string is the gateway answers joined by commas. *)
Theorem cancel_order_registered (self : Strategy.t) (task_id : string)
    (entrust_no_list : list string) :
  Strategy.task_id_map self !! task_id = Some entrust_no_list ->
  exists (ok : bool) (err_msg : string) (answers : list string) (self' : Strategy.t),
    Strategy.cancel_order task_id self = (Ok (ok, err_msg), self')
    /\ Forall2 (fun a e => exists h,
                  a = Gateway.on_cancel_order (Strategy.gateway self) h e)
         answers entrust_no_list
    /\ (ok = true <-> Forall (fun a => a = ""%string) answers)
    /\ (ok = true <-> err_msg = ""%string)
    /\ (ok = false -> err_msg = join "," answers)
    /\ Gateway.calls (Strategy.gateway self')
       = Gateway.calls (Strategy.gateway self) ++ map GwCancel entrust_no_list
    /\ Strategy.task_id_map self' = Strategy.task_id_map self
    /\ Strategy.pm self' = Strategy.pm self
    /\ Strategy.seq_gen self' = Strategy.seq_gen self.
Proof.
  intros Hreg. unfold Strategy.cancel_order.
  rewrite (method_bind_ok _ _ self self (Some entrust_no_list))
    by (unfold gets; rewrite Hreg; reflexivity).
  destruct (cancel_order_loop_run entrust_no_list [] self)
    as (answers & self' & Hrun & Hans & Hcalls & Hmap & Hpm & Hseq & _).
  rewrite (method_bind_ok _ _ _ _ _ Hrun). rewrite app_nil_l.
  destruct (existsb truthy answers) eqn:Hany.
  - exists false, (join "," answers), answers, self'.
    split; [reflexivity|]. split; [exact Hans|].
    split. { split; [discriminate|]. intros Hall.
             apply existsb_truthy_false in Hall. congruence. }
    split. { split; [discriminate|]. intros Hempty.
             exfalso. exact (join_truthy answers Hany Hempty). }
    split; [reflexivity|]. repeat split; assumption.
  - exists true, ""%string, answers, self'.
    split; [reflexivity|]. split; [exact Hans|].
    split. { split; [intros _; apply existsb_truthy_false; exact Hany|reflexivity]. }
    split; [split; reflexivity|].
    split; [discriminate|]. repeat split; assumption.
Qed.

Lemma cancel_order_registered_witness :
  exists self',
    Strategy.cancel_order "T" booked_strategy = (Ok (false, ",too late"%string), self')
    /\ Gateway.calls (Strategy.gateway self') = [GwCancel "e1"; GwCancel "e2"]
    /\ Strategy.task_id_map self' !! "T"%string = Some ["e1"; "e2"]%string.
Proof.
  destruct (cancel_order_registered booked_strategy "T" ["e1"; "e2"]%string)
    as (ok & err_msg & answers & self' & Hrun & _ & _ & _ & _ & Hcalls & Hmap & _).
  - reflexivity.
  - exists self'. split; [|split; [exact Hcalls | rewrite Hmap; reflexivity]].
    rewrite Hrun. f_equal.
    assert (Hres : (Strategy.cancel_order "T" booked_strategy).1 = Ok (ok, err_msg))
      by (rewrite Hrun; reflexivity).
    vm_compute in Hres. injection Hres as <- <-. reflexivity.
Defined.

(** ** Single orders *)

Lemma cancel_unknown_run (self : Strategy.t) (task_id : string) :
  Strategy.task_id_map self !! task_id = None ->
  Strategy.cancel_order task_id self = (Ok (false, "No task id " +:+ task_id), self).
Proof.
  intros Hnone. unfold Strategy.cancel_order.
  rewrite (method_bind_ok _ _ self self None) by (unfold gets; rewrite Hnone; reflexivity).
  reflexivity.
Qed.

Lemma place_order_run (self : Strategy.t) (symbol : string) (action : ORDER_ACTION)
    (price : Q) (size : Z) :
  let order := placed_order symbol action price size self in
  let gw := Strategy.gateway self in
  let err_msg := Gateway.on_place_order gw (Gateway.calls gw) order in
  int64_fits (Strategy.trade_date self) = true ->
  exists self',
    Strategy.place_order symbol action price size "" self
      = (Ok (if truthy err_msg then "0"%string else Order.task_id order, err_msg), self')
    /\ Strategy.task_id_map self'
       = <[Order.task_id order :=
             default [] (Strategy.task_id_map self !! Order.task_id order)
             ++ [Order.entrust_no order]]> (Strategy.task_id_map self)
    /\ PortfolioManager.orders (Strategy.pm self')
       = PortfolioManager.orders (Strategy.pm self) ++ [order]
    /\ Gateway.calls (Strategy.gateway self') = Gateway.calls gw ++ [GwPlace order]
    /\ same_frame self self'.
Proof.
  intros order gw err_msg Hfit.
  unfold Strategy.place_order. change (truthy "") with false. cbv iota.
  rewrite (method_bind_ok _ _ self self (Strategy.trade_date self)) by reflexivity.
  rewrite (method_bind_ok _ _ _ _ _ (_get_next_num_fits "task_id" self Hfit)).
  rewrite (method_bind_ok _ _ _ _ _
             (_get_next_num_fits "entrust_no" (bump "task_id" self) Hfit)).
  change (Order.set_entrust_no _ _) with order.
  erewrite method_bind_ok by reflexivity.
  erewrite method_bind_ok by reflexivity.
  erewrite method_bind_ok by reflexivity.
  cbv beta. change (Gateway.on_place_order _ _ _) with err_msg.
  eexists. split; [destruct (truthy err_msg); reflexivity|].
  repeat split.
Qed.

(** X4.  A single order the gateway accepts: [place_order] returns the task
    id it minted with an empty error, and that id can be cancelled.
    [cancel_order] on it sends the gateway a cancel for the entrust id of the
    order (after those the task already had), so that the gateway has seen
    the order and then its cancel. *)
Theorem place_order_then_cancel (self : Strategy.t) (symbol : string)
    (action : ORDER_ACTION) (price : Q) (size : Z) :
  let order := placed_order symbol action price size self in
  let gw := Strategy.gateway self in
  int64_fits (Strategy.trade_date self) = true ->
  Gateway.on_place_order gw (Gateway.calls gw) order = ""%string ->
  exists self' ok err_msg self'',
    Strategy.place_order symbol action price size "" self
      = (Ok (Order.task_id order, ""%string), self')
    /\ Strategy.cancel_order (Order.task_id order) self' = (Ok (ok, err_msg), self'')
    /\ Gateway.calls (Strategy.gateway self'')
       = Gateway.calls gw ++ [GwPlace order]
         ++ map GwCancel (default [] (Strategy.task_id_map self !! Order.task_id order)
                          ++ [Order.entrust_no order]).
Proof.
  intros order gw Hfit Hacc.
  destruct (place_order_run self symbol action price size Hfit)
    as (self' & Hrun & Hmap & _ & Hcalls & _).
  fold order in Hrun, Hmap, Hcalls. fold gw in Hrun, Hcalls.
  rewrite Hacc in Hrun. change (truthy "") with false in Hrun. cbv iota in Hrun.
  assert (Hreg : Strategy.task_id_map self' !! Order.task_id order
                 = Some (default [] (Strategy.task_id_map self !! Order.task_id order)
                         ++ [Order.entrust_no order])).
  { rewrite Hmap. apply lookup_insert_eq. }
  destruct (cancel_order_calls self' _ _ Hreg)
    as (ok & err_msg & self'' & Hcancel & Hcalls').
  exists self', ok, err_msg, self''.
  split; [exact Hrun|]. split; [exact Hcancel|].
  rewrite Hcalls', Hcalls, <- app_assoc. reflexivity.
Qed.

Lemma place_order_then_cancel_witness :
  exists self' ok err_msg self'',
    Strategy.place_order "A" BUY 10 100 "" (fresh_strategy accepting_gateway)
      = (Ok ("201711060001"%string, ""%string), self')
    /\ Strategy.cancel_order "201711060001" self' = (Ok (ok, err_msg), self'')
    /\ Gateway.calls (Strategy.gateway self'')
       = [GwPlace (Order.mk "A" BUY 10 100 20171106 0 "201711060001" "201711060001" None);
          GwCancel "201711060001"].
Proof.
  destruct (place_order_then_cancel (fresh_strategy accepting_gateway) "A" BUY 10 100)
    as (self' & ok & err_msg & self'' & Hrun & Hcancel & Hcalls).
  - reflexivity.
  - reflexivity.
  - exists self', ok, err_msg, self''. split; [exact Hrun|].
    split; [exact Hcancel|exact Hcalls].
Defined.

(** X5.  A single order the gateway rejects cannot be cancelled through what
    [place_order] returned: provided no task is called ['0'] (and the minted
    id is not ['0']), [cancel_order('0')] afterwards answers "No task id 0"
    without calling the gateway, although the order is registered with the
    tracker and its entrust id sits in the task map under the minted id. *)
Theorem place_order_rejected_not_cancellable (self : Strategy.t) (symbol : string)
    (action : ORDER_ACTION) (price : Q) (size : Z) :
  let order := placed_order symbol action price size self in
  let gw := Strategy.gateway self in
  let err_msg := Gateway.on_place_order gw (Gateway.calls gw) order in
  int64_fits (Strategy.trade_date self) = true ->
  err_msg ≠ ""%string ->
  Strategy.task_id_map self !! "0"%string = None ->
  Order.task_id order ≠ "0"%string ->
  exists self',
    Strategy.place_order symbol action price size "" self = (Ok ("0"%string, err_msg), self')
    /\ Strategy.cancel_order "0" self' = (Ok (false, "No task id 0"%string), self')
    /\ order ∈ PortfolioManager.orders (Strategy.pm self')
    /\ Order.entrust_no order
       ∈ default [] (Strategy.task_id_map self' !! Order.task_id order).
Proof.
  intros order gw err_msg Hfit Herr Hzero Hne.
  destruct (place_order_run self symbol action price size Hfit)
    as (self' & Hrun & Hmap & Hpm & _ & _).
  fold order in Hrun, Hmap, Hpm. fold gw in Hrun. fold err_msg in Hrun.
  rewrite (proj2 (truthy_true err_msg) Herr) in Hrun.
  exists self'. split; [exact Hrun|].
  split.
  { apply (cancel_unknown_run self' "0").
    rewrite Hmap, lookup_insert_ne by exact Hne. exact Hzero. }
  split.
  { rewrite Hpm. apply elem_of_app. right. apply list_elem_of_singleton. reflexivity. }
  rewrite Hmap, lookup_insert_eq. simpl.
  apply elem_of_app. right. apply list_elem_of_singleton. reflexivity.
Qed.

Lemma place_order_rejected_not_cancellable_witness :
  exists self',
    Strategy.place_order "A" BUY 10 100 "" (fresh_strategy rejecting_gateway)
      = (Ok ("0"%string, "rejected"%string), self')
    /\ Strategy.cancel_order "0" self' = (Ok (false, "No task id 0"%string), self').
Proof.
  destruct (place_order_rejected_not_cancellable (fresh_strategy rejecting_gateway)
              "A" BUY 10 100) as (self' & Hrun & Hcancel & _).
  - reflexivity.
  - discriminate.
  - reflexivity.
  - vm_compute. discriminate.
  - exists self'. split; [exact Hrun|exact Hcancel].
Defined.

(** X6.  Submitting a batch and cancelling it.  When the task id of the batch
    is new to the task map, [cancel_order] on the id [place_batch_order]
    returned sends the gateway one cancel per order of the batch, for the
    entrust ids of the batch in submission order.  For an empty batch the
    returned id was never registered: cancelling it answers "No task id ..."
    and the gateway is not called at all. *)
Theorem place_batch_order_then_cancel (orders : list Order.t) (self : Strategy.t) :
  let task_id := next_id "task_id" self in
  let ids := batch_ids self (length orders) in
  int64_fits (Strategy.trade_date self) = true ->
  Strategy.task_id_map self !! task_id = None ->
  exists err_msg self' ok err_msg' self'',
    Strategy.place_batch_order orders self = (Ok (task_id, err_msg), self')
    /\ Strategy.cancel_order task_id self' = (Ok (ok, err_msg'), self'')
    /\ Gateway.calls (Strategy.gateway self'')
       = Gateway.calls (Strategy.gateway self)
         ++ map GwPlace (zip_with (stamp task_id) orders ids) ++ map GwCancel ids
    /\ (orders = [] ->
        ok = false /\ err_msg' = ("No task id " +:+ task_id)%string
        /\ Gateway.calls (Strategy.gateway self'') = Gateway.calls (Strategy.gateway self)).
Proof.
  intros task_id ids Hfit Hnew. unfold Strategy.place_batch_order.
  rewrite (method_bind_ok _ _ _ _ _ (_get_next_num_fits "task_id" self Hfit)).
  destruct (place_batch_order_loop_books task_id orders [] (bump "task_id" self) Hfit)
    as (answers & self' & Hrun & _ & Hcalls & _ & Hmap & _ & Hnil & Hcons & _ & _).
  rewrite batch_ids_bump_task_id in Hcalls, Hmap. fold ids in Hcalls, Hmap.
  rewrite (method_bind_ok _ _ _ _ _ Hrun).
  change (Strategy.task_id_map (bump "task_id" self)) with (Strategy.task_id_map self)
    in Hmap.
  change (Gateway.calls (Strategy.gateway (bump "task_id" self)))
    with (Gateway.calls (Strategy.gateway self)) in Hcalls.
  rewrite Hnew in Hmap. simpl in Hmap.
  destruct orders as [|o rest].
  - specialize (Hnil eq_refl). subst self'.
    exists (join "," answers), (bump "task_id" self), false,
      ("No task id " +:+ task_id)%string, (bump "task_id" self).
    split; [reflexivity|].
    split; [apply cancel_unknown_run; exact Hnew|].
    split; [simpl; rewrite app_nil_r; reflexivity|].
    intros _. repeat split.
  - destruct (Hcons ltac:(discriminate)) as [l Hl]. rewrite Hl in Hmap. simpl in Hmap.
    subst l.
    destruct (cancel_order_calls self' task_id ids Hl)
      as (ok & err_msg' & self'' & Hcancel & Hcalls').
    exists (join "," answers), self', ok, err_msg', self''.
    split; [reflexivity|]. split; [exact Hcancel|].
    split; [rewrite Hcalls', Hcalls, <- app_assoc; reflexivity|].
    discriminate.
Qed.

Lemma place_batch_order_then_cancel_witness :
  exists err_msg self' ok err_msg' self'',
    Strategy.place_batch_order
      [Order.new_order "A" BUY 0 100 20171106 0; Order.new_order "B" SELL 0 100 20171106 0]
      (fresh_strategy accepting_gateway)
    = (Ok ("201711060001"%string, err_msg), self')
    /\ Strategy.cancel_order "201711060001" self' = (Ok (ok, err_msg'), self'')
    /\ length (Gateway.calls (Strategy.gateway self'')) = 4%nat.
Proof.
  destruct (place_batch_order_then_cancel
              [Order.new_order "A" BUY 0 100 20171106 0;
               Order.new_order "B" SELL 0 100 20171106 0]
              (fresh_strategy accepting_gateway))
    as (err_msg & self' & ok & err_msg' & self'' & Hrun & Hcancel & Hcalls & _).
  - reflexivity.
  - reflexivity.
  - exists err_msg, self', ok, err_msg', self''.
    split; [exact Hrun|]. split; [exact Hcancel|]. rewrite Hcalls. reflexivity.
Defined.

(** ** The task map never forgets *)

Lemma task_map_grows_refl (m : gmap string (list string)) : task_map_grows m m.
Proof. intros task_id. exists []. rewrite app_nil_r. reflexivity. Qed.

Lemma task_map_grows_trans (m1 m2 m3 : gmap string (list string)) :
  task_map_grows m1 m2 -> task_map_grows m2 m3 -> task_map_grows m1 m3.
Proof.
  intros H12 H23 task_id. destruct (H12 task_id) as [k1 Hk1].
  destruct (H23 task_id) as [k2 Hk2]. exists (k1 ++ k2).
  rewrite Hk2, Hk1, <- app_assoc. reflexivity.
Qed.

Lemma keeps_tasks_same {A : Type} (m : method Strategy.t A) :
  (forall self, Strategy.task_id_map (m self).2 = Strategy.task_id_map self) ->
  keeps_tasks m.
Proof. intros Hsame self. rewrite Hsame. apply task_map_grows_refl. Qed.

Lemma keeps_tasks_bind {A B : Type} (m : method Strategy.t A)
    (f : A -> method Strategy.t B) :
  keeps_tasks m -> (forall a, keeps_tasks (f a)) -> keeps_tasks (m ≫= f).
Proof.
  intros Hm Hf self. rewrite method_bind_run.
  specialize (Hm self). destruct (m self) as [[a|e] self1]; simpl in Hm.
  - apply (task_map_grows_trans _ _ _ Hm). apply Hf.
  - exact Hm.
Qed.

Lemma keeps_tasks_ret {A : Type} (a : A) : keeps_tasks (mret a).
Proof. apply keeps_tasks_same. reflexivity. Qed.

Lemma keeps_tasks_get_next_num (key : string) : keeps_tasks (Strategy._get_next_num key).
Proof.
  apply keeps_tasks_same. intros self. unfold Strategy._get_next_num.
  rewrite method_bind_run. simpl.
  destruct (int64_fits (Strategy.trade_date self)); reflexivity.
Qed.

Lemma keeps_tasks_append (task_id entrust_no : string) :
  keeps_tasks (Strategy.task_id_map_append task_id entrust_no).
Proof.
  intros self t. simpl. destruct (decide (task_id = t)) as [->|Hne].
  - rewrite lookup_insert_eq. simpl. exists [entrust_no]. reflexivity.
  - rewrite lookup_insert_ne by exact Hne. exists []. rewrite app_nil_r. reflexivity.
Qed.

Lemma keeps_tasks_cancel_loop (l : list string) :
  forall err_msgs, keeps_tasks (Strategy.cancel_order_loop l err_msgs).
Proof.
  induction l as [|e l IH]; intros err_msgs.
  - apply keeps_tasks_ret.
  - cbn [Strategy.cancel_order_loop]. apply keeps_tasks_bind.
    + apply keeps_tasks_same. reflexivity.
    + intros a. apply IH.
Qed.

Lemma keeps_tasks_batch_loop (task_id : string) (orders : list Order.t) :
  forall err_msgs, keeps_tasks (Strategy.place_batch_order_loop task_id orders err_msgs).
Proof.
  induction orders as [|o orders IH]; intros err_msgs.
  - apply keeps_tasks_ret.
  - cbn [Strategy.place_batch_order_loop].
    apply keeps_tasks_bind; [apply keeps_tasks_get_next_num|]. intros entrust_no.
    apply keeps_tasks_bind; [apply keeps_tasks_same; reflexivity|]. intros _.
    apply keeps_tasks_bind; [apply keeps_tasks_same; reflexivity|]. intros err_msg.
    apply keeps_tasks_bind; [apply keeps_tasks_append|]. intros _. apply IH.
Qed.

Lemma keeps_tasks_place_batch_order (orders : list Order.t) :
  keeps_tasks (Strategy.place_batch_order orders).
Proof.
  unfold Strategy.place_batch_order.
  apply keeps_tasks_bind; [apply keeps_tasks_get_next_num|]. intros task_id.
  apply keeps_tasks_bind; [apply keeps_tasks_batch_loop|]. intros err_msgs.
  apply keeps_tasks_ret.
Qed.

Lemma goal_portfolio_loop_state (goals : list GoalPosition.t) :
  forall orders self, (Strategy.goal_portfolio_loop goals orders self).2 = self.
Proof.
  induction goals as [|goal goals IH]; intros orders self; [reflexivity|].
  cbn [Strategy.goal_portfolio_loop].
  destruct (Strategy.goal_order self goal) as [[order|]|e]; [apply IH|apply IH|reflexivity].
Qed.

(** X7.  No operation on orders ever drops an entrust id: after
    [place_order], [cancel_order], [place_batch_order] or [goal_portfolio],
    whatever they were given and whether they returned or raised, the list
    of every task in the task map starts with the list it had before. *)
Theorem task_map_never_forgets :
  (forall symbol action price size algo,
     keeps_tasks (Strategy.place_order symbol action price size algo))
  /\ (forall task_id, keeps_tasks (Strategy.cancel_order task_id))
  /\ (forall orders, keeps_tasks (Strategy.place_batch_order orders))
  /\ (forall goals, keeps_tasks (Strategy.goal_portfolio goals)).
Proof.
  split; [|split; [|split]].
  - intros symbol action price size algo. unfold Strategy.place_order.
    destruct (truthy algo); [apply keeps_tasks_same; reflexivity|].
    apply keeps_tasks_bind; [apply keeps_tasks_same; reflexivity|]. intros d.
    apply keeps_tasks_bind; [apply keeps_tasks_get_next_num|]. intros task_id.
    apply keeps_tasks_bind; [apply keeps_tasks_get_next_num|]. intros entrust_no.
    apply keeps_tasks_bind; [apply keeps_tasks_append|]. intros _.
    apply keeps_tasks_bind; [apply keeps_tasks_same; reflexivity|]. intros _.
    apply keeps_tasks_bind; [apply keeps_tasks_same; reflexivity|]. intros err_msg.
    destruct (truthy err_msg); apply keeps_tasks_ret.
  - intros task_id. unfold Strategy.cancel_order.
    apply keeps_tasks_bind; [apply keeps_tasks_same; reflexivity|].
    intros [l|]; [|apply keeps_tasks_ret].
    apply keeps_tasks_bind; [apply keeps_tasks_cancel_loop|]. intros err_msgs.
    destruct (existsb truthy err_msgs); apply keeps_tasks_ret.
  - apply keeps_tasks_place_batch_order.
  - intros goals. unfold Strategy.goal_portfolio.
    apply keeps_tasks_bind; [apply keeps_tasks_same; reflexivity|]. intros n.
    destruct (bool_decide (length goals = n)); [|apply keeps_tasks_same; reflexivity].
    apply keeps_tasks_bind.
    { apply keeps_tasks_same. intros self. rewrite goal_portfolio_loop_state. reflexivity. }
    intros orders.
    apply keeps_tasks_bind; [apply keeps_tasks_place_batch_order|]. intros _.
    apply keeps_tasks_ret.
Qed.

(** ** Orders towards goals *)

Lemma goal_order_reaches (self : Strategy.t) (goal : GoalPosition.t) (o : Order.t) :
  diff_order self goal = Some o -> reaches self goal o.
Proof.
  unfold diff_order, reaches, signed_size.
  destruct (decide _) as [Hz|Hnz]; [discriminate|]. intros [= <-]. simpl.
  split; [reflexivity|]. destruct (decide (0 < _)%Z); simpl; lia.
Qed.

Lemma stamped_with_reaches (self : Strategy.t) (goal : GoalPosition.t)
    (task_id : string) (o s : Order.t) :
  stamped_with task_id o s -> reaches self goal o -> reaches self goal s.
Proof. intros [e ->] Hreach. exact Hreach. Qed.

(** X8.  What [goal_portfolio] sends, in numbers.  With a goal list as long as
    the universe, every order that reaches the gateway has a positive size
    and, for some goal of the list, is for the symbol of that goal and takes
    its holding exactly to the goal: held size plus bought size (or minus
    sold size) is the goal size.  Conversely a goal gets such an order as
    soon as its size differs from the held size. *)
Theorem goal_portfolio_reaches_goals (self : Strategy.t) (goals : list GoalPosition.t) :
  length goals = length (Strategy.universe self) ->
  int64_fits (Strategy.trade_date self) = true ->
  holdings_tracked self ->
  exists (placed : list Order.t) (self' : Strategy.t),
    Strategy.goal_portfolio goals self = (Ok (), self')
    /\ Gateway.calls (Strategy.gateway self')
       = Gateway.calls (Strategy.gateway self) ++ map GwPlace placed
    /\ Forall (fun o => exists goal, goal ∈ goals /\ reaches self goal o) placed
    /\ (forall goal, goal ∈ goals ->
          GoalPosition.size goal ≠ held_size self (GoalPosition.symbol goal) ->
          exists o, o ∈ placed /\ reaches self goal o).
Proof.
  intros Hlen Hfit Htracked. unfold Strategy.goal_portfolio.
  rewrite (method_bind_ok _ _ self self (length (Strategy.universe self))) by reflexivity.
  rewrite (bool_decide_eq_true_2 _ Hlen).
  rewrite (method_bind_ok _ _ _ _ _ (goal_portfolio_loop_run self goals Htracked [])).
  rewrite app_nil_l.
  destruct (place_batch_order_run (diff_orders self goals) self Hfit)
    as (answers & placed & self' & Hrun & Hst & _ & Hcalls & _).
  exists placed, self'.
  split. { rewrite (method_bind_ok _ _ _ _ _ Hrun). reflexivity. }
  split; [exact Hcalls|].
  split.
  - apply Forall_forall. intros s Hs.
    apply list_elem_of_lookup in Hs. destruct Hs as [i Hi].
    destruct (Forall2_lookup_r _ _ _ _ _ Hst Hi) as (o & Ho & Hstamp).
    assert (Hin : o ∈ diff_orders self goals) by (apply list_elem_of_lookup; eauto).
    unfold diff_orders in Hin. apply list_elem_of_omap in Hin.
    destruct Hin as (goal & Hgoal & Hdiff).
    exists goal. split; [exact Hgoal|].
    apply (stamped_with_reaches _ _ _ _ _ Hstamp). apply goal_order_reaches. exact Hdiff.
  - intros goal Hgoal Hne.
    destruct (diff_order self goal) as [o|] eqn:Hdiff.
    + assert (Hin : o ∈ diff_orders self goals).
      { unfold diff_orders. apply list_elem_of_omap. eauto. }
      apply list_elem_of_lookup in Hin. destruct Hin as [i Hi].
      destruct (Forall2_lookup_l _ _ _ _ _ Hst Hi) as (s & Hs & Hstamp).
      exists s. split; [apply list_elem_of_lookup; eauto|].
      apply (stamped_with_reaches _ _ _ _ _ Hstamp). apply goal_order_reaches. exact Hdiff.
    + exfalso. unfold diff_order in Hdiff.
      destruct (decide _) as [Hz|Hnz] in Hdiff; [lia|discriminate].
Qed.

Lemma goal_portfolio_reaches_goals_witness :
  exists placed self',
    Strategy.goal_portfolio [GoalPosition.mk "A" 100; GoalPosition.mk "B" 0]
      holding_strategy = (Ok (), self')
    /\ Gateway.calls (Strategy.gateway self') = map GwPlace placed
    /\ Forall (fun o => (0 < Order.entrust_size o)%Z) placed.
Proof.
  destruct (goal_portfolio_reaches_goals holding_strategy
              [GoalPosition.mk "A" 100; GoalPosition.mk "B" 0])
    as (placed & self' & Hrun & Hcalls & Hreach & _).
  - reflexivity.
  - reflexivity.
  - exact holding_strategy_tracked.
  - exists placed, self'. split; [exact Hrun|]. split; [exact Hcalls|].
    apply (Forall_impl _ _ _ Hreach). intros o (goal & _ & _ & Hpos & _). exact Hpos.
Defined.

Lemma place_batch_order_nil (self : Strategy.t) :
  int64_fits (Strategy.trade_date self) = true ->
  Strategy.place_batch_order [] self
  = (Ok (next_id "task_id" self, ""%string), bump "task_id" self).
Proof.
  intros Hfit. unfold Strategy.place_batch_order.
  rewrite (method_bind_ok _ _ _ _ _ (_get_next_num_fits "task_id" self Hfit)).
  reflexivity.
Qed.

(** X9.  A rebalance with nothing to do: when every goal already equals the
    held size, [goal_portfolio] sends nothing to the gateway, registers
    nothing with the tracker and writes nothing into the task map; all that
    changes is the task-id counter, which advances by one. *)
Theorem goal_portfolio_nothing_to_do (self : Strategy.t) (goals : list GoalPosition.t) :
  length goals = length (Strategy.universe self) ->
  int64_fits (Strategy.trade_date self) = true ->
  holdings_tracked self ->
  (forall goal, goal ∈ goals ->
     GoalPosition.size goal = held_size self (GoalPosition.symbol goal)) ->
  Strategy.goal_portfolio goals self = (Ok (), bump "task_id" self).
Proof.
  intros Hlen Hfit Htracked Hmet. unfold Strategy.goal_portfolio.
  rewrite (method_bind_ok _ _ self self (length (Strategy.universe self))) by reflexivity.
  rewrite (bool_decide_eq_true_2 _ Hlen).
  rewrite (method_bind_ok _ _ _ _ _ (goal_portfolio_loop_run self goals Htracked [])).
  rewrite app_nil_l.
  assert (Hnone : diff_orders self goals = []).
  { unfold diff_orders. clear Hlen. induction goals as [|goal goals IH]; [reflexivity|].
    cbn [omap list_omap]. unfold diff_order at 1.
    rewrite decide_True.
    - apply IH. intros g Hg. apply Hmet. apply elem_of_cons. right. exact Hg.
    - rewrite (Hmet goal) by (apply elem_of_cons; left; reflexivity). lia. }
  rewrite Hnone.
  rewrite (method_bind_ok _ _ _ _ _ (place_batch_order_nil self Hfit)). reflexivity.
Qed.

Lemma goal_portfolio_nothing_to_do_witness :
  Strategy.goal_portfolio [GoalPosition.mk "A" 300; GoalPosition.mk "B" 0] holding_strategy
  = (Ok (), bump "task_id" holding_strategy).
Proof.
  apply goal_portfolio_nothing_to_do.
  - reflexivity.
  - reflexivity.
  - exact holding_strategy_tracked.
  - intros goal Hgoal. apply elem_of_cons in Hgoal. destruct Hgoal as [->|Hgoal].
    + vm_compute. reflexivity.
    + apply list_elem_of_singleton in Hgoal. subst goal. vm_compute. reflexivity.
Defined.

(** ** Liquidation *)

Lemma liquidate_all_loop_run (secs : list string) :
  forall self : AlphaStrategy.t,
    int64_fits (Strategy.trade_date (AlphaStrategy.base self)) = true ->
    (forall sec, sec ∈ secs ->
       is_Some (PortfolioManager.positions (Strategy.pm (AlphaStrategy.base self)) !! sec)) ->
    exists (placed : list Order.t) (self' : AlphaStrategy.t),
      AlphaStrategy.liquidate_all_loop secs self = (Ok (), self')
      /\ Gateway.calls (Strategy.gateway (AlphaStrategy.base self'))
         = Gateway.calls (Strategy.gateway (AlphaStrategy.base self)) ++ map GwPlace placed
      /\ PortfolioManager.orders (Strategy.pm (AlphaStrategy.base self'))
         = PortfolioManager.orders (Strategy.pm (AlphaStrategy.base self)) ++ placed
      /\ Forall2 (liquidation_of (AlphaStrategy.base self)) secs placed
      /\ same_frame (AlphaStrategy.base self) (AlphaStrategy.base self')
      /\ AlphaStrategy.weights self' = AlphaStrategy.weights self.
Proof.
  induction secs as [|sec rest IH]; intros self Hfit Htracked.
  - exists [], self. simpl. rewrite !app_nil_r.
    repeat split; try reflexivity. constructor.
  - cbn [AlphaStrategy.liquidate_all_loop]. unfold PortfolioManager.get_position.
    destruct (Htracked sec) as [p Hp]; [apply elem_of_cons; left; reflexivity|].
    rewrite Hp.
    destruct (place_order_run (AlphaStrategy.base self) sec SELL (1 # 1000)
                (Position.curr_size p) Hfit)
      as (base' & Hrun & _ & Hpm & Hcalls & Hframe).
    set (order := placed_order sec SELL (1 # 1000) (Position.curr_size p)
                    (AlphaStrategy.base self)) in *.
    rewrite method_bind_run. unfold AlphaStrategy.on_base at 1. rewrite Hrun.
    match goal with
    | |- context [AlphaStrategy.liquidate_all_loop rest ?st] => set (self1 := st)
    end.
    assert (Hfit1 : int64_fits (Strategy.trade_date (AlphaStrategy.base self1)) = true).
    { subst self1. simpl. destruct Hframe as (-> & _). exact Hfit. }
    assert (Htracked1 : forall s, s ∈ rest ->
              is_Some (PortfolioManager.positions
                         (Strategy.pm (AlphaStrategy.base self1)) !! s)).
    { intros s Hs. subst self1. simpl.
      destruct Hframe as (_ & _ & _ & _ & -> & _).
      apply Htracked. apply elem_of_cons. right. exact Hs. }
    destruct (IH self1 Hfit1 Htracked1)
      as (placed & self' & Hloop & Hcalls' & Hpm' & Hliq & Hframe' & Hw).
    exists (order :: placed), self'.
    split; [exact Hloop|].
    split. { rewrite Hcalls'. subst self1. simpl. rewrite Hcalls, <- app_assoc.
             reflexivity. }
    split. { rewrite Hpm'. subst self1. simpl. rewrite Hpm, <- app_assoc. reflexivity. }
    split.
    { constructor.
      - unfold liquidation_of. subst order. simpl. rewrite Hp. repeat split.
      - apply (Forall2_impl _ _ _ _ Hliq). intros s o (H1 & H2 & H3 & H4).
        repeat split; try assumption. rewrite H4. subst self1. simpl.
        destruct Hframe as (_ & _ & _ & _ & -> & _). reflexivity. }
    split.
    { apply (same_frame_trans _ (AlphaStrategy.base self1)); [exact Hframe|exact Hframe']. }
    rewrite Hw. reflexivity.
Qed.


Lemma two_holdings_tracked : holdings_tracked (AlphaStrategy.base two_holdings).
Proof.
  intros sec Hin.
  change (sec ∈ ({["A"%string]} ∪ {["B"%string]} : gset string)) in Hin.
  apply elem_of_union in Hin. destruct Hin as [Hin|Hin];
    apply elem_of_singleton in Hin; subst sec; eexists; reflexivity.
Qed.


(** * Further properties of the weight arithmetic *)

(** ** When the translation returns *)

(** X11.  For an allowed execution style and a suspension list,
    [generate_weights_order] returns goals exactly when every symbol that is
    neither suspended nor of negligible weight has a price that is not zero,
    a finite lot quotient and a lot count that converts to a float; otherwise
    it raises and gives no partial result.  When it returns, the goals are
    one per entry of the weight mapping, for the same symbols in the same
    order. *)
Theorem translation_returns_iff_priced (self : AlphaStrategy.t)
    (weights_dic : list (string * float)) (turnover : float) (prices : gmap string float)
    (algo : string) (suspensions : list string) :
  algo = "close"%string \/ algo = "vwap"%string ->
  ((exists goals cash_left,
      AlphaStrategy.generate_weights_order self weights_dic turnover prices algo
        (Some suspensions) = Ok (goals, cash_left))
   <-> priced turnover prices suspensions weights_dic)
  /\ (forall goals cash_left,
        AlphaStrategy.generate_weights_order self weights_dic turnover prices algo
          (Some suspensions) = Ok (goals, cash_left) ->
        map GoalPosition.symbol goals = map fst weights_dic).
Proof.
  intros Halgo. split; [split|].
  - intros (goals & cash_left & Hrun).
    rewrite (generate_weights_order_allowed _ _ _ _ _ _ Halgo) in Hrun.
    destruct (AlphaStrategy.generate_weights_order_loop _ _ _ _ _ _ _)
      as [[goals' cash_used]|e] eqn:Hloop; [|discriminate].
    exact (generate_weights_order_loop_priced _ _ _ _ _ _ _ _ _ Hloop).
  - intros Hpriced.
    destruct (generate_weights_order_loop_total self turnover prices suspensions
                weights_dic Hpriced [] 0%float) as (goals & cash_used & Hloop).
    exists goals, (turnover - cash_used)%float.
    rewrite (generate_weights_order_allowed _ _ _ _ _ _ Halgo), Hloop. reflexivity.
  - intros goals cash_left Hrun. apply generate_weights_order_ok in Hrun.
    destruct Hrun as [-> _]. rewrite map_map. apply map_ext. intros [sec w]. reflexivity.
Qed.

Lemma translation_returns_iff_priced_witness :
  ~ (exists goals cash_left,
       AlphaStrategy.generate_weights_order example_alpha
         [("A"%string, 0.5%float); ("C"%string, 0.5%float)] 100000%float example_prices
         "close" (Some []) = Ok (goals, cash_left))
  /\ (exists goals cash_left,
        AlphaStrategy.generate_weights_order example_alpha
          [("A"%string, 0.5%float); ("C"%string, 0.5%float)] 100000%float example_prices
          "close" (Some ["C"%string]) = Ok (goals, cash_left)
        /\ map GoalPosition.symbol goals = ["A"; "C"]%string).
Proof.
  split.
  - intros Hret.
    apply (proj1 (translation_returns_iff_priced example_alpha
                    [("A"%string, 0.5%float); ("C"%string, 0.5%float)] 100000%float
                    example_prices "close" [] (or_introl eq_refl))) in Hret.
    destruct (Hret "C"%string 0.5%float) as (price & x & Hprice & _).
    + apply elem_of_cons. right. apply list_elem_of_singleton. reflexivity.
    + apply not_elem_of_nil.
    + reflexivity.
    + vm_compute in Hprice. discriminate.
  - destruct (translation_returns_iff_priced example_alpha
                [("A"%string, 0.5%float); ("C"%string, 0.5%float)] 100000%float
                example_prices "close" ["C"%string] (or_introl eq_refl)) as [Hiff Hsym].
    destruct (proj2 Hiff) as (goals & cash_left & Hrun).
    + intros sec w Hin Hnin _. apply elem_of_cons in Hin. destruct Hin as [[= -> ->]|Hin].
      * exists 10%float. eexists. split; [reflexivity|]. split; [reflexivity|].
        split; [vm_compute; reflexivity|]. split; vm_compute; reflexivity.
      * apply list_elem_of_singleton in Hin. injection Hin as -> ->.
        exfalso. apply Hnin. apply list_elem_of_singleton. reflexivity.
    + exists goals, cash_left. split; [exact Hrun|]. exact (Hsym goals cash_left Hrun).
Defined.

Lemma cash_after_traded (turnover : float) (prices : gmap string float)
    (suspensions : list string) (weights_dic : list (string * float)) :
  forall cash,
    cash_after turnover prices suspensions cash
      (filter (fun kv => traded suspensions kv = true) weights_dic)
    = cash_after turnover prices suspensions cash weights_dic.
Proof.
  induction weights_dic as [|[sec w] rest IH]; intros cash; [reflexivity|].
  rewrite filter_cons.
  destruct (decide (traded suspensions (sec, w) = true)) as [Ht|Ht].
  - rewrite (cash_after_cons _ _ _ _ (sec, w) rest).
    rewrite (cash_after_cons _ _ _ _ (sec, w) (filter _ rest)). apply IH.
  - rewrite (cash_after_cons _ _ _ _ (sec, w) rest), IH. f_equal.
    unfold cash_after, entry_cash. cbn [foldl fst snd].
    destruct (decide (sec ∈ suspensions)) as [Hin|Hnin]; [reflexivity|].
    destruct (negligible w) eqn:Hneg; [reflexivity|].
    exfalso. apply Ht. unfold traded. cbn [fst snd].
    rewrite (bool_decide_eq_false_2 _ Hnin), Hneg. reflexivity.
Qed.

(** X12.  Positions that are not traded.  In every run of
    [generate_weights_order] that returns, a suspended symbol with a tracked
    position keeps exactly its current size as goal, whatever its weight,
    and a symbol that is not suspended and whose weight is below 1e-8 in
    absolute value gets the goal 0, whatever its price (it need not even have
    one).  Neither kind of symbol uses any cash: the cash left is the same as
    for the weight mapping without these symbols. *)
Theorem untraded_goals (self : AlphaStrategy.t) (weights_dic : list (string * float))
    (turnover : float) (prices : gmap string float) (algo : string)
    (suspensions : list string) (goals : list GoalPosition.t) (cash_left : float) :
  AlphaStrategy.generate_weights_order self weights_dic turnover prices algo
    (Some suspensions) = Ok (goals, cash_left) ->
  (forall i sec w p,
     weights_dic !! i = Some (sec, w) -> sec ∈ suspensions ->
     PortfolioManager.get_position (Strategy.pm (AlphaStrategy.base self)) sec
       (Strategy.trade_date (AlphaStrategy.base self)) = Some p ->
     goals !! i = Some (GoalPosition.mk sec (Position.curr_size p)))
  /\ (forall i sec w,
        weights_dic !! i = Some (sec, w) -> sec ∉ suspensions ->
        (abs w <? 0x1.5798ee2308c3ap-27)%float = true ->
        goals !! i = Some (GoalPosition.mk sec 0))
  /\ cash_left
     = (turnover - total_cash turnover prices suspensions
                     (filter (fun kv => traded suspensions kv = true) weights_dic))%float.
Proof.
  intros Hrun. apply generate_weights_order_ok in Hrun. destruct Hrun as [-> Hcash].
  split; [|split].
  - intros i sec w p Hi Hin Hp. rewrite list_lookup_fmap, Hi. simpl.
    unfold entry_goal. cbn [fst snd]. rewrite (decide_True _ _ Hin).
    unfold PortfolioManager.get_position in Hp. rewrite Hp. reflexivity.
  - intros i sec w Hi Hnin Hw. rewrite list_lookup_fmap, Hi. simpl.
    unfold entry_goal. cbn [fst snd]. rewrite (decide_False _ _ Hnin).
    unfold negligible. rewrite Hw. reflexivity.
  - rewrite Hcash. unfold total_cash. rewrite cash_after_traded. reflexivity.
Qed.

(** A holds 700 shares and is suspended, and the weight of B is 2^-30: the
    goals are 700 for A and 0 for B, and the whole turnover is left. *)
Lemma untraded_goals_witness :
  exists goals cash_left,
    AlphaStrategy.generate_weights_order frozen_alpha
      [("A"%string, 0.5%float); ("B"%string, 0x1p-30%float)] 100000%float ∅ "close"
      (Some ["A"%string]) = Ok (goals, cash_left)
    /\ goals = [GoalPosition.mk "A" 700; GoalPosition.mk "B" 0]
    /\ cash_left = 100000%float.
Proof.
  destruct (AlphaStrategy.generate_weights_order frozen_alpha
              [("A"%string, 0.5%float); ("B"%string, 0x1p-30%float)] 100000%float ∅
              "close" (Some ["A"%string])) as [[goals cash_left]|e] eqn:Hrun.
  - destruct (untraded_goals _ _ _ _ _ _ _ _ Hrun) as (Hfrozen & Hzero & Hcash).
    exists goals, cash_left. split; [reflexivity|]. split.
    + apply list_eq. intros [|[|i]].
      * apply (Hfrozen 0%nat "A"%string 0.5%float (Position.mk 700)); try reflexivity.
        apply list_elem_of_singleton. reflexivity.
      * apply (Hzero 1%nat "B"%string 0x1p-30%float); try reflexivity.
        intros Hin. apply list_elem_of_singleton in Hin. discriminate.
      * apply generate_weights_order_ok in Hrun. destruct Hrun as [-> _]. reflexivity.
    + rewrite Hcash. vm_compute. reflexivity.
  - vm_compute in Hrun. discriminate.
Defined.

(** X13.  Lot rounding acts on the float quotient.  For the weight 0.29 (as
    a float) of a turnover of 100000 at the price 20,
    [generate_weights_order] gives 14 lots and leaves 72000, where the
    decimal quotient 0.29 * 100000 / 20 / 100 would be the tie 14.5: the
    float product is just below 29000.  For the weight 0.7 (as a float) of a
    turnover of 500 at the price 1 it gives 4 lots and leaves 100, although
    the float is below 0.7: the float quotient is exactly 3.5, a tie that
    [round] takes away from zero. *)
Theorem translation_rounds_float_quotient :
  AlphaStrategy.generate_weights_order example_alpha
    [("A"%string, 0x1.28f5c28f5c28fp-2%float)] 100000%float
    (<["A"%string := 20%float]> ∅) "close" (Some [])
  = Ok ([GoalPosition.mk "A" 14], 72000%float)
  /\ AlphaStrategy.generate_weights_order example_alpha
       [("A"%string, 0x1.6666666666666p-1%float)] 500%float
       (<["A"%string := 1%float]> ∅) "close" (Some [])
     = Ok ([GoalPosition.mk "A" 4], 100%float)
  /\ (lot_quotient 0x1.6666666666666p-1%float 500%float 1%float ≫= fun x => Some (Qred x))
     = Some (7 # 2).
Proof.
  split; [vm_compute; reflexivity|]. split; vm_compute; reflexivity.
Qed.

(** X14.  The default [suspensions=None] cannot be used with weights: for an
    allowed execution style and a weight mapping that is not empty,
    [generate_weights_order] with [suspensions=None] raises [TypeError] at
    the first symbol, whatever the weights and prices are; only for an empty
    weight mapping does it return (no goals and the whole turnover left). *)
Theorem translation_without_suspension_list (self : AlphaStrategy.t)
    (weights_dic : list (string * float)) (turnover : float) (prices : gmap string float)
    (algo : string) :
  algo = "close"%string \/ algo = "vwap"%string ->
  (weights_dic ≠ [] ->
   AlphaStrategy.generate_weights_order self weights_dic turnover prices algo None
   = Raise (TypeError "argument of type 'NoneType' is not iterable"))
  /\ (weights_dic = [] ->
      AlphaStrategy.generate_weights_order self weights_dic turnover prices algo None
      = Ok ([], (turnover - 0)%float)).
Proof.
  intros Halgo. rewrite (generate_weights_order_allowed _ _ _ _ _ _ Halgo).
  split.
  - intros Hne. destruct weights_dic as [|[sec w] rest]; [congruence|]. reflexivity.
  - intros ->. reflexivity.
Qed.

Lemma translation_without_suspension_list_witness :
  AlphaStrategy.generate_weights_order example_alpha example_weights 100000%float
    example_prices "close" None
  = Raise (TypeError "argument of type 'NoneType' is not iterable").
Proof.
  apply (proj1 (translation_without_suspension_list example_alpha example_weights
                  100000%float example_prices "close" (or_introl eq_refl))).
  discriminate.
Defined.

(** ** Re-weighting *)

Lemma renormalized_dom (bound : Q) (ws : weight_map) :
  dom (renormalized bound ws) = dom ws.
Proof.
  unfold renormalized. destruct (f_ltb (Num bound) (abs_total ws)); [|reflexivity].
  apply dom_fmap_L.
Qed.

Lemma finite_of_items (ws : weight_map) :
  Forall (fun kv => exists q, kv.2 = Num q) (map_to_list ws) -> finite ws.
Proof.
  intros Hall k v Hk. apply elem_of_map_to_list in Hk.
  exact (proj1 (Forall_forall _ _) Hall _ Hk).
Qed.

(** X15.  What [re_weight_suspension] leaves behind.  The method does nothing
    without suspensions ([None] or an empty list) and raises [ValueError]
    with the weights untouched when the list is as long as the universe.
    Otherwise, when the weights held are all numbers, the weights it stores
    are numbers for the same symbols, and either their absolute values sum
    to 1 (within 1e-8) or every one of them is 0. *)
Theorem re_weight_suspension_outcome (self : AlphaStrategy.t) :
  AlphaStrategy.re_weight_suspension None self = (Ok (), self)
  /\ AlphaStrategy.re_weight_suspension (Some []) self = (Ok (), self)
  /\ (forall suspensions,
        suspensions ≠ [] ->
        length suspensions = length (AlphaStrategy.universe self) ->
        AlphaStrategy.re_weight_suspension (Some suspensions) self
        = (Raise (ValueError "All suspended"), self))
  /\ (forall suspensions (ws : weight_map),
        suspensions ≠ [] ->
        length suspensions ≠ length (AlphaStrategy.universe self) ->
        AlphaStrategy.weights self = Some ws ->
        finite ws ->
        exists ws' : weight_map,
          AlphaStrategy.re_weight_suspension (Some suspensions) self
          = (Ok (), AlphaStrategy.set_weights ws' self)
          /\ dom ws' = dom ws
          /\ finite ws'
          /\ (near (abs_total ws') 1 \/ forall k q, ws' !! k = Some (Num q) -> q == 0)).
Proof.
  split; [reflexivity|]. split; [reflexivity|]. split.
  - intros suspensions Hne Hlen. unfold AlphaStrategy.re_weight_suspension.
    destruct suspensions as [|s rest]; [congruence|].
    rewrite (bool_decide_eq_true_2 _ Hlen). reflexivity.
  - intros suspensions ws Hne Hlen Hws Hfin. exists (renormalized 0 ws).
    split; [apply re_weight_suspension_run; assumption|].
    split; [apply renormalized_dom|].
    destruct (renormalized_cases 0 ws ltac:(lra) Hfin)
      as (_ & _ & [(_ & _ & Hfin' & Hone)|(Hle & ->)]).
    + split; [exact Hfin'|]. left. apply near_of_value; assumption.
    + split; [exact Hfin|]. right. intros k q Hk.
      apply abs_sum_of_zero in Hle. apply elem_of_map_to_list in Hk.
      exact (proj1 (Forall_forall _ _) Hle _ Hk).
Qed.

(** Weights 3 for A and -1 for B: a list of two symbols is refused, a list of
    one leaves weights whose absolute values sum to 1. *)
Lemma re_weight_suspension_outcome_witness :
  AlphaStrategy.re_weight_suspension (Some ["A"; "A"]%string) example_alpha
    = (Raise (ValueError "All suspended"), example_alpha)
  /\ exists ws' : weight_map,
       AlphaStrategy.re_weight_suspension (Some ["B"%string])
         (AlphaStrategy.set_weights
            (<["A"%string := Num 3]> (<["B"%string := Num (-1)]> ∅)) example_alpha)
       = (Ok (), AlphaStrategy.set_weights ws' example_alpha)
       /\ near (abs_total ws') 1.
Proof.
  destruct (re_weight_suspension_outcome example_alpha) as (_ & _ & Hall & _).
  split; [apply Hall; [discriminate|reflexivity]|].
  destruct (re_weight_suspension_outcome
              (AlphaStrategy.set_weights
                 (<["A"%string := Num 3]> (<["B"%string := Num (-1)]> ∅)) example_alpha))
    as (_ & _ & _ & Hrun).
  destruct (Hrun ["B"%string] (<["A"%string := Num 3]> (<["B"%string := Num (-1)]> ∅)))
    as (ws' & Hws' & _ & _ & Hsum).
  - discriminate.
  - simpl. lia.
  - reflexivity.
  - apply finite_of_items. vm_compute.
    repeat (apply List.Forall_cons; [eexists; reflexivity|]). apply List.Forall_nil.
  - exists ws'. split; [exact Hws'|].
    destruct Hsum as [Hone|Hzero]; [exact Hone|].
    exfalso.
    assert (Heq : (AlphaStrategy.re_weight_suspension (Some ["B"%string])
                     (AlphaStrategy.set_weights
                        (<["A"%string := Num 3]> (<["B"%string := Num (-1)]> ∅))
                        example_alpha)).2
                  = AlphaStrategy.set_weights ws' example_alpha) by (rewrite Hws'; reflexivity).
    vm_compute in Heq. injection Heq as <-.
    pose proof (Hzero "A"%string _ eq_refl) as Hhead. vm_compute in Hhead. discriminate.
Defined.

(** ** What portfolio construction stores *)

Lemma renormalized_factor (bound : Q) (ws : weight_map) :
  0 <= bound -> finite ws ->
  exists s, 0 < s
    /\ forall k c, ws !! k = Some (Num c) ->
         exists w, renormalized bound ws !! k = Some (Num w) /\ w * s == c.
Proof.
  intros Hbound Hfin.
  destruct (renormalized_cases bound ws Hbound Hfin)
    as (_ & _ & [(Hlt & -> & _ & _)|(_ & ->)]).
  - exists (abs_sum_of (map_to_list ws)). split; [lra|].
    intros k c Hk. exists (c / abs_sum_of (map_to_list ws)).
    split; [apply scaled_lookup; [lra|exact Hk]|]. field. lra.
  - exists 1. split; [lra|]. intros k c Hk. exists c. split; [exact Hk|ring].
Qed.

Lemma cleaned_dom (stock_selector : option (list string)) (raw : weight_map) :
  dom (cleaned stock_selector raw) = dom raw.
Proof.
  apply set_eq. intros k. rewrite !elem_of_dom, cleaned_lookup. apply fmap_is_Some.
Qed.



(** ** Equal weights *)

Lemma equal_weight_lookup (l : list string) (k : string) :
  forall d : weight_map,
    foldl (fun d k => <[k := Num 1]> d) d l !! k
    = if decide (k ∈ l) then Some (Num 1) else d !! k.
Proof.
  induction l as [|u l IH]; intros d.
  - rewrite decide_False; [reflexivity|apply not_elem_of_nil].
  - cbn [foldl]. rewrite IH.
    destruct (decide (k ∈ l)) as [Hin|Hnin].
    + rewrite decide_True; [reflexivity|apply elem_of_cons; right; exact Hin].
    + destruct (decide (k = u)) as [->|Hne].
      * rewrite lookup_insert_eq.
        rewrite decide_True; [reflexivity|apply elem_of_cons; left; reflexivity].
      * rewrite lookup_insert_ne by congruence.
        rewrite decide_False; [reflexivity|].
        intros Hin. apply elem_of_cons in Hin. destruct Hin; contradiction.
Qed.

Lemma abs_sum_of_ones (items : list (string * pyfloat)) :
  Forall (fun kv => kv.2 = Num 1) items ->
  abs_sum_of items == inject_Z (Z.of_nat (length items)).
Proof.
  induction 1 as [|[k v] l Hv _ IH]; [reflexivity|].
  rewrite abs_sum_of_cons, IH. cbn [snd length] in *. subst v. cbn [number].
  rewrite Nat2Z.inj_succ. unfold Z.succ. rewrite inject_Z_plus.
  change (Qabs 1) with 1. change (inject_Z 1) with 1. ring.
Qed.

(** X17.  Equal weighting end to end: when the registered method is
    [equal_weight] and there is no stock selector, [portfolio_construction]
    over a universe of [n >= 1] distinct symbols stores exactly one weight
    per distinct symbol (a symbol listed twice in the universe counts once),
    each equal to [1 / n]. *)
Theorem equal_weight_construction (self : AlphaStrategy.t) :
  let symbols : gset string := list_to_set (AlphaStrategy.universe self) in
  let n := inject_Z (Z.of_nat (size symbols)) in
  AlphaStrategy.func_table self !! AlphaStrategy.pc_method self
    = Some (Ok (Some (AlphaStrategy.equal_weight self).1,
                (AlphaStrategy.equal_weight self).2)) ->
  AlphaStrategy.stock_selector self = None ->
  AlphaStrategy.universe self ≠ [] ->
  exists ws : weight_map,
    AlphaStrategy.portfolio_construction self = (Ok (), AlphaStrategy.set_weights ws self)
    /\ dom ws = symbols
    /\ forall k, k ∈ AlphaStrategy.universe self ->
         exists w, ws !! k = Some (Num w) /\ w == 1 / n.
Proof.
  intros symbols n Hfunc Hsel Hne.
  rewrite (portfolio_construction_run _ _ _ Hfunc), Hsel.
  set (ew := (AlphaStrategy.equal_weight self).1).
  assert (Hlook : forall k, ew !! k
                    = if decide (k ∈ AlphaStrategy.universe self) then Some (Num 1)
                      else None).
  { intros k. unfold ew, AlphaStrategy.equal_weight. cbn [fst].
    rewrite equal_weight_lookup, lookup_empty. reflexivity. }
  assert (Hones : forall k v, ew !! k = Some v -> v = Num 1).
  { intros k v. rewrite Hlook. destruct (decide _); congruence. }
  assert (Hclean : cleaned None ew = ew).
  { apply map_eq. intros k. rewrite cleaned_lookup.
    destruct (ew !! k) as [v|] eqn:Hk; [|reflexivity].
    rewrite (Hones k v Hk). reflexivity. }
  rewrite Hclean.
  assert (Hdom : dom ew = symbols).
  { apply set_eq. intros k. rewrite elem_of_dom, Hlook. unfold symbols.
    rewrite elem_of_list_to_set. destruct (decide _) as [Hin|Hnin].
    - split; [intros _; exact Hin|eauto].
    - split; [intros [v Hv]; discriminate|contradiction]. }
  assert (Hfin : finite ew).
  { intros k v Hk. rewrite (Hones k v Hk). eauto. }
  assert (Hsum : abs_sum_of (map_to_list ew) == n).
  { rewrite abs_sum_of_ones.
    - unfold n. rewrite length_map_to_list, <- Hdom, size_dom. reflexivity.
    - apply Forall_forall. intros [k v] Hkv. apply elem_of_map_to_list in Hkv.
      exact (Hones k v Hkv). }
  assert (Hn : 1 <= n).
  { unfold n. change 1 with (inject_Z 1). rewrite <- Zle_Qle.
    assert (Hsize : size symbols ≠ 0%nat); [|lia].
    apply size_non_empty_iff. destruct (AlphaStrategy.universe self) as [|u us] eqn:Hu;
      [congruence|].
    intros Hempty. assert (Hin : u ∈ symbols).
    { unfold symbols. try rewrite Hu. apply elem_of_list_to_set, elem_of_cons. left.
      reflexivity. }
    rewrite Hempty in Hin. exact (not_elem_of_empty u Hin). }
  destruct (renormalized_cases eps ew ltac:(unfold eps; lra) Hfin)
    as (_ & _ & [(_ & Heq & _ & _)|(Hle & _)]).
  2:{ unfold eps in Hle. exfalso. lra. }
  eexists. split; [reflexivity|]. split; [rewrite renormalized_dom; exact Hdom|].
  intros k Hk. exists (1 / abs_sum_of (map_to_list ew)). split.
  - rewrite Heq. apply scaled_lookup; [lra|]. rewrite Hlook.
    rewrite (decide_True _ _ Hk). reflexivity.
  - rewrite Hsum. reflexivity.
Qed.

(** Over the universe B, A, B, C the weight of B is one third. *)
Lemma equal_weight_construction_witness :
  exists (ws : weight_map) (w : Q),
    AlphaStrategy.portfolio_construction equal_example
    = (Ok (), AlphaStrategy.set_weights ws equal_example)
    /\ ws !! "B"%string = Some (Num w)
    /\ w == 1 # 3.
Proof.
  destruct (equal_weight_construction equal_example) as (ws & Hrun & _ & Hval).
  - reflexivity.
  - reflexivity.
  - discriminate.
  - destruct (Hval "B"%string) as (w & Hw & Hthird).
    + apply elem_of_cons. left. reflexivity.
    + exists ws, w. split; [exact Hrun|]. split; [exact Hw|].
      rewrite Hthird. vm_compute. reflexivity.
Defined.

(** ** Factor-value weights *)

Lemma np_min_fold (rest : list pyfloat) :
  Forall (fun x => exists q, x = Num q) rest ->
  forall v : Q,
    exists m : Q,
      foldl (fun m x => if f_ltb x m then x else m) (Num v) rest = Num m
      /\ m <= v
      /\ forall q, Num q ∈ rest -> m <= q.
Proof.
  induction 1 as [|x rest [qx ->] _ IH]; intros v.
  - exists v. split; [reflexivity|]. split; [lra|]. intros q Hq. inversion Hq.
  - cbn [foldl f_ltb].
    destruct (Qltb qx v) eqn:Hlt.
    + apply Qltb_true in Hlt. destruct (IH qx) as (m & Hrun & Hle & Hall).
      exists m. split; [exact Hrun|]. split; [lra|].
      intros q Hq. apply elem_of_cons in Hq. destruct Hq as [[= ->]|Hq]; [exact Hle|].
      apply Hall. exact Hq.
    + apply Qltb_false in Hlt. destruct (IH v) as (m & Hrun & Hle & Hall).
      exists m. split; [exact Hrun|]. split; [exact Hle|].
      intros q Hq. apply elem_of_cons in Hq. destruct Hq as [[= ->]|Hq]; [lra|].
      apply Hall. exact Hq.
Qed.

Lemma np_min_least (w : weight_map) :
  w ≠ ∅ -> finite w ->
  exists m : Q,
    AlphaStrategy.np_min (values w) = Ok (Num m)
    /\ forall k q, w !! k = Some (Num q) -> m <= q.
Proof.
  intros Hne Hfin. unfold values.
  pose proof (finite_items w Hfin) as Hitems.
  assert (Hmem : forall k q, w !! k = Some (Num q) -> Num q ∈ (map_to_list w).*2).
  { intros k q Hk. apply list_elem_of_fmap. exists (k, Num q).
    split; [reflexivity|]. apply elem_of_map_to_list. exact Hk. }
  destruct (map_to_list w) as [|[k0 v0] rest] eqn:Hlist.
  { exfalso. apply Hne. apply map_to_list_empty_iff. exact Hlist. }
  apply Forall_cons in Hitems. destruct Hitems as [[q0 Hq0] Hrest].
  cbn [snd] in Hq0. subst v0.
  destruct (np_min_fold rest.*2) with (v := q0) as (m & Hrun & Hle & Hall).
  { apply Forall_fmap. exact Hrest. }
  exists m. split.
  - cbn [fmap list_fmap snd AlphaStrategy.np_min]. f_equal. exact Hrun.
  - intros k q Hk. specialize (Hmem k q Hk). cbn [fmap list_fmap snd] in Hmem.
    apply elem_of_cons in Hmem. destruct Hmem as [[= ->]|Hmem]; [exact Hle|].
    apply Hall. exact Hmem.
Qed.

Lemma long_only_weight_adjust_shift (w : weight_map) :
  w ≠ ∅ -> finite w ->
  exists (w' : weight_map) (delta : Q),
    AlphaStrategy.long_only_weight_adjust w = Ok w'
    /\ 0 <= delta
    /\ dom w' = dom w
    /\ forall k q, w !! k = Some (Num q) ->
         exists q', w' !! k = Some (Num q') /\ q' == q + delta /\ 0 <= q'.
Proof.
  intros Hne Hfin. unfold AlphaStrategy.long_only_weight_adjust.
  destruct (np_min_least w Hne Hfin) as (w_min & -> & Hleast).
  cbn [mbind result_bind f_ltb].
  destruct (Qltb w_min 0) eqn:Hneg.
  - apply Qltb_true in Hneg.
    exists ((fun v => f_add v (f_mul (Num 2) (f_abs (Num w_min)))) <$> w), (2 * Qabs w_min).
    assert (Habs : Qabs w_min == - w_min) by (apply Qabs_neg; lra).
    split; [reflexivity|]. split; [lra|]. split; [apply dom_fmap_L|].
    intros k q Hk. exists (q + 2 * Qabs w_min).
    split; [rewrite lookup_fmap, Hk; reflexivity|]. split; [reflexivity|].
    specialize (Hleast k q Hk). lra.
  - apply Qltb_false in Hneg. exists w, 0.
    split; [reflexivity|]. split; [lra|]. split; [reflexivity|].
    intros k q Hk. exists q. split; [exact Hk|]. split; [ring|].
    specialize (Hleast k q Hk). lra.
Qed.

Lemma forecast_cleaned (forecast : weight_map) :
  no_infinity forecast ->
  let w : weight_map := (fun v => if isnan v then Num 0 else v) <$> forecast in
  finite w
  /\ dom w = dom forecast
  /\ (forecast ≠ ∅ -> w ≠ ∅)
  /\ forall k v, forecast !! k = Some v ->
       exists q, w !! k = Some (Num q)
         /\ (v = NaN -> q = 0) /\ (forall q', v = Num q' -> q = q').
Proof.
  intros Hraw w.
  assert (Hlook : forall k v, forecast !! k = Some v ->
            exists q, w !! k = Some (Num q)
              /\ (v = NaN -> q = 0) /\ (forall q', v = Num q' -> q = q')).
  { intros k v Hk. unfold w. rewrite lookup_fmap, Hk. cbn [fmap option_fmap option_map].
    destruct (Hraw k) as [Hp Hn]. rewrite Hk in Hp, Hn.
    destruct v as [q| | |]; try congruence.
    - exists q. split; [reflexivity|]. split; [discriminate|]. intros q' [= <-]. reflexivity.
    - exists 0. split; [reflexivity|]. split; [reflexivity|]. discriminate. }
  split; [|split; [apply dom_fmap_L|split; [|exact Hlook]]].
  - intros k v. unfold w. rewrite lookup_fmap.
    destruct (forecast !! k) as [u|] eqn:Hu; [|discriminate].
    destruct (Hlook k u Hu) as (q & Hq & _). unfold w in Hq. rewrite lookup_fmap, Hu in Hq.
    rewrite Hq. intros [= <-]. eauto.
  - intros Hne Hempty. apply Hne. unfold w in Hempty.
    apply fmap_empty_inv in Hempty. exact Hempty.
Qed.


Lemma forecast_example_no_infinity :
  forall m, AlphaStrategy.revenue_model forecast_example = Some m ->
    no_infinity (AlphaStrategy.make_forecast m).
Proof.
  intros m [= <-]. apply no_infinity_items. vm_compute.
  repeat constructor; intros H; discriminate H.
Qed.


Lemma factor_value_weight_nonneg (models : AlphaStrategy.Models) (ws : weight_map)
    (msg : string) :
  (forall m, AlphaStrategy.revenue_model models = Some m ->
     no_infinity (AlphaStrategy.make_forecast m)) ->
  AlphaStrategy.factor_value_weight models = Ok (ws, msg) ->
  forall k v, ws !! k = Some v -> exists q, v = Num q /\ 0 <= q.
Proof.
  intros Hraw. unfold AlphaStrategy.factor_value_weight.
  destruct (AlphaStrategy.revenue_model models) as [m|]; [|discriminate].
  specialize (Hraw m eq_refl).
  destruct (decide (AlphaStrategy.make_forecast m = ∅)) as [Hnil|Hne].
  { rewrite Hnil, fmap_empty. discriminate. }
  destruct (forecast_cleaned (AlphaStrategy.make_forecast m) Hraw)
    as (Hfin & Hdom & Hnonempty & Hlook).
  destruct (long_only_weight_adjust_shift _ (Hnonempty Hne) Hfin)
    as (w' & delta & Hrun & _ & Hdom' & Hshift).
  cbv zeta. rewrite Hrun. cbn [mbind result_bind]. intros [= <- _] k v Hk.
  assert (Hin : k ∈ dom (AlphaStrategy.make_forecast m)).
  { rewrite <- Hdom, <- Hdom'. apply elem_of_dom. eauto. }
  apply elem_of_dom in Hin. destruct Hin as [u Hu].
  destruct (Hlook k u Hu) as (q & Hq & _).
  destruct (Hshift k q Hq) as (q' & Hq' & _ & Hpos).
  rewrite Hk in Hq'. injection Hq' as ->. eauto.
Qed.



(** ** More on the Monte-Carlo search *)

Section monte_carlo_order.
Variables (universe : list string) (rand : nat -> nat -> Q) (util_func : weight_map -> Q).

Local Abbreviation cand := (AlphaStrategy.candidate universe rand).
Local Abbreviation f := (mc_objective universe rand util_func).

Lemma optimize_mc_loop_first (exps : list nat) :
  forall (min_f : Q) (min_weights : option weight_map),
    (AlphaStrategy.optimize_mc_loop universe rand util_func exps min_f min_weights
       = (min_f, min_weights)
     /\ forall j, j ∈ exps -> min_f <= f j)
    \/ (exists pre i post, exps = pre ++ i :: post
          /\ AlphaStrategy.optimize_mc_loop universe rand util_func exps min_f min_weights
             = (f i, Some (cand i))
          /\ f i < min_f
          /\ (forall j, j ∈ pre -> f i < f j)
          /\ (forall j, j ∈ post -> f i <= f j)).
Proof.
  induction exps as [|i0 rest IH]; intros min_f min_weights.
  - left. split; [reflexivity|]. intros j Hj. inversion Hj.
  - cbn [AlphaStrategy.optimize_mc_loop].
    change (- util_func (cand i0)) with (f i0).
    destruct (Qltb (f i0) min_f) eqn:Hlt.
    + apply Qltb_true in Hlt. right.
      destruct (IH (f i0) (Some (cand i0)))
        as [[Hrun Hall]|(pre & i & post & -> & Hrun & Hbelow & Hpre & Hpost)].
      * exists [], i0, rest. split; [reflexivity|]. split; [exact Hrun|].
        split; [exact Hlt|]. split; [intros j Hj; inversion Hj|exact Hall].
      * exists (i0 :: pre), i, post. split; [reflexivity|]. split; [exact Hrun|].
        split; [lra|]. split; [|exact Hpost].
        intros j Hj. apply elem_of_cons in Hj. destruct Hj as [->|Hj]; [exact Hbelow|].
        apply Hpre. exact Hj.
    + apply Qltb_false in Hlt.
      destruct (IH min_f min_weights)
        as [[Hrun Hall]|(pre & i & post & -> & Hrun & Hbelow & Hpre & Hpost)].
      * left. split; [exact Hrun|].
        intros j Hj. apply elem_of_cons in Hj. destruct Hj as [->|Hj]; [exact Hlt|].
        apply Hall. exact Hj.
      * right. exists (i0 :: pre), i, post. split; [reflexivity|]. split; [exact Hrun|].
        split; [exact Hbelow|]. split; [|exact Hpost].
        intros j Hj. apply elem_of_cons in Hj. destruct Hj as [->|Hj]; [lra|].
        apply Hpre. exact Hj.
Qed.

End monte_carlo_order.

Lemma seq_split_before (n i : nat) (pre post : list nat) :
  seq 0 n = pre ++ i :: post ->
  (i < n)%nat /\ (forall j, (j < i)%nat -> j ∈ pre)
  /\ (forall j, (i < j < n)%nat -> j ∈ post).
Proof.
  intros Hsplit.
  assert (Hi : seq 0 n !! length pre = Some i).
  { rewrite Hsplit. rewrite lookup_app_r by lia. rewrite Nat.sub_diag. reflexivity. }
  apply lookup_seq in Hi. destruct Hi as [Hi Hn]. simpl in Hi. subst i.
  split; [exact Hn|]. split.
  - intros j Hj.
    assert (Hlook : seq 0 n !! j = Some j) by (apply lookup_seq; lia).
    rewrite Hsplit, lookup_app_l in Hlook by exact Hj.
    apply list_elem_of_lookup. eauto.
  - intros j Hj.
    assert (Hlook : seq 0 n !! j = Some j) by (apply lookup_seq; lia).
    rewrite Hsplit, lookup_app_r in Hlook by lia.
    destruct (j - length pre)%nat as [|k] eqn:Hk; [lia|].
    simpl in Hlook. apply list_elem_of_lookup. eauto.
Qed.



(** ** Candidates on the simplex *)

Lemma foldl_insert_items (key : nat -> string) (val : nat -> pyfloat) (l : list nat) :
  forall d : weight_map,
    NoDup (key <$> l) ->
    (forall j, j ∈ l -> d !! key j = None) ->
    map_to_list (foldl (fun d j => <[key j := val j]> d) d l)
    ≡ₚ ((fun j => (key j, val j)) <$> l) ++ map_to_list d.
Proof.
  induction l as [|j l IH]; intros d Hnd Hfresh; [reflexivity|].
  cbn [foldl fmap list_fmap]. apply NoDup_cons in Hnd. destruct Hnd as [Hj Hnd].
  rewrite IH.
  - rewrite map_to_list_insert by (apply Hfresh, elem_of_cons; left; reflexivity).
    cbn [app]. symmetry. apply Permutation_middle.
  - exact Hnd.
  - intros j' Hj'. rewrite lookup_insert_ne.
    + apply Hfresh. apply elem_of_cons. right. exact Hj'.
    + intros Heq. apply Hj. rewrite Heq. apply list_elem_of_fmap. exists j'.
      split; [reflexivity|exact Hj'].
Qed.

Lemma map_nth_seq (l : list string) :
  map (fun j => nth j l ""%string) (seq 0 (length l)) = l.
Proof.
  apply list_eq. intros j. rewrite list_lookup_fmap.
  destruct (l !! j) as [x|] eqn:Hj.
  - pose proof (lookup_lt_Some _ _ _ Hj) as Hlt.
    rewrite (proj2 (lookup_seq 0 (length l) j j)) by lia. simpl.
    rewrite nth_lookup, Hj. reflexivity.
  - pose proof (lookup_ge_None_1 _ _ Hj) as Hge.
    rewrite lookup_ge_None_2 by (rewrite length_seq; exact Hge). reflexivity.
Qed.

Lemma candidate_items (universe : list string) (rand : nat -> nat -> Q) (i : nat) :
  NoDup universe ->
  map_to_list (AlphaStrategy.candidate universe rand i)
  ≡ₚ (fun j => (nth j universe ""%string,
                AlphaStrategy.weights_mat rand (length universe) i j))
       <$> seq 0 (length universe).
Proof.
  intros Hnd. unfold AlphaStrategy.candidate.
  rewrite (foldl_insert_items (fun j => nth j universe ""%string)
             (AlphaStrategy.weights_mat rand (length universe) i)).
  - rewrite map_to_list_empty, app_nil_r. reflexivity.
  - change (NoDup (map (fun j => nth j universe ""%string) (seq 0 (length universe)))).
    rewrite map_nth_seq. exact Hnd.
  - intros j _. apply lookup_empty.
Qed.

Lemma abs_sum_of_row (key : nat -> string) (entry : nat -> Q) (s : Q) (l : list nat) :
  0 < s -> (forall j, j ∈ l -> 0 <= entry j) ->
  abs_sum_of ((fun j => (key j, f_div (Num (entry j)) (Num s))) <$> l)
  == foldr (fun j acc => entry j + acc) 0 l / s.
Proof.
  intros Hs. induction l as [|j l IH]; intros Hpos.
  - change (0 == 0 / s). field. lra.
  - cbn [fmap list_fmap foldr] in *. rewrite abs_sum_of_cons. cbn [snd].
    rewrite IH by (intros k Hk; apply Hpos; apply elem_of_cons; right; exact Hk).
    rewrite (f_div_num (entry j) s) by lra. cbn [number].
    rewrite (Qabs_div_pos _ _ Hs).
    rewrite (Qabs_pos (entry j)) by (apply Hpos; apply elem_of_cons; left; reflexivity).
    field. lra.
Qed.

Lemma candidate_on_simplex (universe : list string) (rand : nat -> nat -> Q) (i : nat) :
  NoDup universe ->
  (forall j, (j < length universe)%nat -> 0 <= rand i j) ->
  0 < AlphaStrategy.row_sum rand (length universe) i ->
  dom (AlphaStrategy.candidate universe rand i) = list_to_set universe
  /\ (forall k v, AlphaStrategy.candidate universe rand i !! k = Some v ->
        exists q, v = Num q /\ 0 <= q)
  /\ near (abs_total (AlphaStrategy.candidate universe rand i)) 1.
Proof.
  intros Hnd Hpos Hsum. pose proof (candidate_items universe rand i Hnd) as Hitems.
  assert (Hentry : forall k v, AlphaStrategy.candidate universe rand i !! k = Some v ->
            exists j, (j < length universe)%nat /\ k = nth j universe ""%string
              /\ v = Num (rand i j / AlphaStrategy.row_sum rand (length universe) i)).
  { intros k v Hk. apply elem_of_map_to_list in Hk. rewrite Hitems in Hk.
    apply list_elem_of_fmap in Hk. destruct Hk as (j & [= -> ->] & Hj).
    apply elem_of_seq in Hj. exists j. split; [lia|]. split; [reflexivity|].
    unfold AlphaStrategy.weights_mat. apply f_div_num. lra. }
  assert (Hfin : finite (AlphaStrategy.candidate universe rand i)).
  { intros k v Hk. destruct (Hentry k v Hk) as (j & _ & _ & ->). eauto. }
  split; [|split].
  - apply set_eq. intros k. rewrite elem_of_dom, elem_of_list_to_set. split.
    + intros [v Hv]. destruct (Hentry k v Hv) as (j & Hj & -> & _).
      apply list_elem_of_lookup. exists j.
      destruct (lookup_lt_is_Some_2 universe j Hj) as [x Hx].
      rewrite (nth_lookup_Some _ _ ""%string _ Hx). exact Hx.
    + intros Hk. apply list_elem_of_lookup in Hk. destruct Hk as [j Hj].
      exists (AlphaStrategy.weights_mat rand (length universe) i j).
      apply elem_of_map_to_list. rewrite Hitems. apply list_elem_of_fmap.
      exists j. split.
      * rewrite (nth_lookup_Some _ _ ""%string _ Hj). reflexivity.
      * apply elem_of_seq. pose proof (lookup_lt_Some _ _ _ Hj). lia.
  - intros k v Hk. destruct (Hentry k v Hk) as (j & Hj & _ & ->).
    eexists. split; [reflexivity|]. apply Qle_shift_div_l; [exact Hsum|].
    specialize (Hpos j Hj). lra.
  - apply near_of_value; [exact Hfin|].
    rewrite (abs_sum_of_perm _ _ Hitems). unfold AlphaStrategy.weights_mat.
    rewrite (abs_sum_of_row _ (rand i) _ _ Hsum).
    + fold (AlphaStrategy.row_sum rand (length universe) i). field. lra.
    + intros j Hj. apply elem_of_seq in Hj. apply Hpos. lia.
Qed.

(** X21.  [optimize_mc] returns a point of the simplex.  Over a universe
    without repeated symbols, when the sampled matrix has no negative entry
    and no row that sums to 0, the weights [optimize_mc] returns (if any)
    are one number per symbol of the universe, none of them negative, and
    they sum to 1 (within 1e-8). *)
Theorem optimize_mc_on_simplex (self : AlphaStrategy.t) (rand : nat -> nat -> Q)
    (util_func : weight_map -> Q) (w : weight_map) (msg : string) :
  let universe := AlphaStrategy.universe self in
  AlphaStrategy.optimize_mc self rand util_func = (Some w, msg) ->
  NoDup universe ->
  (forall i j, (i < 5)%nat -> (j < length universe)%nat -> 0 <= rand i j) ->
  (forall i, (i < 5)%nat -> 0 < AlphaStrategy.row_sum rand (length universe) i) ->
  dom w = list_to_set universe
  /\ (forall k v, w !! k = Some v -> exists q, v = Num q /\ 0 <= q)
  /\ near (abs_total w) 1.
Proof.
  intros universe Hrun Hnd Hpos Hsum. unfold AlphaStrategy.optimize_mc in Hrun.
  destruct (optimize_mc_loop_spec (AlphaStrategy.universe self) rand util_func
              (seq 0 AlphaStrategy.n_exp) sentinel None)
    as [[Heq _]|(i & Hin & Heq & _)]; rewrite Heq in Hrun; [discriminate|].
  injection Hrun as <- _. apply elem_of_experiments in Hin.
  apply candidate_on_simplex; [exact Hnd|intros j Hj; apply Hpos; assumption|].
  apply Hsum. exact Hin.
Qed.

Lemma optimize_mc_on_simplex_witness :
  exists w : weight_map,
    AlphaStrategy.optimize_mc example_alpha example_rand weight_of_A = (Some w, ""%string)
    /\ dom w = list_to_set ["A"; "B"]%string
    /\ near (abs_total w) 1.
Proof.
  destruct (AlphaStrategy.optimize_mc example_alpha example_rand weight_of_A)
    as [[w|] msg] eqn:Hrun.
  - destruct (optimize_mc_on_simplex example_alpha example_rand weight_of_A w msg Hrun)
      as (Hkeys & _ & Hone).
    + change (NoDup ["A"; "B"]%string). apply NoDup_cons. split.
      * intros Hin. apply list_elem_of_singleton in Hin. discriminate.
      * apply NoDup_singleton.
    + intros i j _ _. unfold example_rand.
      change 0 with (inject_Z 0). rewrite <- Zle_Qle. lia.
    + intros i Hi.
      do 5 (destruct i as [|i]; [vm_compute; reflexivity|]). lia.
    + exists w. split; [|split; [exact Hkeys|exact Hone]].
      apply (f_equal snd) in Hrun. vm_compute in Hrun. subst msg. reflexivity.
  - vm_compute in Hrun. discriminate.
Defined.

(** ** The last positions *)

Lemma weight_of_dict_set_eq (k : string) (v : Q) (d : weights_t) :
  weight_of k (AlphaStrategy.dict_set k v d) = Some v.
Proof.
  induction d as [|[k' v'] d IH]; cbn [AlphaStrategy.dict_set weight_of].
  - rewrite String.eqb_refl. reflexivity.
  - destruct (String.eqb_spec k' k) as [->|Hne]; cbn [weight_of].
    + rewrite String.eqb_refl. reflexivity.
    + rewrite (proj2 (String.eqb_neq k' k) Hne). exact IH.
Qed.

Lemma weight_of_dict_set_ne (k k' : string) (v : Q) (d : weights_t) :
  k' ≠ k -> weight_of k' (AlphaStrategy.dict_set k v d) = weight_of k' d.
Proof.
  intros Hne. induction d as [|[k0 v0] d IH]; cbn [AlphaStrategy.dict_set weight_of].
  - rewrite (proj2 (String.eqb_neq k k')) by congruence. reflexivity.
  - destruct (String.eqb_spec k0 k) as [->|Hne0]; cbn [weight_of].
    + rewrite (proj2 (String.eqb_neq k k')) by congruence. reflexivity.
    + rewrite IH. reflexivity.
Qed.

Lemma positions_dict_tracked (positions : gmap string Position.t) (secs : list string) :
  (forall sec, sec ∈ secs -> is_Some (positions !! sec)) ->
  forall d : weights_t,
    exists d',
      AlphaStrategy.positions_dict (map (fun sec => (sec, positions !! sec)) secs) d = Ok d'
      /\ forall sec,
           weight_of sec d'
           = if decide (sec ∈ secs)
             then (fun p => inject_Z (Position.curr_size p)) <$> positions !! sec
             else weight_of sec d.
Proof.
  induction secs as [|s secs IH]; intros Htracked d.
  - exists d. split; [reflexivity|]. intros sec. rewrite decide_False; [reflexivity|].
    apply not_elem_of_nil.
  - cbn [map AlphaStrategy.positions_dict].
    destruct (Htracked s) as [p Hp]; [apply elem_of_cons; left; reflexivity|].
    rewrite Hp.
    destruct (IH (fun sec Hsec => Htracked sec ltac:(apply elem_of_cons; right; exact Hsec))
                (AlphaStrategy.dict_set s (inject_Z (Position.curr_size p)) d))
      as (d' & Hrun & Hlook).
    exists d'. split; [exact Hrun|]. intros sec. rewrite Hlook.
    destruct (decide (sec ∈ secs)) as [Hin|Hnin].
    + rewrite decide_True; [reflexivity|]. apply elem_of_cons. right. exact Hin.
    + destruct (decide (sec = s)) as [->|Hne].
      * rewrite decide_True by (apply elem_of_cons; left; reflexivity).
        rewrite weight_of_dict_set_eq, Hp. reflexivity.
      * rewrite decide_False.
        -- apply weight_of_dict_set_ne. exact Hne.
        -- intros Hin. apply elem_of_cons in Hin. destruct Hin; contradiction.
Qed.

Lemma positions_dict_raises (current_positions : list (string * option Position.t)) :
  forall (d : weights_t) (e : exn),
    AlphaStrategy.positions_dict current_positions d = Raise e ->
    exists msg, e = AttributeError msg.
Proof.
  induction current_positions as [|[sec [p|]] rest IH]; intros d e Hrun.
  - discriminate.
  - cbn [AlphaStrategy.positions_dict] in Hrun. exact (IH _ _ Hrun).
  - injection Hrun as <-. eexists. reflexivity.
Qed.

Lemma positions_dict_untracked (positions : gmap string Position.t) (secs : list string)
    (sec : string) :
  sec ∈ secs -> positions !! sec = None ->
  forall d : weights_t,
    exists msg,
      AlphaStrategy.positions_dict (map (fun sec => (sec, positions !! sec)) secs) d
      = Raise (AttributeError msg).
Proof.
  intros Hin Hnone. induction secs as [|s secs IH]; intros d; [inversion Hin|].
  cbn [map AlphaStrategy.positions_dict].
  destruct (positions !! s) as [p|] eqn:Hp.
  - apply IH. apply elem_of_cons in Hin. destruct Hin as [->|Hin]; [congruence|exact Hin].
  - eexists. reflexivity.
Qed.

Lemma universe_defaults (universe : list string) :
  forall (d : weights_t) (sec : string),
    weight_of sec
      (foldl (fun d sec =>
                match weight_of sec d with
                | Some _ => d
                | None => AlphaStrategy.dict_set sec 0 d
                end) d universe)
    = match weight_of sec d with
      | Some v => Some v
      | None => if decide (sec ∈ universe) then Some 0 else None
      end.
Proof.
  induction universe as [|u universe IH]; intros d sec.
  - cbn [foldl]. destruct (weight_of sec d); [reflexivity|].
    rewrite decide_False; [reflexivity|apply not_elem_of_nil].
  - cbn [foldl]. rewrite IH.
    destruct (weight_of u d) as [vu|] eqn:Hu.
    + destruct (weight_of sec d) as [v|] eqn:Hsec; [reflexivity|].
      destruct (decide (sec ∈ universe)) as [Hin|Hnin].
      * rewrite decide_True; [reflexivity|apply elem_of_cons; right; exact Hin].
      * rewrite decide_False; [reflexivity|].
        intros Hin. apply elem_of_cons in Hin. destruct Hin as [->|Hin]; [congruence|].
        contradiction.
    + destruct (decide (sec = u)) as [->|Hne].
      * rewrite weight_of_dict_set_eq, Hu.
        rewrite decide_True; [reflexivity|apply elem_of_cons; left; reflexivity].
      * rewrite (weight_of_dict_set_ne _ _ _ _ Hne).
        destruct (weight_of sec d); [reflexivity|].
        destruct (decide (sec ∈ universe)) as [Hin|Hnin].
        -- rewrite decide_True; [reflexivity|apply elem_of_cons; right; exact Hin].
        -- rewrite decide_False; [reflexivity|].
           intros Hin. apply elem_of_cons in Hin. destruct Hin; contradiction.
Qed.

(** X22.  [_get_weights_last] covers the holdings and the universe.  When
    every held security has a position, it returns a mapping in which a held
    security has the current size of its position (a share count, not a
    weight), a symbol of the universe that is not held has 0, and no other
    symbol appears.  When some held security has no position it raises
    [AttributeError]. *)
Theorem _get_weights_last_entries (self : AlphaStrategy.t) :
  let pm := Strategy.pm (AlphaStrategy.base self) in
  (holdings_tracked (AlphaStrategy.base self) ->
   exists d,
     AlphaStrategy._get_weights_last self = Ok d
     /\ forall sec,
          weight_of sec d
          = if decide (sec ∈ PortfolioManager.holding_securities pm)
            then (fun p => inject_Z (Position.curr_size p))
                   <$> PortfolioManager.positions pm !! sec
            else if decide (sec ∈ AlphaStrategy.universe self) then Some 0 else None)
  /\ (forall sec,
        sec ∈ PortfolioManager.holding_securities pm ->
        PortfolioManager.positions pm !! sec = None ->
        exists msg, AlphaStrategy._get_weights_last self = Raise (AttributeError msg)).
Proof.
  intros pm. unfold AlphaStrategy._get_weights_last, AlphaStrategy.query_portfolio.
  unfold PortfolioManager.get_position. fold pm. split.
  - intros Htracked.
    destruct (positions_dict_tracked (PortfolioManager.positions pm)
                (elements (PortfolioManager.holding_securities pm))) with (d := @nil (string * Q))
      as (d' & Hrun & Hlook).
    { intros sec Hsec. apply Htracked. apply elem_of_elements. exact Hsec. }
    rewrite Hrun. eexists. split; [reflexivity|].
    intros sec. rewrite universe_defaults, Hlook.
    destruct (decide (sec ∈ elements (PortfolioManager.holding_securities pm))) as [Hin|Hnin].
    + apply elem_of_elements in Hin. rewrite (decide_True _ _ Hin).
      destruct (Htracked sec Hin) as [p Hp]. fold pm in Hp. rewrite Hp. reflexivity.
    + destruct (decide (sec ∈ PortfolioManager.holding_securities pm)) as [Hh|Hh].
      * exfalso. apply Hnin. apply elem_of_elements. exact Hh.
      * reflexivity.
  - intros sec Hin Hnone.
    destruct (positions_dict_untracked (PortfolioManager.positions pm)
                (elements (PortfolioManager.holding_securities pm)) sec) with (d := @nil (string * Q))
      as [msg Hrun]; [apply elem_of_elements; exact Hin|exact Hnone|].
    rewrite Hrun. exists msg. reflexivity.
Qed.

Lemma _get_weights_last_entries_witness :
  exists d,
    AlphaStrategy._get_weights_last frozen_alpha = Ok d
    /\ weight_of "A" d = Some (inject_Z 700)
    /\ weight_of "B" d = Some 0
    /\ weight_of "C" d = None.
Proof.
  destruct (proj1 (_get_weights_last_entries frozen_alpha)) as (d & Hrun & Hlook).
  - intros sec Hin. change (sec ∈ ({["A"%string]} : gset string)) in Hin.
    apply elem_of_singleton in Hin. subst sec. eexists. reflexivity.
  - exists d. split; [exact Hrun|]. rewrite !Hlook. repeat split.
Defined.

(** ** Validation against use *)

Lemma _get_weights_last_raises (self : AlphaStrategy.t) (e : exn) :
  AlphaStrategy._get_weights_last self = Raise e -> exists msg, e = AttributeError msg.
Proof.
  unfold AlphaStrategy._get_weights_last.
  destruct (AlphaStrategy.positions_dict (AlphaStrategy.query_portfolio self) [])
    as [d|e'] eqn:Hdict; [discriminate|].
  simpl. intros [= <-]. exact (positions_dict_raises _ _ _ Hdict).
Qed.

(** X23.  Validation asks for less than the utility needs.  With
    [pc_method = 'mc'], [_validate_parameters] accepts any strategy that has
    at least one of the revenue, cost and risk models; but
    [util_net_revenue] returns a number only when all three are there (and
    the last positions can be read), and that number is revenue minus cost
    minus risk.  So a strategy that passes validation with a model missing
    gets [AttributeError] from every call of the utility. *)
Theorem util_net_revenue_needs_all_models (models : AlphaStrategy.Models)
    (self : AlphaStrategy.t) (weights_target : weight_map) :
  (forall u,
     AlphaStrategy.util_net_revenue models self weights_target = Ok u ->
     exists m calc_cost calc_risk weights_last,
       AlphaStrategy.revenue_model models = Some m
       /\ AlphaStrategy.cost_model models = Some calc_cost
       /\ AlphaStrategy.risk_model models = Some calc_risk
       /\ AlphaStrategy._get_weights_last self = Ok weights_last
       /\ u == AlphaStrategy.forecast_revenue m weights_target
               - calc_cost weights_last weights_target - calc_risk weights_target)
  /\ (AlphaStrategy.pc_method self = "mc"%string ->
      (AlphaStrategy.revenue_model models = None
       \/ AlphaStrategy.cost_model models = None
       \/ AlphaStrategy.risk_model models = None) ->
      ~ (AlphaStrategy.revenue_model models = None
         /\ AlphaStrategy.cost_model models = None
         /\ AlphaStrategy.risk_model models = None) ->
      AlphaStrategy._validate_parameters models self = Ok ()
      /\ exists msg,
           AlphaStrategy.util_net_revenue models self weights_target
           = Raise (AttributeError msg)).
Proof.
  split.
  - intros u. unfold AlphaStrategy.util_net_revenue.
    destruct (AlphaStrategy._get_weights_last self) as [wl|e]; [|discriminate].
    destruct (AlphaStrategy.revenue_model models) as [m|]; [|discriminate].
    destruct (AlphaStrategy.cost_model models) as [calc_cost|]; [|discriminate].
    destruct (AlphaStrategy.risk_model models) as [calc_risk|]; [|discriminate].
    simpl. intros [= <-]. exists m, calc_cost, calc_risk, wl.
    repeat split. ring.
  - intros Hmc Hmissing Hsome. split.
    + unfold AlphaStrategy._validate_parameters. rewrite Hmc.
      change (str_in "mc" ["mc"; "quad_opt"]%string) with true. cbv iota.
      destruct (AlphaStrategy.revenue_model models), (AlphaStrategy.cost_model models),
        (AlphaStrategy.risk_model models); try reflexivity.
      exfalso. apply Hsome. repeat split.
    + unfold AlphaStrategy.util_net_revenue.
      destruct (AlphaStrategy._get_weights_last self) as [wl|e] eqn:Hlast.
      * destruct (AlphaStrategy.revenue_model models) as [m|]; [|eexists; reflexivity].
        destruct (AlphaStrategy.cost_model models) as [calc_cost|]; [|eexists; reflexivity].
        destruct (AlphaStrategy.risk_model models) as [calc_risk|]; [|eexists; reflexivity].
        exfalso. destruct Hmissing as [H|[H|H]]; discriminate.
      * destruct (_get_weights_last_raises _ _ Hlast) as [msg ->].
        exists msg. reflexivity.
Qed.

Lemma util_net_revenue_needs_all_models_witness :
  AlphaStrategy._validate_parameters cost_only mc_example = Ok ()
  /\ exists msg,
       AlphaStrategy.util_net_revenue cost_only mc_example example_ws
       = Raise (AttributeError msg).
Proof.
  apply (proj2 (util_net_revenue_needs_all_models cost_only mc_example example_ws)).
  - reflexivity.
  - left. reflexivity.
  - intros (_ & Hcost & _). discriminate.
Defined.

(** X24.  A method that validates but is not registered.  For
    [pc_method = 'quad_opt'] with at least one of the revenue, cost and risk
    models, [_validate_parameters] succeeds; yet when the table of registered
    methods has no entry of that name, [portfolio_construction] raises
    [KeyError] and leaves the weights as they were.  A [pc_method] outside
    the four known names is refused by the validation with
    [NotImplementedError]. *)
Theorem validated_method_may_be_missing (models : AlphaStrategy.Models)
    (self : AlphaStrategy.t) :
  (AlphaStrategy.pc_method self = "quad_opt"%string ->
   is_Some (AlphaStrategy.revenue_model models)
   \/ is_Some (AlphaStrategy.cost_model models)
   \/ is_Some (AlphaStrategy.risk_model models) ->
   AlphaStrategy.func_table self !! "quad_opt"%string = None ->
   AlphaStrategy._validate_parameters models self = Ok ()
   /\ AlphaStrategy.portfolio_construction self = (Raise (KeyError "quad_opt"), self))
  /\ (AlphaStrategy.pc_method self
        ∉ ["mc"; "quad_opt"; "factor_value_weight"; "equal_weight"]%string ->
      exists msg,
        AlphaStrategy._validate_parameters models self = Raise (NotImplementedError msg)).
Proof.
  split.
  - intros Hmethod Hmodel Hfunc. split.
    + unfold AlphaStrategy._validate_parameters. rewrite Hmethod.
      change (str_in "quad_opt" ["mc"; "quad_opt"]%string) with true. cbv iota.
      destruct (AlphaStrategy.revenue_model models), (AlphaStrategy.cost_model models),
        (AlphaStrategy.risk_model models); try reflexivity.
      exfalso. destruct Hmodel as [[m Hm]|[[m Hm]|[m Hm]]]; discriminate.
    + unfold AlphaStrategy.portfolio_construction. rewrite Hmethod, Hfunc. reflexivity.
  - intros Hunknown. unfold AlphaStrategy._validate_parameters.
    assert (Hnot : forall l, l ⊆ ["mc"; "quad_opt"; "factor_value_weight"; "equal_weight"]%string ->
                     str_in (AlphaStrategy.pc_method self) l = false).
    { intros l Hl. apply str_in_false. intros Hin. apply Hunknown. apply Hl. exact Hin. }
    rewrite !Hnot.
    + eexists. reflexivity.
    + intros x Hx. apply list_elem_of_singleton in Hx. subst x.
      do 3 (apply elem_of_cons; right). apply elem_of_cons. left. reflexivity.
    + intros x Hx. apply list_elem_of_singleton in Hx. subst x.
      do 2 (apply elem_of_cons; right). apply elem_of_cons. left. reflexivity.
    + intros x Hx. apply elem_of_cons in Hx. destruct Hx as [->|Hx].
      * apply elem_of_cons. left. reflexivity.
      * apply list_elem_of_singleton in Hx. subst x.
        apply elem_of_cons. right. apply elem_of_cons. left. reflexivity.
Qed.

Lemma validated_method_may_be_missing_witness :
  AlphaStrategy._validate_parameters
    {| AlphaStrategy.revenue_model := None; AlphaStrategy.cost_model := None;
       AlphaStrategy.risk_model := Some (fun _ => 0) |}
    (AlphaStrategy.mk (fresh_strategy accepting_gateway) None None "quad_opt" ∅) = Ok ()
  /\ AlphaStrategy.portfolio_construction
       (AlphaStrategy.mk (fresh_strategy accepting_gateway) None None "quad_opt" ∅)
     = (Raise (KeyError "quad_opt"),
        AlphaStrategy.mk (fresh_strategy accepting_gateway) None None "quad_opt" ∅).
Proof.
  apply (proj1 (validated_method_may_be_missing
                  {| AlphaStrategy.revenue_model := None; AlphaStrategy.cost_model := None;
                     AlphaStrategy.risk_model := Some (fun _ => 0) |}
                  (AlphaStrategy.mk (fresh_strategy accepting_gateway) None None
                     "quad_opt" ∅))).
  - reflexivity.
  - right. right. eexists. reflexivity.
  - reflexivity.
Defined.
